(** * PdfExcelXlator: a shallow embedding of the extraction, sanitization and
      export pipeline, and the properties its specification states.

    The development follows the Python sources:
    - [Py]: the pieces of Python's [str] and [bytes] the program relies on;
    - [Re]: the backtracking semantics of the regular expressions it compiles;
    - [Exn]: exceptions;
    - [Pandas]: the DataFrame operations the program calls;
    - [data_sanitizer], [pdf_processor], [excel_converter]: the three
      source files of the pipeline;
    - [spec_words], [proof_notions], [samples]: the specification's
      wording where it differs from the code, and what the proofs need.
    Definitions come first, the theorems follow: the properties the
    specification states, then further properties of the extraction, of
    the sanitizer and of the export, module by module. *)

From Stdlib Require Import String Ascii DecimalString NArith ZArith Bool Arith Lia List.
Import ListNotations.

(* ===================================================================== *)
(** * Python text *)
(* ===================================================================== *)

Module Py.

(** A Python [str] is a sequence of Unicode code points. *)
Abbreviation char := N (only parsing).
Abbreviation str := (list N) (only parsing).

Definition ch (a : ascii) : char := N_of_ascii a.
Arguments ch a%_char.

(** An ASCII literal as a [str]. *)
Definition py (s : string) : str := map N_of_ascii (list_ascii_of_string s).
Arguments py s%_string.

Definition LF : char := 10%N.
Definition TAB : char := 9%N.
Definition SP : char := 32%N.

Local Open Scope N_scope.

Definition between (lo hi c : char) : bool := (lo <=? c) && (c <=? hi).

(** [Py_UNICODE_ISSPACE]: the characters [str.strip()], [str.split()] and
    the pattern class [\s] treat as white space. *)
Definition isspace (c : char) : bool :=
  between 9 13 c || between 28 32 c || (c =? 133) || (c =? 160) ||
  (c =? 5760) || between 8192 8202 c || (c =? 8232) || (c =? 8233) ||
  (c =? 8239) || (c =? 8287) || (c =? 12288).

(** The character database beyond ASCII.  CPython answers [isalpha],
    [isdecimal], [isdigit], [isnumeric] and [isupper] from generated
    tables; the program's behaviour on ASCII text does not depend on them,
    and everything below is stated for an arbitrary database. *)
Class Unicode := {
  uni_alpha : char -> bool;
  uni_decimal : char -> bool;
  uni_digit : char -> bool;
  uni_numeric : char -> bool;
  uni_upper : char -> bool
}.

(** A database in which no character beyond ASCII belongs to any class:
    it agrees with CPython on every ASCII text. *)
Definition ascii_only : Unicode :=
  {| uni_alpha := fun _ => false; uni_decimal := fun _ => false;
     uni_digit := fun _ => false; uni_numeric := fun _ => false;
     uni_upper := fun _ => false |}.

Section Classes.
Context {U : Unicode}.

Definition is_ascii (c : char) : bool := c <? 128.

(** [Py_UNICODE_ISDECIMAL], the class [\d] of a [str] pattern. *)
Definition isdecimal (c : char) : bool :=
  if is_ascii c then between 48 57 c else uni_decimal c.

(** [Py_UNICODE_ISALNUM]. *)
Definition isalnum (c : char) : bool :=
  if is_ascii c then between 48 57 c || between 65 90 c || between 97 122 c
  else uni_alpha c || uni_decimal c || uni_digit c || uni_numeric c.

(** [Py_UNICODE_ISUPPER]: what [s.isupper()] answers for a one-character [s]. *)
Definition isupper (c : char) : bool :=
  if is_ascii c then between 65 90 c else uni_upper c.

End Classes.

Local Close Scope N_scope.

(** ** Sequences *)

(** A sequence is true when it is not empty. *)
Definition nonempty {A} (l : list A) : bool :=
  match l with [] => false | _ :: _ => true end.

Section Seq.
Context {A : Type} (eqb : A -> A -> bool).

(** [s.startswith(p)] *)
Fixpoint startswith (p s : list A) : bool :=
  match p, s with
  | [], _ => true
  | _ :: _, [] => false
  | x :: p', y :: s' => eqb x y && startswith p' s'
  end.

(** [p in s] for sequences: [p] occurs as a contiguous slice of [s]. *)
Fixpoint contains (p s : list A) : bool :=
  startswith p s ||
  match s with
  | [] => false
  | _ :: s' => contains p s'
  end.

End Seq.

Definition str_eqb (a b : str) : bool :=
  if list_eq_dec N.eq_dec a b then true else false.

Definition str_in (p s : str) : bool := contains N.eqb p s.

Fixpoint dropwhile {A} (f : A -> bool) (l : list A) : list A :=
  match l with
  | [] => []
  | x :: l' => if f x then dropwhile f l' else l
  end.

(** [s.strip()] *)
Definition lstrip (s : str) : str := dropwhile isspace s.
Definition rstrip (s : str) : str := rev (dropwhile isspace (rev s)).
Definition strip (s : str) : str := rstrip (lstrip s).

(** [s.split()]: the maximal runs of non-space characters.  [cur] holds the
    field being read, last character first. *)
Fixpoint fields (s : str) (cur : str) : list str :=
  match s with
  | [] => match cur with [] => [] | _ => [rev cur] end
  | c :: t =>
      if isspace c
      then match cur with [] => fields t [] | _ => rev cur :: fields t [] end
      else fields t (c :: cur)
  end.
Definition split_ws (s : str) : list str := fields s [].

(** [s.split(sep)] for a one-character separator. *)
Fixpoint split_on (sep : char) (s : str) : list str :=
  match s with
  | [] => [[]]
  | c :: t =>
      if N.eqb c sep then [] :: split_on sep t
      else match split_on sep t with
           | p :: ps => (c :: p) :: ps
           | [] => [[c]]
           end
  end.

(** [sep.join(l)] *)
Fixpoint join (sep : str) (l : list str) : str :=
  match l with
  | [] => []
  | [x] => x
  | x :: xs => x ++ sep ++ join sep xs
  end.

(** [str(n)] for a non-negative integer. *)
Definition str_of_nat (n : nat) : str :=
  py (NilEmpty.string_of_uint (Nat.to_uint n)).

End Py.

(* ===================================================================== *)
(** * Regular expressions *)
(* ===================================================================== *)

(** The patterns of the program use character sets, bounded and unbounded
    greedy repetition of a set, the word boundary [\b], concatenation,
    alternation and an optional group.  [rmatch] is the backtracking
    search of Python's [re]: it tries the alternatives in the order the
    pattern gives them, a greedy repetition longest first, and stops at
    the first way through the whole pattern. *)

Module Re.
Import Py.

Inductive item :=
| Lit (c : char)          (* one character *)
| Range (lo hi : char)    (* lo-hi *)
| Digit                   (* \d *)
| Space.                  (* \s *)

Definition charset := list item.

Inductive regex :=
| Eps
| Bound                                              (* \b *)
| Rep (cs : charset) (lo : nat) (hi : option nat)    (* cs{lo,hi}, greedy *)
| Cat (r1 r2 : regex)
| Alt (r1 r2 : regex).

Definition one (cs : charset) : regex := Rep cs 1 (Some 1).
Definition lit (a : ascii) : regex := one [Lit (N_of_ascii a)].
Arguments lit a%_char.
Definition optional (cs : charset) : regex := Rep cs 0 (Some 1).
Definition exactly (n : nat) (cs : charset) : regex := Rep cs n (Some n).
Definition at_least (n : nat) (cs : charset) : regex := Rep cs n None.
(** [(r)?] *)
Definition Opt (r : regex) : regex := Alt r Eps.
Definition cat (rs : list regex) : regex := fold_right Cat Eps rs.

Section Matcher.
Context {U : Unicode}.

Definition item_has (i : item) (c : char) : bool :=
  match i with
  | Lit x => N.eqb c x
  | Range lo hi => between lo hi c
  | Digit => isdecimal c
  | Space => isspace c
  end.

Definition in_charset (cs : charset) (c : char) : bool :=
  existsb (fun i => item_has i c) cs.

(** [\w]: alphanumeric or underscore. *)
Definition is_word (c : char) : bool := isalnum c || N.eqb c 95.

Definition word_before (prev : option char) : bool :=
  match prev with Some c => is_word c | None => false end.

Definition word_here (s : str) : bool :=
  match s with c :: _ => is_word c | [] => false end.

(** [\b] holds between [prev] and the head of [s] when exactly one of them
    is a word character; the ends of the text count as non-word. *)
Definition at_boundary (prev : option char) (s : str) : bool :=
  xorb (word_before prev) (word_here s).

(** A continuation receives the character before the current position,
    the rest of the text and the number of characters consumed so far. *)
Definition cont := option char -> str -> nat -> option nat.

Definition exhausted (hi : option nat) : bool :=
  match hi with Some O => true | _ => false end.

Fixpoint rep_match (cs : charset) (lo : nat) (hi : option nat)
    (prev : option char) (s : str) (n : nat) (k : cont) {struct s} : option nat :=
  let stop := match lo with O => k prev s n | S _ => None end in
  match s with
  | c :: t =>
      if in_charset cs c && negb (exhausted hi)
      then match rep_match cs (pred lo) (option_map pred hi) (Some c) t (S n) k with
           | Some m => Some m
           | None => stop
           end
      else stop
  | [] => stop
  end.

Fixpoint rmatch (r : regex) (prev : option char) (s : str) (n : nat) (k : cont)
    {struct r} : option nat :=
  match r with
  | Eps => k prev s n
  | Bound => if at_boundary prev s then k prev s n else None
  | Rep cs lo hi => rep_match cs lo hi prev s n k
  | Cat r1 r2 => rmatch r1 prev s n (fun p s' n' => rmatch r2 p s' n' k)
  | Alt r1 r2 =>
      match rmatch r1 prev s n k with
      | Some m => Some m
      | None => rmatch r2 prev s n k
      end
  end.

(** The length of the match of [r] that starts here, if there is one. *)
Definition match_at (r : regex) (prev : option char) (s : str) : option nat :=
  rmatch r prev s 0 (fun _ _ n => Some n).

(** [pattern.sub(repl, text)] for a [repl] without group references:
    scan left to right, replace each match, resume after it.  [skip]
    counts the characters of the current match still to be passed. *)
Fixpoint sub_from (r : regex) (repl : str) (prev : option char) (s : str)
    (skip : nat) : str :=
  match s with
  | [] =>
      match skip with
      | O => match match_at r prev [] with Some _ => repl | None => [] end
      | S _ => []
      end
  | c :: t =>
      match skip with
      | S k => sub_from r repl (Some c) t k
      | O =>
          match match_at r prev s with
          | Some (S k) => repl ++ sub_from r repl (Some c) t k
          | Some O => repl ++ c :: sub_from r repl (Some c) t 0
          | None => c :: sub_from r repl (Some c) t 0
          end
      end
  end.

Definition sub (r : regex) (repl : str) (text : str) : str :=
  sub_from r repl None text 0.

(** [re.split(pattern, text)]; [cur] is the piece being read, last
    character first. *)
Fixpoint split_from (r : regex) (prev : option char) (s : str) (skip : nat)
    (cur : str) : list str :=
  match s with
  | [] =>
      match skip with
      | O => match match_at r prev [] with
             | Some _ => [rev cur; []]
             | None => [rev cur]
             end
      | S _ => [rev cur]
      end
  | c :: t =>
      match skip with
      | S k => split_from r (Some c) t k cur
      | O =>
          match match_at r prev s with
          | Some (S k) => rev cur :: split_from r (Some c) t k []
          | Some O => rev cur :: split_from r (Some c) t 0 [c]
          | None => split_from r (Some c) t 0 (c :: cur)
          end
      end
  end.

Definition split (r : regex) (text : str) : list str :=
  split_from r None text 0 [].

(** The length of the run of decimal digits a text starts with. *)
Fixpoint run (s : str) : nat :=
  match s with
  | c :: t => if isdecimal c then S (run t) else 0
  | [] => 0
  end.

(** The character before the position reached after reading [l] from a
    position that has [prev] before it. *)
Definition prev_after (prev : option char) (l : str) : option char :=
  fold_left (fun _ c => Some c) l prev.

End Matcher.

End Re.

(* ===================================================================== *)
(** * Exceptions *)
(* ===================================================================== *)

Module Exn.
Import Py.

Inductive kind :=
| ValueError
| UnboundLocalError
| AttributeError
| KeyError
| IllegalCharacterError
| LibraryError        (* whatever a library raises from within *)
| Exception.

(** An exception: its class and [str(e)]. *)
Definition exn : Type := kind * str.

Definition result (A : Type) : Type := exn + A.

Definition no_attribute (type attr : string) : exn :=
  (AttributeError,
   [39%N] ++ py type ++ [39%N] ++ py " object has no attribute " ++
   [39%N] ++ py attr ++ [39%N]).

End Exn.

(* ===================================================================== *)
(** * The pandas operations the program calls *)
(* ===================================================================== *)

(** A frame of this program holds text: every cell is [None] or a [str],
    so every column has dtype [object].  Rows are kept whole; a frame built
    by [DataFrame_new] is rectangular, which is what the theorems on
    [pdf_processor.extract_tables] establish rather than assume. *)

Module Pandas.
Import Py Exn.

Definition cell := option str.
Definition label := option str.

Record DataFrame := {
  columns : list label;
  rows : list (list cell);
  attrs_page : option nat;      (* df.attrs['page'] *)
  attrs_table : option nat      (* df.attrs['table'] *)
}.

Definition with_rows (df : DataFrame) (rs : list (list cell)) : DataFrame :=
  {| columns := columns df; rows := rs;
     attrs_page := attrs_page df; attrs_table := attrs_table df |}.

Definition with_columns (df : DataFrame) (cs : list label) : DataFrame :=
  {| columns := cs; rows := rows df;
     attrs_page := attrs_page df; attrs_table := attrs_table df |}.

Definition with_attrs (df : DataFrame) (page table : nat) : DataFrame :=
  {| columns := columns df; rows := rows df;
     attrs_page := Some page; attrs_table := Some table |}.

Definition pad_none (w : nat) (r : list cell) : list cell :=
  r ++ repeat None (w - length r).

Definition columns_mismatch (passed given : nat) : exn :=
  (ValueError,
   str_of_nat passed ++ py " columns passed, passed data had " ++
   str_of_nat given ++ py " columns").

(** [pd.DataFrame(data, columns=columns)] for a list of rows: the rows are
    aligned to the longest one, missing cells are [None], and the number
    of labels has to be the width of the data. *)
Definition DataFrame_new (data : list (list cell)) (cols : list label)
    : result DataFrame :=
  match data with
  | [] => inr {| columns := cols; rows := [];
                 attrs_page := None; attrs_table := None |}
  | _ :: _ =>
      let w := list_max (map (@length cell) data) in
      if Nat.eqb (length cols) w
      then inr {| columns := cols; rows := map (pad_none w) data;
                  attrs_page := None; attrs_table := None |}
      else inl (columns_mismatch (length cols) w)
  end.

Definition isna (c : cell) : bool :=
  match c with None => true | Some _ => false end.

(** [df.dropna(how='all')] *)
Definition dropna_all (df : DataFrame) : DataFrame :=
  with_rows df (filter (fun r => negb (forallb isna r)) (rows df)).

(** [str(x)] of a cell, as [astype(str)] applies it. *)
Definition astype_str (c : cell) : str :=
  match c with None => py "None" | Some s => s end.

(** [df[~(df.astype(str) == '').all(axis=1)]] *)
Definition drop_blank_rows (df : DataFrame) : DataFrame :=
  with_rows df
    (filter (fun r => negb (forallb (fun c => str_eqb (astype_str c) []) r))
            (rows df)).

(** Every row is as long as the header. *)
Definition rectangular (df : DataFrame) : Prop :=
  Forall (fun row => length row = length (columns df)) (rows df).

(** [df.empty]: some axis has length 0. *)
Definition empty (df : DataFrame) : bool :=
  match columns df, rows df with
  | [], _ => true
  | _, [] => true
  | _, _ => false
  end.

Definition label_eqb (a b : label) : bool :=
  match a, b with
  | None, None => true
  | Some x, Some y => str_eqb x y
  | _, _ => false
  end.

(** The positions of a label among the columns, from position [i] on. *)
Fixpoint get_loc (col : label) (cols : list label) (i : nat) : list nat :=
  match cols with
  | [] => []
  | c :: cols' =>
      if label_eqb col c then i :: get_loc col cols' (S i)
      else get_loc col cols' (S i)
  end.

Fixpoint update_nth {A} (j : nat) (f : A -> A) (l : list A) : list A :=
  match l, j with
  | [], _ => []
  | x :: l', O => f x :: l'
  | x :: l', S j' => x :: update_nth j' f l'
  end.

(** [df[col] = df[col].map(f)] at the position of [col]. *)
Definition map_column (j : nat) (f : cell -> cell) (df : DataFrame) : DataFrame :=
  with_rows df (map (update_nth j f) (rows df)).

(** [df[col]] is a Series when the label occurs once; with a repeated
    label it is a DataFrame, on which the Series attribute [attr] (such as
    [str] or [dtype]) does not exist. *)
Definition series_loc (attr : string) (col : label) (df : DataFrame) : result nat :=
  match get_loc col (columns df) 0 with
  | [] => inl (KeyError, astype_str col)
  | [j] => inr j
  | _ :: _ :: _ => inl (no_attribute "DataFrame" attr)
  end.

End Pandas.

(* ===================================================================== *)
(** * data_sanitizer.py *)
(* ===================================================================== *)

Module data_sanitizer.
Import Py Re Exn Pandas.

Definition upper_lower_digit : charset :=
  [Range (ch "A") (ch "Z"); Range (ch "a") (ch "z"); Range (ch "0") (ch "9")].

(** [\b[A-Za-z0-9._%+-]+@[A-Za-z0-9.-]+\.[A-Z|a-z]{2,}\b] *)
Definition email_pattern : regex :=
  cat [Bound;
       at_least 1 (upper_lower_digit ++
                   [Lit (ch "."); Lit (ch "_"); Lit (ch "%"); Lit (ch "+"); Lit (ch "-")]);
       lit "@";
       at_least 1 (upper_lower_digit ++ [Lit (ch "."); Lit (ch "-")]);
       lit ".";
       at_least 2 [Range (ch "A") (ch "Z"); Lit (ch "|"); Range (ch "a") (ch "z")];
       Bound].

(** [[-.\s]] *)
Definition separator : charset := [Lit (ch "-"); Lit (ch "."); Space].

(** [(\+?\d{1,3}[-.\s]?)?\(?\d{3}\)?[-.\s]?\d{3}[-.\s]?\d{4}] *)
Definition phone_pattern : regex :=
  cat [Opt (cat [optional [Lit (ch "+")]; Rep [Digit] 1 (Some 3); optional separator]);
       optional [Lit (ch "(")]; exactly 3 [Digit]; optional [Lit (ch ")")];
       optional separator; exactly 3 [Digit];
       optional separator; exactly 4 [Digit]].

(** [\b\d{3}-\d{2}-\d{4}\b] *)
Definition ssn_pattern : regex :=
  cat [Bound; exactly 3 [Digit]; lit "-"; exactly 2 [Digit]; lit "-";
       exactly 4 [Digit]; Bound].

(** [\b\d{4}[-\s]?\d{4}[-\s]?\d{4}[-\s]?\d{4}\b] *)
Definition credit_card_pattern : regex :=
  cat [Bound; exactly 4 [Digit]; optional [Lit (ch "-"); Space];
       exactly 4 [Digit]; optional [Lit (ch "-"); Space];
       exactly 4 [Digit]; optional [Lit (ch "-"); Space];
       exactly 4 [Digit]; Bound].

(** [\b\d{6,12}\b] *)
Definition id_number_pattern : regex :=
  cat [Bound; Rep [Digit] 6 (Some 12); Bound].

(** [\b\d{4,}\b] *)
Definition numeric_sequences : regex :=
  cat [Bound; at_least 4 [Digit]; Bound].

(** [\b\d{15}|\d{17}[\dXx]\b]: the alternation is at the top level. *)
Definition chinese_id_pattern : regex :=
  Alt (cat [Bound; exactly 15 [Digit]])
      (cat [exactly 17 [Digit]; one [Digit; Lit (ch "X"); Lit (ch "x")]; Bound]).

Definition EMAIL_REDACTED : str := py "[EMAIL_REDACTED]".
Definition PHONE_REDACTED : str := py "[PHONE_REDACTED]".
Definition SSN_REDACTED : str := py "[SSN_REDACTED]".
Definition CARD_REDACTED : str := py "[CARD_REDACTED]".
Definition ID_REDACTED : str := py "[ID_REDACTED]".
Definition NUMBER_REDACTED : str := py "[NUMBER_REDACTED]".

(** What [sanitize_extracted_data] may be handed: [None], a text, a frame,
    a list, or a dictionary with text keys. *)
#[warnings="-register-all"]
Inductive data :=
| DNone
| DStr (text : str)
| DFrame (df : nat)
| DList (elements : list data)
| DDict (entries : list (str * data)).

(** The dictionary [get_sanitization_summary] returns. *)
Record summary := {
  emails_redacted : nat;
  phones_redacted : nat;
  ssn_redacted : nat;
  cards_redacted : nat;
  ids_redacted : nat;
  total_redactions : Z
}.

Section Sanitizer.
Context {U : Unicode}.

(** The six substitutions of basic sanitization, in the order of the source. *)
Definition basic_substitutions (text : str) : str :=
  let t := sub email_pattern EMAIL_REDACTED text in
  let t := sub phone_pattern PHONE_REDACTED t in
  let t := sub ssn_pattern SSN_REDACTED t in
  let t := sub credit_card_pattern CARD_REDACTED t in
  let t := sub chinese_id_pattern ID_REDACTED t in
  sub id_number_pattern ID_REDACTED t.

(** [sanitize_text] on a [str] argument.  An empty text is falsy and is
    returned as [str(text)], the empty text again. *)
Definition sanitize_text (text : str) (basic_sanitization redact_numbers : bool) : str :=
  match text with
  | [] => []
  | _ =>
      let sanitized_text := text in
      let sanitized_text :=
        if basic_sanitization then basic_substitutions sanitized_text
        else sanitized_text in
      let sanitized_text :=
        if redact_numbers then sub numeric_sequences NUMBER_REDACTED sanitized_text
        else sanitized_text in
      sanitized_text
  end.

(** ** Frames as objects

    [sanitize_dataframe] receives a reference to a frame, copies the frame
    and assigns to the columns of the copy.  The [heap] holds the frames,
    a [ref] names one, [df.copy()] allocates, and a column assignment
    updates the object in place. *)

Definition heap := list DataFrame.
Definition ref := nat.

Definition no_such_object : exn := (LibraryError, py "no such object").

Definition heap_update (r : ref) (f : DataFrame -> DataFrame) (h : heap) : heap :=
  update_nth r f h.

(** [for column in sanitized_df.columns: ...] *)
Fixpoint sanitize_columns (todo : list label) (sanitized_df : ref)
    (basic_sanitization redact_numbers : bool) (h : heap) : result unit * heap :=
  match todo with
  | [] => (inr tt, h)
  | column :: rest =>
      match nth_error h sanitized_df with
      | None => (inl no_such_object, h)
      | Some frame =>
          (* sanitized_df[column].dtype == 'object' *)
          match series_loc "dtype" column frame with
          | inl e => (inl e, h)
          | inr j =>
              let h :=
                heap_update sanitized_df
                  (map_column j (fun x =>
                     Some (sanitize_text (astype_str x)
                             basic_sanitization redact_numbers))) h in
              sanitize_columns rest sanitized_df basic_sanitization redact_numbers h
          end
      end
  end.

Definition sanitize_dataframe (df : option ref)
    (basic_sanitization redact_numbers : bool) (h : heap)
    : result (option ref) * heap :=
  match df with
  | None => (inr None, h)
  | Some r =>
      match nth_error h r with
      | None => (inl no_such_object, h)
      | Some frame =>
          if empty frame then (inr df, h)
          else
            (* sanitized_df = df.copy() *)
            let sanitized_df := length h in
            let h := h ++ [frame] in
            match sanitize_columns (columns frame) sanitized_df
                    basic_sanitization redact_numbers h with
            | (inl e, h) => (inl e, h)
            | (inr _, h) => (inr (Some sanitized_df), h)
            end
      end
  end.

(** ** Extracted data of any shape

    [str(x)] of a value that is no text depends on the value's class; it is
    left to [repr]. *)

Variable repr : heap -> data -> str.

(** [sanitize_text] on whatever a list of texts holds: a text is
    sanitized, [None] becomes the empty text, a list or a dictionary its
    [str]; a frame has no truth value for [not text] to ask for. *)
Definition sanitize_text_of (text : data)
    (basic_sanitization redact_numbers : bool) (h : heap) : result str :=
  match text with
  | DStr s => inr (sanitize_text s basic_sanitization redact_numbers)
  | DNone => inr []
  | DFrame _ =>
      inl (ValueError,
           py "The truth value of a DataFrame is ambiguous. Use a.empty, a.bool(), a.item(), a.any() or a.all().")
  | _ => inr (repr h text)
  end.

(** [[self.sanitize_text(text, ...) for text in data]] *)
Fixpoint sanitize_texts (l : list data)
    (basic_sanitization redact_numbers : bool) (h : heap) : result (list data) :=
  match l with
  | [] => inr []
  | text :: l' =>
      match sanitize_text_of text basic_sanitization redact_numbers h with
      | inl e => inl e
      | inr s =>
          match sanitize_texts l' basic_sanitization redact_numbers h with
          | inl e => inl e
          | inr xs => inr (DStr s :: xs)
          end
      end
  end.

(** [sanitize_dataframe] on whatever a list of frames holds: [df.empty] is
    read on every value that is not [None]. *)
Definition sanitize_dataframe_of (df : data)
    (basic_sanitization redact_numbers : bool) (h : heap) : result data * heap :=
  match df with
  | DNone => (inr DNone, h)
  | DFrame r =>
      match sanitize_dataframe (Some r) basic_sanitization redact_numbers h with
      | (inl e, h) => (inl e, h)
      | (inr (Some r'), h) => (inr (DFrame r'), h)
      | (inr None, h) => (inr DNone, h)
      end
  | DStr _ => (inl (no_attribute "str" "empty"), h)
  | DList _ => (inl (no_attribute "list" "empty"), h)
  | DDict _ => (inl (no_attribute "dict" "empty"), h)
  end.

(** [[self.sanitize_dataframe(df, ...) for df in data]] *)
Fixpoint sanitize_frames (l : list data)
    (basic_sanitization redact_numbers : bool) (h : heap)
    : result (list data) * heap :=
  match l with
  | [] => (inr [], h)
  | df :: l' =>
      match sanitize_dataframe_of df basic_sanitization redact_numbers h with
      | (inl e, h) => (inl e, h)
      | (inr x, h) =>
          match sanitize_frames l' basic_sanitization redact_numbers h with
          | (inl e, h) => (inl e, h)
          | (inr xs, h) => (inr (x :: xs), h)
          end
      end
  end.

(** [for key, value in data.items(): sanitized_dict[key] = f(value)] *)
Definition for_items (f : data -> heap -> result data * heap)
    : list (str * data) -> heap -> result (list (str * data)) * heap :=
  fix loop (entries : list (str * data)) (h : heap) :=
    match entries with
    | [] => (inr [], h)
    | (key, value) :: rest =>
        match f value h with
        | (inl e, h) => (inl e, h)
        | (inr v, h) =>
            match loop rest h with
            | (inl e, h) => (inl e, h)
            | (inr sanitized_dict, h) => (inr ((key, v) :: sanitized_dict), h)
            end
        end
    end.

(** The class of the first element decides how a list is treated; an
    empty list, a list that starts with anything else, and a value that is
    neither a text, a list nor a dictionary are returned as they are. *)
Fixpoint sanitize_extracted_data (d : data)
    (basic_sanitization redact_numbers : bool) (h : heap) {struct d}
    : result data * heap :=
  match d with
  | DStr text => (inr (DStr (sanitize_text text basic_sanitization redact_numbers)), h)
  | DList l =>
      match l with
      | DStr _ :: _ =>
          match sanitize_texts l basic_sanitization redact_numbers h with
          | inl e => (inl e, h)
          | inr l' => (inr (DList l'), h)
          end
      | DFrame _ :: _ =>
          match sanitize_frames l basic_sanitization redact_numbers h with
          | (inl e, h) => (inl e, h)
          | (inr l', h) => (inr (DList l'), h)
          end
      | _ => (inr d, h)
      end
  | DDict entries =>
      match for_items
              (fun value =>
                 sanitize_extracted_data value basic_sanitization redact_numbers)
              entries h with
      | (inl e, h) => (inl e, h)
      | (inr sanitized_dict, h) => (inr (DDict sanitized_dict), h)
      end
  | _ => (inr d, h)
  end.

(** ** The summary *)

(** [len(pattern.findall(text))]: the matches found by the scan that [sub]
    makes, left to right and without overlap. *)
Fixpoint count_from (r : regex) (prev : option char) (s : str) (skip : nat) : nat :=
  match s with
  | [] =>
      match skip with
      | O => match match_at r prev [] with Some _ => 1 | None => 0 end
      | S _ => 0
      end
  | c :: t =>
      match skip with
      | S k => count_from r (Some c) t k
      | O =>
          match match_at r prev s with
          | Some (S k) => S (count_from r (Some c) t k)
          | Some O => S (count_from r (Some c) t 0)
          | None => count_from r (Some c) t 0
          end
      end
  end.

Definition findall_count (r : regex) (text : str) : nat := count_from r None text 0.

(** [text.count('[')] *)
Definition count_bracket (text : str) : nat := count_occ N.eq_dec text (ch "[").

Definition get_sanitization_summary (original_text sanitized_text : str) : summary :=
  {| emails_redacted := findall_count email_pattern original_text;
     phones_redacted := findall_count phone_pattern original_text;
     ssn_redacted := findall_count ssn_pattern original_text;
     cards_redacted := findall_count credit_card_pattern original_text;
     ids_redacted := findall_count chinese_id_pattern original_text;
     total_redactions :=
       (Z.of_nat (count_bracket original_text) -
        Z.of_nat (count_bracket sanitized_text))%Z |}.

End Sanitizer.

End data_sanitizer.

(* ===================================================================== *)
(** * pdf_processor.py *)
(* ===================================================================== *)

Module pdf_processor.
Import Py Re Exn Pandas.

Definition bytes := list Byte.byte.

(** A bytes literal. *)
Definition b (s : string) : bytes := list_byte_of_string s.
Arguments b s%_string.

(** What [str(e)] holds for the exceptions of this file.  The size message
    formats two quotients as decimal fractions; it is kept as the two
    byte counts it is computed from. *)
Inductive message :=
| Plain (text : str)
| File_too_large (actual maximum : N)
    (* f"File too large: {actual/1024/1024:.1f}MB. Maximum allowed: {maximum/1024/1024}MB" *)
| Unbound_local (name : string)
    (* reading a local variable that no statement has assigned *)
| Failed_text (cause : message)
    (* f"Failed to extract text from PDF: {str(e)}" *)
| Failed_tables (cause : message).
    (* f"Failed to extract tables from PDF: {str(e)}" *)

Definition error : Type := kind * message.

Definition of_exn (e : exn) : error := (fst e, Plain (snd e)).

(** ** The PDF library

    pdfplumber is outside the repository.  An opened document is the list
    of its pages; a page answers [extract_text()] with [None] or a text and
    [extract_tables()] with a list of tables, each a list of rows of cells
    that are [None] or a text; either call may raise. *)

Definition raw_table := list (list (option str)).

Record page := {
  extract_text_of : result (option str);
  extract_tables_of : result (list raw_table)
}.

(** ** Effects: exceptions and the calls to the PDF parser *)

Inductive event := Opened (pdf_bytes : bytes).

Definition M (A : Type) : Type := list event -> (error + A) * list event.

Definition ret {A} (x : A) : M A := fun tr => (inr x, tr).

Definition bind {A B} (m : M A) (k : A -> M B) : M B :=
  fun tr =>
    match m tr with
    | (inl e, tr') => (inl e, tr')
    | (inr x, tr') => k x tr'
    end.

Definition raise {A} (e : error) : M A := fun tr => (inl e, tr).

Definition lift {A} (r : error + A) : M A := fun tr => (r, tr).

Definition lift_exn {A} (r : result A) : M A :=
  fun tr => (match r with inl e => inl (of_exn e) | inr x => inr x end, tr).

(** [try: m  except Exception as e: handler(e)] *)
Definition try_except {A} (m : M A) (handler : error -> M A) : M A :=
  fun tr =>
    match m tr with
    | (inl e, tr') => handler e tr'
    | (inr x, tr') => (inr x, tr')
    end.

Notation "x <- m ;; k" := (bind m (fun x => k))
  (at level 61, m at next level, right associativity).

Record PDFProcessor := {
  encoding : string;
  max_file_size : N;
  allowed_mime_types : list string
}.

Definition __init__ : PDFProcessor :=
  {| encoding := "utf-8";
     max_file_size := 50 * 1024 * 1024;
     allowed_mime_types := ["application/pdf"%string] |}.

Definition len (pdf_bytes : bytes) : N := N.of_nat (length pdf_bytes).

Definition _validate_pdf_security (self : PDFProcessor) (pdf_bytes : bytes)
    : error + bool :=
  if (max_file_size self <? len pdf_bytes)%N
  then inl (ValueError, File_too_large (len pdf_bytes) (max_file_size self))
  else if negb (startswith Byte.eqb (b "%PDF-") pdf_bytes)
  then inl (ValueError, Plain (py "Invalid PDF file: Missing PDF header signature"))
  else if negb (contains Byte.eqb (b "%%EOF") pdf_bytes)
  then inl (ValueError, Plain (py "Invalid PDF file: Missing end-of-file marker"))
  else inr true.

(** [for page_num, page in enumerate(pages): x = f(page)].  The loop body
    only assigns; what the code after the loop reads is the last
    assignment, and nothing when there was no page. *)
Fixpoint for_pages {A} (f : page -> result A) (pages : list page) (page_num : nat)
    (assigned : option (nat * A)) : result (option (nat * A)) :=
  match pages with
  | [] => inr assigned
  | page :: pages' =>
      match f page with
      | inl e => inl e
      | inr x => for_pages f pages' (S page_num) (Some (page_num, x))
      end
  end.

Inductive text_data :=
| Joined (text : str)           (* split_by_pages=False *)
| Pages (texts : list str).     (* split_by_pages=True *)

Definition page_break : str := [LF; LF] ++ py "--- Page Break ---" ++ [LF; LF].

(** [\s+] *)
Definition whitespace_run : regex := at_least 1 [Space].
(** [\s{2,}] *)
Definition multi_space : regex := at_least 2 [Space].

(** The entries of the dictionary [get_pdf_info] builds. *)
Record pdf_info (Metadata : Type) := {
  num_pages : nat;
  metadata : Metadata;
  pages_with_text : nat;
  pages_with_tables : nat;
  total_characters : nat
}.
Arguments num_pages {Metadata}.
Arguments metadata {Metadata}.
Arguments pages_with_text {Metadata}.
Arguments pages_with_tables {Metadata}.
Arguments total_characters {Metadata}.

Section Extraction.
Context {U : Unicode}.
Variable pdfplumber_open : bytes -> result (list page).

Definition open (pdf_bytes : bytes) : M (list page) :=
  fun tr =>
    (match pdfplumber_open pdf_bytes with
     | inl e => inl (of_exn e)
     | inr pdf => inr pdf
     end, tr ++ [Opened pdf_bytes]).

Definition starts_upper (line : str) : bool :=
  match line with c :: _ => isupper c | [] => false end.

(** One turn of [for line in lines] over [(merged_lines, current_block)]. *)
Definition merge_step (state : list str * str) (line : str) : list str * str :=
  let '(merged_lines, current_block) := state in
  let line := strip line in
  if nonempty line then
    if nonempty current_block && negb (starts_upper line)
       && (length current_block <? 100)
    then (merged_lines, current_block ++ [SP] ++ line)
    else
      (if nonempty current_block then merged_lines ++ [current_block]
       else merged_lines,
       line)
  else
    if nonempty current_block then (merged_lines ++ [current_block], [])
    else (merged_lines, current_block).

Definition flush (state : list str * str) : list str :=
  let '(merged_lines, current_block) := state in
  if nonempty current_block then merged_lines ++ [current_block]
  else merged_lines.

(** [merged_lines] once the loop over [lines] and the statement after it
    have run. *)
Definition paragraphs (lines : list str) : list str :=
  flush (fold_left merge_step lines ([], [])).

(** The [if merge_text_blocks:] block. *)
Definition merge_blocks (page_text : str) : str :=
  let lines := split_on LF page_text in
  join [LF] (paragraphs lines).

(** The [if page_text: ... else: ...] statement: the text appended to
    [extracted_text]. *)
Definition page_entry (page_text : option str)
    (preserve_formatting merge_text_blocks : bool) : str :=
  match page_text with
  | Some ((_ :: _) as page_text) =>
      let page_text :=
        if preserve_formatting then page_text
        else strip (sub whitespace_run [SP] page_text) in
      let page_text :=
        if merge_text_blocks then merge_blocks page_text else page_text in
      page_text
  | _ => []
  end.

Definition extract_text (self : PDFProcessor) (pdf_bytes : bytes)
    (preserve_formatting split_by_pages merge_text_blocks : bool) : M text_data :=
  try_except
    (_ <- lift (_validate_pdf_security self pdf_bytes) ;;
     let extracted_text : list str := [] in
     pdf <- open pdf_bytes ;;
     assigned <- lift_exn (for_pages extract_text_of pdf 0 None) ;;
     match assigned with
     | None => raise (UnboundLocalError, Unbound_local "page_text")
     | Some (_, page_text) =>
         let extracted_text :=
           extracted_text ++
           [page_entry page_text preserve_formatting merge_text_blocks] in
         match extracted_text with
         | [] => raise (ValueError, Plain (py "No text could be extracted from the PDF"))
         | _ :: _ =>
             if split_by_pages then ret (Pages extracted_text)
             else ret (Joined (join page_break extracted_text))
         end
     end)
    (fun e => raise (Exception, Failed_text (snd e))).

(** [f'Column_{i+1}'] *)
Definition column_name (i : nat) : str := py "Column_" ++ str_of_nat (i + 1).

Definition enumerate {A} (l : list A) : list (nat * A) :=
  combine (seq 0 (length l)) l.

Definition clean_column_names (cols : list label) : list label :=
  map (fun ic : nat * label =>
         match snd ic with
         | Some col => Some (strip col)
         | None => Some (column_name (fst ic))
         end)
      (enumerate cols).

(** [astype(str)], [.str.strip()], [.replace('None', '')] on one value. *)
Definition clean_cell (c : cell) : cell :=
  let s := strip (astype_str c) in
  Some (if str_eqb s (py "None") then [] else s).

(** [for col in df.columns: df[col] = ...] *)
Fixpoint clean_values (todo : list label) (df : DataFrame) : result DataFrame :=
  match todo with
  | [] => inr df
  | col :: rest =>
      match series_loc "str" col df with
      | inl e => inl e
      | inr j => clean_values rest (map_column j clean_cell df)
      end
  end.

(** The body of [for table_num, table in enumerate(tables)]: the frame to
    append, if any. *)
Definition table_frame (remove_empty_rows : bool) (page_num table_num : nat)
    (table : raw_table) : result (option DataFrame) :=
  match table with
  | [] => inr None
  | first :: rest =>
      let header : list label :=
        match first with
        | _ :: _ => first
        | [] =>
            map (fun i => Some (column_name i))
                (seq 0 (match rest with r :: _ => length r | [] => 0 end))
        end in
      let data := rest in
      match DataFrame_new data header with
      | inl e => inl e
      | inr df =>
          let df :=
            if remove_empty_rows then drop_blank_rows (dropna_all df) else df in
          let df := with_columns df (clean_column_names (columns df)) in
          match clean_values (columns df) df with
          | inl e => inl e
          | inr df =>
              let df := with_attrs df (page_num + 1) (table_num + 1) in
              inr (if empty df then None else Some df)
          end
      end
  end.

Fixpoint tables_loop (remove_empty_rows : bool) (page_num : nat)
    (tables : list raw_table) (table_num : nat) (all_tables : list DataFrame)
    : result (list DataFrame) :=
  match tables with
  | [] => inr all_tables
  | table :: tables' =>
      match table_frame remove_empty_rows page_num table_num table with
      | inl e => inl e
      | inr None =>
          tables_loop remove_empty_rows page_num tables' (S table_num) all_tables
      | inr (Some df) =>
          tables_loop remove_empty_rows page_num tables' (S table_num)
            (all_tables ++ [df])
      end
  end.

(** [len(line.split()) >= 2 and any(char in line for char in ['\t', '  ', '|', ','])] *)
Definition is_candidate (line : str) : bool :=
  (2 <=? length (split_ws line)) &&
  existsb (fun hint => str_in hint line) [[TAB]; [SP; SP]; py "|"; py ","].

(** The [if '\t' in line: ... elif '|' in line: ... else: ...] statement. *)
Definition split_line (line : str) : list str :=
  if str_in [TAB] line then split_on TAB line
  else if str_in (py "|") line
  then map strip (filter (fun cell => nonempty (strip cell)) (split_on (ch "|") line))
  else split multi_space line.

Definition pad_row (max_cols : nat) (row : list str) : list str :=
  row ++ repeat [] (max_cols - length row).

(** The frame the fallback builds from the potential table lines of a page. *)
Definition lines_frame (page_num : nat) (potential_table_lines : list str)
    : option DataFrame :=
  let rows :=
    filter (fun row => 1 <? length row) (map split_line potential_table_lines) in
  if 1 <? length rows then
    let max_cols := list_max (map (@length str) rows) in
    let padded_rows := map (pad_row max_cols) rows in
    match padded_rows with
    | header :: data =>
        match DataFrame_new (map (map Some) data) (map Some header) with
        | inr df => Some (with_attrs df (page_num + 1) 1)
        | inl _ => None
        end
    | [] => None
    end
  else None.

Definition page_frame (page_num : nat) (page_text : str) : option DataFrame :=
  let lines := split_on LF page_text in
  let potential_table_lines := filter is_candidate (map strip lines) in
  if 2 <=? length potential_table_lines
  then lines_frame page_num potential_table_lines
  else None.

Definition items (d : text_data) : list str :=
  match d with
  | Pages texts => texts
  | Joined text => map (fun c => [c]) text
  end.

Fixpoint page_frames (pages : list (nat * str)) : list DataFrame :=
  match pages with
  | [] => []
  | (page_num, page_text) :: pages' =>
      match page_frame page_num page_text with
      | Some df => df :: page_frames pages'
      | None => page_frames pages'
      end
  end.

Definition _extract_tables_alternative (self : PDFProcessor) (pdf_bytes : bytes)
    : M (list DataFrame) :=
  try_except
    (text_data <- extract_text self pdf_bytes true true false ;;
     ret (page_frames (enumerate (items text_data))))
    (fun _ => ret []).

Definition extract_tables (self : PDFProcessor) (pdf_bytes : bytes)
    (remove_empty_rows : bool) : M (list DataFrame) :=
  try_except
    (_ <- lift (_validate_pdf_security self pdf_bytes) ;;
     pdf <- open pdf_bytes ;;
     assigned <- lift_exn (for_pages extract_tables_of pdf 0 None) ;;
     match assigned with
     | None => raise (UnboundLocalError, Unbound_local "tables")
     | Some (page_num, tables) =>
         all_tables <- lift_exn (tables_loop remove_empty_rows page_num tables 0 []) ;;
         match all_tables with
         | [] => _extract_tables_alternative self pdf_bytes
         | _ :: _ => ret all_tables
         end
     end)
    (fun e => raise (Exception, Failed_tables (snd e))).

(** ** [get_pdf_info]

    [pdf.metadata] is whatever the library read from the document when it
    opened it. *)

Context {Metadata : Type}.
Variable metadata_of : bytes -> Metadata.

(** The body of [for page in pdf.pages]. *)
Definition count_page (info : pdf_info Metadata) (page : page)
    : result (pdf_info Metadata) :=
  match extract_text_of page with
  | inl e => inl e
  | inr page_text =>
      let info :=
        match page_text with
        | Some text =>
            if nonempty text && nonempty (strip text)
            then {| num_pages := num_pages info;
                    metadata := metadata info;
                    pages_with_text := pages_with_text info + 1;
                    pages_with_tables := pages_with_tables info;
                    total_characters := total_characters info + length text |}
            else info
        | None => info
        end in
      match extract_tables_of page with
      | inl e => inl e
      | inr tables =>
          inr (if nonempty tables
               then {| num_pages := num_pages info;
                       metadata := metadata info;
                       pages_with_text := pages_with_text info;
                       pages_with_tables := pages_with_tables info + 1;
                       total_characters := total_characters info |}
               else info)
      end
  end.

Fixpoint count_pages (pages : list page) (info : pdf_info Metadata)
    : result (pdf_info Metadata) :=
  match pages with
  | [] => inr info
  | page :: pages' =>
      match count_page info page with
      | inl e => inl e
      | inr info => count_pages pages' info
      end
  end.

(** The dictionary with the five entries, or the one with the entry
    ['error'] when anything was raised; the bytes are not validated. *)
Definition get_pdf_info (self : PDFProcessor) (pdf_bytes : bytes)
    : M (message + pdf_info Metadata) :=
  try_except
    (pdf <- open pdf_bytes ;;
     let info :=
       {| num_pages := length pdf;
          metadata := metadata_of pdf_bytes;
          pages_with_text := 0;
          pages_with_tables := 0;
          total_characters := 0 |} in
     info <- lift_exn (count_pages pdf info) ;;
     ret (inr info))
    (fun e => ret (inl (snd e))).

End Extraction.

End pdf_processor.

(* ===================================================================== *)
(** * excel_converter.py *)
(* ===================================================================== *)

Module excel_converter.
Import Py Re Exn Pandas.

(** The shapes of [data] the callers pass and the converter inspects with
    [isinstance]. *)
#[warnings="-register-all"]
Inductive value :=
| VNone
| VStr (s : str)
| VList (l : list value)
| VDict (d : list (str * value))      (* keys in insertion order, distinct *)
| VFrame (df : DataFrame).

Definition type_name (v : value) : string :=
  match v with
  | VNone => "NoneType"
  | VStr _ => "str"
  | VList _ => "list"
  | VDict _ => "dict"
  | VFrame _ => "DataFrame"
  end.

(** [bool(v)], as [if v:] and [not v] evaluate it. *)
Definition truth (v : value) : result bool :=
  match v with
  | VNone => inr false
  | VStr s => inr (nonempty s)
  | VList l => inr (nonempty l)
  | VDict d => inr (nonempty d)
  | VFrame _ =>
      inl (ValueError,
           py "The truth value of a DataFrame is ambiguous. Use a.empty, a.bool(), a.item(), a.any() or a.all().")
  end.

(** [d.get(key)] *)
Fixpoint get (d : list (str * value)) (key : str) : value :=
  match d with
  | [] => VNone
  | (k, v) :: d' => if str_eqb k key then v else get d' key
  end.

(** What [for x in v] yields. *)
Definition iterate (v : value) : list value :=
  match v with
  | VList l => l
  | VStr s => map (fun c => VStr [c]) s
  | VDict d => map (fun kv => VStr (fst kv)) d
  | VNone | VFrame _ => []
  end.

(** ** The workbook

    A sheet is its title and the values written to its cells, in the
    order of the writes; fonts, fills, borders, alignments and column
    widths do not appear.  openpyxl renames a sheet whose title is in use;
    the titles requested during one conversion differ unless two table
    titles agree on their first 31 characters, and a sheet keeps here the
    title it was created with. *)

Record Worksheet := {
  title : str;
  cells : list ((nat * nat) * str)      (* ((row, column), value) *)
}.

Definition Workbook := list Worksheet.

(** [Workbook()] comes with one sheet. *)
Definition Workbook_new : Workbook := [{| title := py "Sheet"; cells := [] |}].

(** [if wb.active: wb.remove(wb.active)] *)
Definition remove_active (wb : Workbook) : Workbook :=
  match wb with
  | [] => []
  | _ :: rest => rest
  end.

Definition W (A : Type) : Type := Workbook -> result (A * Workbook).

Definition ret {A} (x : A) : W A := fun wb => inr (x, wb).

Definition bind {A B} (m : W A) (k : A -> W B) : W B :=
  fun wb =>
    match m wb with
    | inl e => inl e
    | inr (x, wb') => k x wb'
    end.

Definition raise {A} (e : exn) : W A := fun _ => inl e.

Definition lift {A} (r : result A) : W A :=
  fun wb => match r with inl e => inl e | inr x => inr (x, wb) end.

Notation "x <- m ;; k" := (bind m (fun x => k))
  (at level 61, m at next level, right associativity).

(** [workbook.create_sheet(title=...)]: the new sheet is the last one; the
    result is its position. *)
Definition create_sheet (t : str) : W nat :=
  fun wb => inr (length wb, wb ++ [{| title := t; cells := [] |}]).

(** The characters openpyxl refuses in a cell:
    [[\000-\010]|[\013-\014]|[\016-\037]]. *)
Definition illegal (c : char) : bool :=
  (between 0 8 c || between 11 12 c || between 14 31 c)%N.

(** The length openpyxl cuts a text to. *)
#[warnings="-abstract-large-number"]
Definition max_cell_length : nat := 32767.

(** A text without any of them. *)
Definition legal (v : str) : bool := negb (existsb illegal v).

Definition write (key : nat * nat) (v : str) (ws : Worksheet) : Worksheet :=
  {| title := title ws; cells := cells ws ++ [(key, v)] |}.

Definition invalid_title_chars : regex :=
  one [Lit (ch "\"); Lit (ch "/"); Lit (ch "*"); Lit (ch "?"); Lit (ch ":");
       Lit (ch "["); Lit (ch "]")].

Section Converter.
Context {U : Unicode}.
(** The clock, as [pd.Timestamp.now().strftime('%Y-%m-%d %H:%M:%S')] reads
    it while the sheets are built and in the [except] branch.  The sheets
    built in the [try] block read it at most once: a text sheet and a
    summary sheet never come together. *)
Variable now now_in_handler : str.
(** How openpyxl words its IllegalCharacterError for a value. *)
Variable illegal_character_message : str -> str.

(** openpyxl's check of a text on its way into a cell: cut to 32767
    characters, refused when an illegal character remains. *)
Definition check_string (v : str) : result str :=
  let v := firstn max_cell_length v in
  if existsb illegal v then inl (IllegalCharacterError, illegal_character_message v)
  else inr v.

(** [ws[...] = v] and [ws.cell(row, column, value=v)] on the sheet at
    position [ws]. *)
Definition set_cell (ws : nat) (key : nat * nat) (v : str) : W unit :=
  fun wb =>
    match check_string v with
    | inl e => inl e
    | inr v => inr (tt, update_nth ws (write key v) wb)
    end.

(** [for paragraph in paragraphs: if paragraph.strip(): ...]; the result
    is [row_num] after the loop. *)
Fixpoint write_paragraphs (ws : nat) (paragraphs : list str) (row_num : nat) : W nat :=
  match paragraphs with
  | [] => ret row_num
  | paragraph :: rest =>
      if nonempty (strip paragraph)
      then _ <- set_cell ws (row_num, 1) (strip paragraph) ;;
           write_paragraphs ws rest (row_num + 1)
      else write_paragraphs ws rest row_num
  end.

(** [for i, page_text in enumerate(text_data): ...] *)
Fixpoint write_pages (ws : nat) (text_data : list value) (i row_num : nat) : W unit :=
  match text_data with
  | [] => ret tt
  | page_text :: rest =>
      _ <- set_cell ws (row_num, 1) (py "Page " ++ str_of_nat (i + 1) ++ py ":") ;;
      let row_num := row_num + 1 in
      match page_text with
      | VStr page_text =>
          row_num <- write_paragraphs ws (split_on LF page_text) row_num ;;
          write_pages ws rest (S i) (row_num + 1)
      | _ => raise (no_attribute (type_name page_text) "split")
      end
  end.

Definition _add_text_sheet (text_data : value) (filename : str) : W unit :=
  ws <- create_sheet (py "Extracted Text") ;;
  _ <- set_cell ws (1, 1) (py "Text Extracted from: " ++ filename) ;;
  _ <- match text_data with
       | VList l => write_pages ws l 0 3
       | VStr s =>
           _ <- write_paragraphs ws (split_on LF s) 3 ;;
           ret tt
       | _ => raise (no_attribute (type_name text_data) "split")
       end ;;
  set_cell ws (2, 1) (py "Extracted on: " ++ now).

Definition _add_summary_sheet (message filename : str) : W unit :=
  ws <- create_sheet (py "Summary") ;;
  _ <- set_cell ws (1, 1) (py "PDF to Excel Conversion Summary") ;;
  _ <- set_cell ws (3, 1) (py "Original File: " ++ filename) ;;
  _ <- set_cell ws (4, 1) (py "Conversion Date: " ++ now) ;;
  set_cell ws (6, 1) (py "Status: " ++ message).

Definition _add_error_sheet (error_message filename : str) : W unit :=
  ws <- create_sheet (py "Error") ;;
  _ <- set_cell ws (1, 1) (py "Conversion Error") ;;
  _ <- set_cell ws (3, 1) (py "File: " ++ filename) ;;
  _ <- set_cell ws (4, 1) (py "Error occurred at: " ++ now_in_handler) ;;
  _ <- set_cell ws (6, 1) (py "Error Details:") ;;
  set_cell ws (7, 1) error_message.

(** [for c_idx, value in enumerate(row, 1): ws.cell(row=r_idx, column=c_idx, value=value)];
    a [None] leaves the cell without a value. *)
Fixpoint write_row (ws : nat) (r_idx c_idx : nat) (row : list cell) : W unit :=
  match row with
  | [] => ret tt
  | v :: rest =>
      _ <- match v with
           | Some v => set_cell ws (r_idx, c_idx) v
           | None => ret tt
           end ;;
      write_row ws r_idx (S c_idx) rest
  end.

(** [for r_idx, row in enumerate(dataframe_to_rows(df, index=False, header=True), start_row)] *)
Fixpoint write_rows (ws : nat) (r_idx : nat) (rows : list (list cell)) : W unit :=
  match rows with
  | [] => ret tt
  | row :: rest =>
      _ <- write_row ws r_idx 1 row ;;
      write_rows ws (S r_idx) rest
  end.

(** ['page' in df.attrs], for a value that has [attrs]. *)
Definition page_of (df : value) : option nat :=
  match df with
  | VFrame f => attrs_page f
  | _ => None
  end.

(** The body of [for i, df in enumerate(tables_data)]. *)
Definition add_table_sheet (i : nat) (df : value) (filename : str) : W unit :=
  let sheet_name := py "Table_" ++ str_of_nat (i + 1) in
  let sheet_name :=
    match page_of df with
    | Some page => py "Table_" ++ str_of_nat (i + 1) ++ py "_Page_" ++ str_of_nat page
    | None => sheet_name
    end in
  let sheet_name := firstn 31 (sub invalid_title_chars [] sheet_name) in
  ws <- create_sheet sheet_name ;;
  _ <- set_cell ws (1, 1) (py "Table " ++ str_of_nat (i + 1) ++ py " from: " ++ filename) ;;
  start_row <-
    match page_of df with
    | Some page =>
        _ <- set_cell ws (2, 1) (py "Source: Page " ++ str_of_nat page) ;;
        ret 4
    | None => ret 3
    end ;;
  match df with
  | VFrame f => write_rows ws start_row (columns f :: rows f)
  | _ => raise (no_attribute (type_name df) "columns")
  end.

Fixpoint add_table_sheets (tables_data : list value) (i : nat) (filename : str) : W unit :=
  match tables_data with
  | [] => ret tt
  | df :: rest =>
      _ <- add_table_sheet i df filename ;;
      add_table_sheets rest (S i) filename
  end.

Definition _add_table_sheets (tables_data : value) (filename : str) : W unit :=
  t <- lift (truth tables_data) ;;
  if negb t then _add_summary_sheet (py "No tables found in PDF") filename
  else add_table_sheets (iterate tables_data) 0 filename.

(** The [try] block of [convert_to_excel], from the empty workbook to the
    workbook that is saved. *)
Definition build (data : value) (extraction_method filename : str) : W unit :=
  _ <- (if str_eqb extraction_method (py "Text Extraction")
        then _add_text_sheet data filename
        else if str_eqb extraction_method (py "Table Detection")
        then _add_table_sheets data filename
        else
          match data with
          | VDict d =>
              t <- lift (truth (get d (py "text"))) ;;
              _ <- (if t then _add_text_sheet (get d (py "text")) filename else ret tt) ;;
              t <- lift (truth (get d (py "tables"))) ;;
              if t then _add_table_sheets (get d (py "tables")) filename else ret tt
          | _ => _add_text_sheet data filename
          end) ;;
  fun wb =>
    match wb with
    | [] => _add_summary_sheet (py "No data extracted") filename wb
    | _ :: _ => inr (tt, wb)
    end.

(** [convert_to_excel]: the workbook the returned buffer holds, or the
    exception that leaves the function. *)
Definition convert_to_excel (data : value) (extraction_method original_filename : str)
    : result Workbook :=
  match build data extraction_method original_filename (remove_active Workbook_new) with
  | inr (_, wb) => inr wb
  | inl e =>
      match _add_error_sheet (snd e) original_filename (remove_active Workbook_new) with
      | inr (_, wb) => inr wb
      | inl e' => inl e'
      end
  end.

End Converter.

End excel_converter.

(* ===================================================================== *)
(** * The specification's wording, where it is compared with the code *)
(* ===================================================================== *)

Module spec_words.
Import Py Re pdf_processor.

(** An uppercase ASCII letter. *)
Definition ascii_upper (c : N) : bool := between 65 90 c.

Definition starts_ascii_upper (line : str) : bool :=
  match line with c :: _ => ascii_upper c | [] => false end.

(** Block merging in the specification's words: lines are merged "unless
    the current accumulated paragraph already exceeds 100 characters or
    the next line starts with an uppercase ASCII letter". *)
Definition spec_merge_step (state : list str * str) (line : str) : list str * str :=
  let '(merged_lines, current_block) := state in
  let line := strip line in
  if nonempty line then
    if nonempty current_block && negb (100 <? length current_block)
       && negb (starts_ascii_upper line)
    then (merged_lines, current_block ++ [SP] ++ line)
    else (flush (merged_lines, current_block), line)
  else (flush (merged_lines, current_block), []).

Definition spec_merge_blocks (page_text : str) : str :=
  join [LF] (flush (fold_left spec_merge_step (split_on LF page_text) ([], []))).

(** The error taxonomy of the specification: "ValidationError (oversized
    file, missing PDF signature, missing EOF marker)" and "ExtractionError
    (underlying parser failure, unreadable/corrupt content)". *)
Inductive taxonomy := ValidationError | ExtractionError.

(** The class the specification gives to the failure of an extraction
    from these bytes: that of the checks when one of them fails, that of
    the parser otherwise. *)
Definition spec_error_class (self : PDFProcessor) (pdf_bytes : bytes) : taxonomy :=
  match _validate_pdf_security self pdf_bytes with
  | inl _ => ValidationError
  | inr _ => ExtractionError
  end.

Section Words.
Context {U : Unicode}.

(** Splitting a line in the specification's words: "the strongest
    available delimiter (tab > pipe > comma > multi-space run, in that
    priority)". *)
Definition spec_split_line (line : str) : list str :=
  if str_in [TAB] line then split_on TAB line
  else if str_in (py "|") line
  then map strip (filter (fun cell => nonempty (strip cell)) (split_on (ch "|") line))
  else if str_in (py ",") line then split_on (ch ",") line
  else split multi_space line.

End Words.

End spec_words.

(* ===================================================================== *)
(** * Notions used by the proofs *)
(* ===================================================================== *)

Module proof_notions.
Import Py Re Pandas data_sanitizer.

(** A row whose first [k] cells have been through [f]. *)
Definition done_upto {A} (f : A -> A) (k : nat) (r : list A) : list A :=
  map f (firstn k r) ++ skipn k r.

Section Notions.
Context {U : Unicode}.

(** The continuation of [\d{4,}] inside [\b\d{4,}\b]: the closing [\b]. *)
Definition closing : cont := fun p s n => if at_boundary p s then Some n else None.

(** No character set of the pattern holds the character [c]. *)
Fixpoint avoids (c : char) (r : regex) : bool :=
  match r with
  | Eps | Bound => true
  | Rep cs _ _ => negb (in_charset cs c)
  | Cat r1 r2 | Alt r1 r2 => avoids c r1 && avoids c r2
  end.

End Notions.

(** Data of the same format: the same class, lists of the same length,
    dictionaries with the same keys in the same order and values of the
    same format. *)
#[warnings="-register-all"]
Inductive same_format : data -> data -> Prop :=
| same_none : same_format DNone DNone
| same_str (s t : list N) : same_format (DStr s) (DStr t)
| same_frame (r r' : nat) : same_format (DFrame r) (DFrame r')
| same_list (l l' : list data) :
    length l = length l' -> same_format (DList l) (DList l')
| same_dict (d d' : list (list N * data)) :
    Forall2 (fun x y => fst x = fst y /\ same_format (snd x) (snd y)) d d' ->
    same_format (DDict d) (DDict d').

(** The characters of a text that are not white space. *)
Definition visible (s : list N) : list N := filter (fun c => negb (isspace c)) s.

(** The tokens the substitutions insert. *)
Definition placeholders : list (list N) :=
  [EMAIL_REDACTED; PHONE_REDACTED; SSN_REDACTED; CARD_REDACTED; ID_REDACTED;
   NUMBER_REDACTED].

(** A sheet title that Excel accepts: at most 31 characters, none of
    [\ / * ? : [ ]]. *)
Definition valid_title (t : list N) : bool :=
  (length t <=? 31) &&
  forallb (fun c => negb (existsb (N.eqb c) (py "\/*?:[]"))) t.

(** A text that a cell holds as it is: within the length limit and free of
    the characters the library refuses. *)
Definition storable (v : list N) : Prop :=
  length v <= excel_converter.max_cell_length /\ excel_converter.legal v = true.

(** A workbook whose sheets have valid titles and storable values. *)
Definition well_formed (wb : excel_converter.Workbook) : Prop :=
  Forall (fun ws =>
            valid_title (excel_converter.title ws) = true /\
            Forall (fun kv => storable (snd kv)) (excel_converter.cells ws))
         wb.

(** The heading cells of [n] pages without text, the first of them
    page [i + 1] on row [row]; a page without text takes two rows. *)
Definition page_headings (i row n : nat) : list ((nat * nat) * list N) :=
  map (fun k =>
         ((row + 2 * k, 1),
          firstn excel_converter.max_cell_length
            (py "Page " ++ str_of_nat (i + k + 1) ++ py ":")))
      (seq 0 n).

(** A step that, when it returns, hands a well-formed workbook on as a
    well-formed workbook with no sheet less. *)
Definition keeps {A} (m : excel_converter.W A) : Prop :=
  forall (wb wb' : excel_converter.Workbook) (x : A),
    m wb = inr (x, wb') -> well_formed wb ->
    well_formed wb' /\ length wb <= length wb'.

End proof_notions.

(* ===================================================================== *)
(** * Sample inputs *)
(* ===================================================================== *)

Module samples.
Import Py Pandas pdf_processor.

(** A page with a text and no table. *)
Definition text_page (text : string) : page :=
  {| extract_text_of := inr (Some (py text)); extract_tables_of := inr [] |}.

(** A document of two pages. *)
Definition two_pages : list page := [text_page "first"; text_page "second"].

(** Bytes that pass the three checks. *)
Definition small_pdf : bytes := b "%PDF-1.4 %%EOF".

(** A raw table whose first data row is shorter than the header. *)
Definition ragged_table : raw_table :=
  [[Some (py "h1"); Some (py "h2")];
   [Some (py "1")];
   [Some (py " x "); Some (py "None")]].

(** A page with tables and no text. *)
Definition table_page (tables : list raw_table) : page :=
  {| extract_text_of := inr None; extract_tables_of := inr tables |}.

(** A frame with an address in it. *)
Definition contact_frame : DataFrame :=
  {| columns := [Some (py "name"); Some (py "mail")];
     rows := [[Some (py "ann"); Some (py "ann@example.com")]];
     attrs_page := Some 1; attrs_table := Some 1 |}.

End samples.

(* ===================================================================== *)
(** * Properties of the sanitizer *)
(* ===================================================================== *)

Module sanitizer_properties.
Import Py Re Exn Pandas data_sanitizer proof_notions.

Section Facts.
Context {U : Unicode}.


Lemma decimal_is_word (c : char) : isdecimal c = true -> is_word c = true.
Proof.
  unfold is_word, isdecimal, isalnum.
  destruct (is_ascii c); intros H; rewrite H; simpl.
  - reflexivity.
  - rewrite orb_true_r. reflexivity.
Qed.

Lemma match_numeric_unfold (prev : option char) (s : str) :
  match_at numeric_sequences prev s =
  if at_boundary prev s then rep_match [Digit] 4 None prev s 0 closing else None.
Proof. reflexivity. Qed.

Lemma in_digit (c : char) : in_charset [Digit] c = isdecimal c.
Proof. unfold in_charset. simpl. apply orb_false_r. Qed.

Lemma rep_digits_closing (s : str) :
  forall (lo : nat) (prev : option char) (n : nat),
    (lo = 0 -> word_before prev = true) ->
    rep_match [Digit] lo None prev s n closing =
    if (lo <=? run s) && negb (word_here (skipn (run s) s))
    then Some (n + run s) else None.
Proof.
  induction s as [|c t IH]; intros lo prev n Hprev.
  - simpl. destruct lo as [|lo]; simpl.
    + unfold closing, at_boundary. rewrite Hprev by reflexivity. simpl.
      f_equal. lia.
    + reflexivity.
  - cbn [rep_match run]. rewrite in_digit. cbn [exhausted negb option_map].
    rewrite andb_true_r.
    destruct (isdecimal c) eqn:Hc.
    + rewrite IH by (intros _; simpl; apply decimal_is_word; exact Hc).
      cbn [skipn].
      assert (Hlo : (Nat.pred lo <=? run t) = (lo <=? S (run t))).
      { destruct lo; simpl; reflexivity. }
      rewrite Hlo.
      destruct ((lo <=? S (run t)) && negb (word_here (skipn (run t) t))) eqn:Hok.
      * f_equal. lia.
      * destruct lo as [|lo]; [|reflexivity].
        unfold closing, at_boundary. rewrite Hprev by reflexivity.
        simpl. rewrite (decimal_is_word c Hc). reflexivity.
    + cbn [skipn]. destruct lo as [|lo]; simpl.
      * unfold closing, at_boundary. rewrite Hprev by reflexivity.
        simpl. destruct (is_word c); simpl; [reflexivity | f_equal; lia].
      * reflexivity.
Qed.


Lemma run_le_length (s : str) : run s <= length s.
Proof. induction s as [|c t IH]; simpl; [lia|]. destruct (isdecimal c); simpl; lia. Qed.

Lemma run_skipn_run (s : str) : run (skipn (run s) s) = 0.
Proof.
  induction s as [|c t IH]; simpl; [reflexivity|].
  destruct (isdecimal c) eqn:Hc; simpl; [exact IH | rewrite Hc; reflexivity].
Qed.

Lemma run_positive_word_here (s : str) : 0 < run s -> word_here s = true.
Proof.
  destruct s as [|c t]; simpl; [lia|].
  destruct (isdecimal c) eqn:Hc; [intros _; apply decimal_is_word; exact Hc | lia].
Qed.

(** [\b\d{4,}\b] matches at a position exactly when the digits that start
    there are at least four, no word character stands before them and
    none follows them; the match is the whole run. *)
Lemma match_numeric (prev : option char) (s : str) :
  match_at numeric_sequences prev s =
  if negb (word_before prev) && (4 <=? run s) && negb (word_here (skipn (run s) s))
  then Some (run s) else None.
Proof.
  rewrite match_numeric_unfold, rep_digits_closing by discriminate.
  destruct (4 <=? run s) eqn:H4.
  - unfold at_boundary. rewrite run_positive_word_here.
    + destruct (word_before prev); simpl; reflexivity.
    + apply Nat.leb_le in H4. lia.
  - simpl. rewrite andb_false_r. simpl. destruct (at_boundary prev s); reflexivity.
Qed.

Lemma sub_skip (r : regex) (repl : str) (s : str) :
  forall (k : nat) (p : option char),
    k <= length s ->
    sub_from r repl p s k =
    sub_from r repl (prev_after p (firstn k s)) (skipn k s) 0.
Proof.
  induction s as [|c t IH]; intros k p Hk.
  - simpl in Hk. assert (k = 0) by lia. subst k. reflexivity.
  - destruct k as [|k].
    + reflexivity.
    + simpl in Hk. cbn [sub_from firstn skipn]. rewrite IH by lia. reflexivity.
Qed.

Abbreviation redact := (sub_from numeric_sequences NUMBER_REDACTED).

Lemma redact_nil (p : option char) : redact p [] 0 = [].
Proof. cbn [sub_from]. rewrite match_numeric. simpl. rewrite andb_false_r. reflexivity. Qed.

Lemma redact_no_match (p : option char) (c : char) (t : str) :
  match_at numeric_sequences p (c :: t) = None ->
  redact p (c :: t) 0 = c :: redact (Some c) t 0.
Proof. intros H. cbn [sub_from]. rewrite H. reflexivity. Qed.

Lemma redact_match (p : option char) (s : str) (m : nat) :
  match_at numeric_sequences p s = Some m ->
  redact p s 0 =
  NUMBER_REDACTED ++ redact (prev_after p (firstn m s)) (skipn m s) 0.
Proof.
  intros H. pose proof H as H'. rewrite match_numeric in H'.
  destruct (negb (word_before p) && (4 <=? run s) && negb (word_here (skipn (run s) s))) eqn:Hc;
    [|discriminate].
  injection H' as <-.
  apply andb_prop in Hc as [Hc _]. apply andb_prop in Hc as [_ H4].
  apply Nat.leb_le in H4.
  pose proof (run_le_length s) as Hlen.
  destruct s as [|c t]; [simpl in H4; lia|].
  cbn [sub_from]. rewrite H.
  destruct (run (c :: t)) as [|k] eqn:Hr; [lia|].
  f_equal. simpl in Hlen. rewrite sub_skip by lia. reflexivity.
Qed.

Lemma no_match_after_word (p : option char) (s : str) :
  word_before p = true -> match_at numeric_sequences p s = None.
Proof. intros H. rewrite match_numeric, H. reflexivity. Qed.

Lemma no_match_short_run (p : option char) (s : str) :
  run s < 4 -> match_at numeric_sequences p s = None.
Proof.
  intros H. rewrite match_numeric.
  replace (4 <=? run s) with false by (symmetry; apply Nat.leb_gt; lia).
  rewrite andb_false_r. reflexivity.
Qed.

(** Where [\b\d{4,}\b] does not match, the digits that start there are
    copied. *)
Lemma redact_copies_run (s : str) :
  forall p : option char,
    match_at numeric_sequences p s = None ->
    redact p s 0 =
    firstn (run s) s ++ redact (prev_after p (firstn (run s) s)) (skipn (run s) s) 0.
Proof.
  induction s as [|c t IH]; intros p H.
  - reflexivity.
  - cbn [run]. destruct (isdecimal c) eqn:Hc.
    + rewrite redact_no_match by exact H.
      cbn [firstn skipn app]. f_equal.
      rewrite IH.
      * reflexivity.
      * apply no_match_after_word. simpl. apply decimal_is_word. exact Hc.
    + reflexivity.
Qed.

(** Text without digits is copied. *)
Lemma redact_copies_non_digits (l : str) :
  forall (p : option char) (s : str),
    forallb (fun c => negb (isdecimal c)) l = true ->
    redact p (l ++ s) 0 = l ++ redact (prev_after p l) s 0.
Proof.
  induction l as [|c l IH]; intros p s H.
  - reflexivity.
  - simpl in H. apply andb_prop in H as [Hc Hl].
    cbn [app]. rewrite redact_no_match.
    + f_equal. rewrite IH by exact Hl. reflexivity.
    + apply no_match_short_run. simpl.
      destruct (isdecimal c); [discriminate | lia].
Qed.

Lemma placeholder_has_no_digit :
  forallb (fun c => negb (isdecimal c)) NUMBER_REDACTED = true.
Proof. vm_compute. reflexivity. Qed.

(** What [redact] yields starts as its argument does when that is not a digit. *)
Lemma redact_head (p : option char) (s : str) :
  run s = 0 ->
  run (redact p s 0) = 0 /\ word_here (redact p s 0) = word_here s.
Proof.
  intros Hr. destruct s as [|c t].
  - rewrite redact_nil. split; reflexivity.
  - rewrite redact_no_match by (apply no_match_short_run; lia).
    simpl in Hr. simpl. destruct (isdecimal c); [discriminate|]. split; reflexivity.
Qed.

Lemma run_app_digits (s x : str) :
  run x = 0 -> run (firstn (run s) s ++ x) = run s.
Proof.
  intros Hx. induction s as [|c t IH]; simpl.
  - exact Hx.
  - destruct (isdecimal c) eqn:Hc; simpl; [rewrite Hc, IH; reflexivity | exact Hx].
Qed.

Lemma firstn_app_exact {A} (l x : list A) : firstn (length l) (l ++ x) = l.
Proof. induction l; simpl; [destruct x|]; congruence. Qed.

Lemma skipn_app_exact {A} (l x : list A) : skipn (length l) (l ++ x) = x.
Proof. induction l; simpl; congruence. Qed.

Lemma length_firstn_run (s : str) : length (firstn (run s) s) = run s.
Proof. apply firstn_length_le, run_le_length. Qed.

Lemma prev_after_nonempty (p q : option char) (l : str) :
  l <> [] -> prev_after p l = prev_after q l.
Proof.
  destruct l as [|c l]; [congruence|]. intros _. reflexivity.
Qed.

Lemma redact_idempotent_from (n : nat) :
  forall (s : str) (p q : option char),
    length s <= n ->
    word_before p = word_before q \/ run s = 0 ->
    redact q (redact p s 0) 0 = redact p s 0.
Proof.
  induction n as [|n IH]; intros s p q Hlen Hpq.
  - destruct s; [|simpl in Hlen; lia]. rewrite !redact_nil. reflexivity.
  - destruct (match_at numeric_sequences p s) as [m|] eqn:Hm.
    + (* the run is replaced *)
      rewrite (redact_match _ _ _ Hm).
      rewrite redact_copies_non_digits by apply placeholder_has_no_digit.
      f_equal.
      rewrite match_numeric in Hm.
      destruct (negb (word_before p) && (4 <=? run s) && negb (word_here (skipn (run s) s)))
        eqn:Hc; [|discriminate].
      injection Hm as <-.
      apply andb_prop in Hc as [Hc _]. apply andb_prop in Hc as [_ H4].
      apply Nat.leb_le in H4.
      apply IH.
      * rewrite length_skipn. lia.
      * right. apply run_skipn_run.
    + destruct (run s) as [|r] eqn:Hr.
      * (* no digit here *)
        destruct s as [|c t]; [rewrite !redact_nil; reflexivity|].
        rewrite (redact_no_match _ _ _ Hm).
        rewrite redact_no_match.
        -- f_equal. apply IH; [simpl in Hlen; lia | left; reflexivity].
        -- apply no_match_short_run. simpl. simpl in Hr.
           destruct (isdecimal c); [discriminate | lia].
      * (* a run that is kept *)
        destruct Hpq as [Hpq | Hz]; [|lia].
        rewrite (redact_copies_run _ _ Hm).
        set (ds := firstn (run s) s).
        set (rest := skipn (run s) s).
        set (p' := prev_after p ds).
        assert (Hds : length ds = run s) by apply length_firstn_run.
        assert (Hne : ds <> []) by (intros E; rewrite E in Hds; simpl in Hds; lia).
        destruct (redact_head p' rest (run_skipn_run s)) as [Hrun Hhead].
        assert (Hrun' : run (ds ++ redact p' rest 0) = run s)
          by (apply run_app_digits; exact Hrun).
        rewrite redact_copies_run.
        -- rewrite Hrun', <- Hds, firstn_app_exact, skipn_app_exact.
           f_equal.
           rewrite (prev_after_nonempty q p ds Hne). fold p'.
           apply IH.
           ++ unfold rest. rewrite length_skipn. lia.
           ++ left; reflexivity.
        -- rewrite match_numeric, Hrun'.
           rewrite <- Hds at 2. rewrite skipn_app_exact, Hhead.
           rewrite match_numeric in Hm. fold rest in Hm. rewrite <- Hpq. 
           destruct (negb (word_before p) && (4 <=? run s) && negb (word_here rest));
             [discriminate | reflexivity].
Qed.

Lemma redact_idempotent (s : str) :
  sub numeric_sequences NUMBER_REDACTED (sub numeric_sequences NUMBER_REDACTED s) =
  sub numeric_sequences NUMBER_REDACTED s.
Proof.
  unfold sub. apply (redact_idempotent_from (length s)); [lia | left; reflexivity].
Qed.


Lemma sanitize_text_no_flag (s : str) : sanitize_text s false false = s.
Proof. destruct s as [|c t]; reflexivity. Qed.

(** C9.  With both flags off [sanitize_text] returns its argument: for
    every text [s], [sanitize_text(s, basic_sanitization=False,
    redact_numbers=False)] is [s]. *)
Theorem sanitize_text_identity_when_flags_off (s : str) :
  sanitize_text s false false = s.
Proof.
  unfold sanitize_text. destruct s as [|c t].
  - reflexivity.
  - cbv zeta. reflexivity.
Qed.

Lemma sanitize_text_numbers_only (s : str) :
  sanitize_text s false true = sub numeric_sequences NUMBER_REDACTED s.
Proof.
  destruct s as [|c t]; [|reflexivity].
  unfold sub. rewrite redact_nil. reflexivity.
Qed.

(** C6, as amended.  With basic sanitization off, sanitizing twice with
    the same flags is sanitizing once, whatever the redact-numbers flag;
    and under every combination of the two flags each placeholder token
    is left as it is, so that no pattern of the set matches a token.
    (With basic sanitization on, a second pass can replace what the first
    one left.) *)
Theorem sanitize_text_idempotent_without_basic :
  (forall (s : str) (redact_numbers : bool),
     sanitize_text (sanitize_text s false redact_numbers) false redact_numbers =
     sanitize_text s false redact_numbers) /\
  (forall basic_sanitization redact_numbers : bool,
     Forall (fun token => sanitize_text token basic_sanitization redact_numbers = token)
            placeholders).
Proof.
  split.
  - intros s [|].
    + rewrite !sanitize_text_numbers_only. apply redact_idempotent.
    + rewrite !sanitize_text_no_flag. reflexivity.
  - intros [|] [|]; repeat constructor; vm_compute; reflexivity.
Qed.

(** The two passes on a text made of an address followed by ten digits,
    under any character database. *)
Lemma sanitize_text_two_passes :
  sanitize_text (py "a@b.cc1234567890") true false = py "a@b.cc[PHONE_REDACTED]" /\
  sanitize_text (py "a@b.cc[PHONE_REDACTED]") true false =
    py "[EMAIL_REDACTED][PHONE_REDACTED]".
Proof. split; vm_compute; reflexivity. Qed.

End Facts.

(** C6, counterexample.  With basic sanitization on, the first pass over
    ["a@b.cc1234567890"] replaces the digits only, because no word
    boundary follows the address; the placeholder then provides that
    boundary, and the second pass replaces the address as well. *)
Lemma sanitize_text_second_pass_differs :
  sanitize_text (U:=ascii_only) (py "a@b.cc1234567890") true false =
    py "a@b.cc[PHONE_REDACTED]" /\
  sanitize_text (U:=ascii_only)
    (sanitize_text (U:=ascii_only) (py "a@b.cc1234567890") true false) true false =
    py "[EMAIL_REDACTED][PHONE_REDACTED]".
Proof. split; vm_compute; reflexivity. Qed.

End sanitizer_properties.

(* ===================================================================== *)
(** * Properties of the extractor *)
(* ===================================================================== *)

Module extraction_properties.
Import Py Re Exn Pandas pdf_processor spec_words proof_notions samples.

Section Facts.
Context {U : Unicode}.
Variable pdfplumber_open : bytes -> result (list page).


Lemma validate_cases (self : PDFProcessor) (pdf_bytes : bytes) :
  _validate_pdf_security self pdf_bytes =
  if (max_file_size self <? len pdf_bytes)%N
  then inl (ValueError, File_too_large (len pdf_bytes) (max_file_size self))
  else if negb (startswith Byte.eqb (b "%PDF-") pdf_bytes)
  then inl (ValueError, Plain (py "Invalid PDF file: Missing PDF header signature"))
  else if negb (contains Byte.eqb (b "%%EOF") pdf_bytes)
  then inl (ValueError, Plain (py "Invalid PDF file: Missing end-of-file marker"))
  else inr true.
Proof. reflexivity. Qed.

Lemma extract_text_invalid (self : PDFProcessor) (pdf_bytes : bytes)
    (pf sp mg : bool) (e : error) (tr : list event) :
  _validate_pdf_security self pdf_bytes = inl e ->
  extract_text pdfplumber_open self pdf_bytes pf sp mg tr =
  (inl (Exception, Failed_text (snd e)), tr).
Proof.
  intros H. unfold extract_text, try_except, bind, lift. rewrite H. reflexivity.
Qed.

Lemma extract_tables_invalid (self : PDFProcessor) (pdf_bytes : bytes)
    (rm : bool) (e : error) (tr : list event) :
  _validate_pdf_security self pdf_bytes = inl e ->
  extract_tables pdfplumber_open self pdf_bytes rm tr =
  (inl (Exception, Failed_tables (snd e)), tr).
Proof.
  intros H. unfold extract_tables, try_except, bind, lift. rewrite H. reflexivity.
Qed.

(** C3, as amended.  A byte sequence that is longer than 50 MiB, or
    does not start with [%PDF-], or does not contain [%%EOF], makes
    [extract_text] and [extract_tables] fail: [_validate_pdf_security]
    raises a ValueError whose message names the first check that failed
    (the size message carries the actual and the maximum size), both
    functions re-raise it as a plain Exception that carries this message,
    and the trace of calls to the PDF parser is left as it was: the parser
    is not invoked.  The class of the exception is the one a failure of
    the parser gets as well; the check that failed is told by the
    message. *)
Theorem validation_failure_precedes_parsing
    (pdf_bytes : bytes) (preserve_formatting split_by_pages merge_text_blocks
     remove_empty_rows : bool) (tr : list event) :
  (50 * 1024 * 1024 < len pdf_bytes)%N \/
  startswith Byte.eqb (b "%PDF-") pdf_bytes = false \/
  contains Byte.eqb (b "%%EOF") pdf_bytes = false ->
  exists m : message,
    _validate_pdf_security __init__ pdf_bytes = inl (ValueError, m) /\
    ((50 * 1024 * 1024 < len pdf_bytes)%N ->
       m = File_too_large (len pdf_bytes) (50 * 1024 * 1024)) /\
    ((len pdf_bytes <= 50 * 1024 * 1024)%N ->
     startswith Byte.eqb (b "%PDF-") pdf_bytes = false ->
       m = Plain (py "Invalid PDF file: Missing PDF header signature")) /\
    ((len pdf_bytes <= 50 * 1024 * 1024)%N ->
     startswith Byte.eqb (b "%PDF-") pdf_bytes = true ->
       m = Plain (py "Invalid PDF file: Missing end-of-file marker")) /\
    extract_text pdfplumber_open __init__ pdf_bytes
      preserve_formatting split_by_pages merge_text_blocks tr =
      (inl (Exception, Failed_text m), tr) /\
    extract_tables pdfplumber_open __init__ pdf_bytes remove_empty_rows tr =
      (inl (Exception, Failed_tables m), tr) /\
    (forall (accepted : bytes) (e : exn),
       _validate_pdf_security __init__ accepted = inr true ->
       pdfplumber_open accepted = inl e ->
       extract_text pdfplumber_open __init__ accepted
         preserve_formatting split_by_pages merge_text_blocks tr =
         (inl (Exception, Failed_text (Plain (snd e))), tr ++ [Opened accepted]) /\
       extract_tables pdfplumber_open __init__ accepted remove_empty_rows tr =
         (inl (Exception, Failed_tables (Plain (snd e))), tr ++ [Opened accepted])).
Proof.
  intros H.
  assert (Hv : exists m, _validate_pdf_security __init__ pdf_bytes = inl (ValueError, m) /\
    ((50 * 1024 * 1024 < len pdf_bytes)%N ->
       m = File_too_large (len pdf_bytes) (50 * 1024 * 1024)) /\
    ((len pdf_bytes <= 50 * 1024 * 1024)%N ->
     startswith Byte.eqb (b "%PDF-") pdf_bytes = false ->
       m = Plain (py "Invalid PDF file: Missing PDF header signature")) /\
    ((len pdf_bytes <= 50 * 1024 * 1024)%N ->
     startswith Byte.eqb (b "%PDF-") pdf_bytes = true ->
       m = Plain (py "Invalid PDF file: Missing end-of-file marker"))).
  { rewrite validate_cases.
    change (max_file_size __init__) with (50 * 1024 * 1024)%N.
    destruct (50 * 1024 * 1024 <? len pdf_bytes)%N eqn:Hsize.
    - apply N.ltb_lt in Hsize. eexists. split; [reflexivity|].
      repeat split; intros; try reflexivity; lia.
    - apply N.ltb_ge in Hsize.
      destruct (startswith Byte.eqb (b "%PDF-") pdf_bytes) eqn:Hhead; cbn [negb].
      + destruct (contains Byte.eqb (b "%%EOF") pdf_bytes) eqn:Heof; cbn [negb].
        * destruct H as [H | [H | H]]; [lia | discriminate | discriminate].
        * eexists. split; [reflexivity|].
          repeat split; intros; try reflexivity; try discriminate; lia.
      + eexists. split; [reflexivity|].
        repeat split; intros; try reflexivity; try discriminate; lia. }
  destruct Hv as (m & Hm & H1 & H2 & H3).
  exists m. split; [exact Hm|]. split; [exact H1|]. split; [exact H2|].
  split; [exact H3|]. split; [|split].
  - rewrite (extract_text_invalid _ _ _ _ _ _ _ Hm). reflexivity.
  - rewrite (extract_tables_invalid _ _ _ _ _ Hm). reflexivity.
  - intros accepted e Hok Hopen.
    unfold extract_text, extract_tables, try_except, bind, lift, lift_exn, open, raise, ret.
    rewrite Hok, Hopen. split; reflexivity.
Qed.



Lemma merge_step_cases (merged_lines : list str) (current_block line : str) :
  merge_step (merged_lines, current_block) line =
  if nonempty (strip line)
  then if nonempty current_block && negb (starts_upper (strip line))
          && (length current_block <? 100)
       then (merged_lines, current_block ++ [SP] ++ strip line)
       else (flush (merged_lines, current_block), strip line)
  else (flush (merged_lines, current_block), []).
Proof.
  unfold merge_step, flush.
  destruct (nonempty (strip line)); [reflexivity|].
  destruct current_block; reflexivity.
Qed.

(** The paragraphs already closed are never touched again. *)
Lemma merge_step_prefix (m0 merged_lines : list str) (current_block line : str) :
  merge_step (m0 ++ merged_lines, current_block) line =
  (m0 ++ fst (merge_step (merged_lines, current_block) line),
   snd (merge_step (merged_lines, current_block) line)).
Proof.
  rewrite !merge_step_cases. unfold flush.
  destruct (nonempty (strip line)).
  - destruct (nonempty current_block && negb (starts_upper (strip line))
              && (length current_block <? 100)); simpl.
    + reflexivity.
    + destruct (nonempty current_block); simpl; rewrite ?app_assoc; reflexivity.
  - destruct (nonempty current_block); simpl; rewrite ?app_assoc; reflexivity.
Qed.

Lemma fold_merge_prefix (lines : list str) :
  forall (m0 merged_lines : list str) (current_block : str),
    fold_left merge_step lines (m0 ++ merged_lines, current_block) =
    (m0 ++ fst (fold_left merge_step lines (merged_lines, current_block)),
     snd (fold_left merge_step lines (merged_lines, current_block))).
Proof.
  induction lines as [|l ls IH]; intros m0 m c.
  - reflexivity.
  - cbn [fold_left]. rewrite merge_step_prefix.
    destruct (merge_step (m, c) l) as [m' c'] eqn:E. cbn [fst snd].
    apply IH.
Qed.

Lemma paragraphs_after_closed (closed : list str) (lines : list str) :
  flush (fold_left merge_step lines (closed, [])) = closed ++ paragraphs lines.
Proof.
  unfold paragraphs.
  pose proof (fold_merge_prefix lines closed [] []) as H.
  rewrite app_nil_r in H. rewrite H. clear H.
  destruct (fold_left merge_step lines ([], [])) as [m c]. cbn [fst snd].
  unfold flush. destruct (nonempty c); [rewrite app_assoc|]; reflexivity.
Qed.

(** C7, as amended.  With block merging on, the loop keeps the paragraphs
    closed so far and the current one.  A line that is blank once
    stripped closes the current paragraph.  A non-blank line is appended
    to the current paragraph, after a space, when that paragraph is not
    empty, has fewer than 100 characters, and the line does not start with
    an uppercase letter ([str.isupper] of its first character); otherwise
    the current paragraph is closed and the line starts the next one.
    A blank line separates the text into parts that are merged
    independently. *)
Theorem merge_blocks_heuristic :
  (forall (lines : list str) (line : str) (merged_lines : list str) (current_block : str),
     fold_left merge_step lines ([], []) = (merged_lines, current_block) ->
     fold_left merge_step (lines ++ [line]) ([], []) =
     if nonempty (strip line)
     then if nonempty current_block && negb (starts_upper (strip line))
             && (length current_block <? 100)
          then (merged_lines, current_block ++ [SP] ++ strip line)
          else (flush (merged_lines, current_block), strip line)
     else (flush (merged_lines, current_block), [])) /\
  (forall (before : list str) (blank : str) (after : list str),
     strip blank = [] ->
     paragraphs (before ++ blank :: after) = paragraphs before ++ paragraphs after).
Proof.
  split.
  - intros lines line m c H.
    rewrite fold_left_app, H. cbn [fold_left]. apply merge_step_cases.
  - intros before blank after Hb.
    unfold paragraphs at 1. rewrite fold_left_app. cbn [fold_left].
    destruct (fold_left merge_step before ([], [])) as [m c] eqn:E.
    rewrite merge_step_cases, Hb. cbn [nonempty].
    rewrite paragraphs_after_closed. f_equal. unfold paragraphs. rewrite E. reflexivity.
Qed.


Lemma length_le_list_max {A} (data : list (list A)) (r : list A) :
  In r data -> length r <= list_max (map (@length A) data).
Proof.
  intros H.
  assert (Hall : Forall (fun k => k <= list_max (map (@length A) data))
                        (map (@length A) data))
    by (apply list_max_le; lia).
  rewrite Forall_forall in Hall. apply Hall, in_map, H.
Qed.

Lemma length_pad_none (w : nat) (r : list cell) :
  length r <= w -> length (pad_none w r) = w.
Proof. intros H. unfold pad_none. rewrite length_app, repeat_length. lia. Qed.

Lemma pad_rows_length (data : list (list cell)) :
  Forall (fun row => length row = list_max (map (@length cell) data))
         (map (pad_none (list_max (map (@length cell) data))) data).
Proof.
  apply Forall_forall. intros row Hrow.
  apply in_map_iff in Hrow as (r & <- & Hr).
  apply length_pad_none, length_le_list_max, Hr.
Qed.

Lemma DataFrame_new_rectangular (data : list (list cell)) (cols : list label)
    (df : DataFrame) :
  DataFrame_new data cols = inr df -> rectangular df /\ columns df = cols.
Proof.
  unfold DataFrame_new, rectangular. destruct data as [|r0 data'].
  - intros H. injection H as <-. split; [constructor | reflexivity].
  - destruct (Nat.eqb_spec (length cols) (list_max (map (@length cell) (r0 :: data'))))
      as [Hw|Hw]; [|discriminate].
    intros H. injection H as <-. split; [|reflexivity].
    unfold rows, columns. rewrite Hw. exact (pad_rows_length (r0 :: data')).
Qed.

Lemma rectangular_filter (f : list cell -> bool) (df : DataFrame) :
  rectangular df -> rectangular (with_rows df (filter f (rows df))).
Proof.
  unfold rectangular. cbn [rows columns with_rows]. intros H.
  apply Forall_forall. intros r Hr. apply filter_In in Hr as [Hr _].
  rewrite Forall_forall in H. apply H, Hr.
Qed.

Lemma length_clean_column_names (cols : list label) :
  length (clean_column_names cols) = length cols.
Proof.
  unfold clean_column_names, enumerate.
  rewrite length_map, length_combine, length_seq. lia.
Qed.

Lemma length_update_nth {A} (j : nat) (f : A -> A) (l : list A) :
  length (update_nth j f l) = length l.
Proof.
  revert j. induction l as [|x l IH]; intros [|j]; simpl; try reflexivity.
  rewrite IH. reflexivity.
Qed.

Lemma rectangular_map_column (j : nat) (f : cell -> cell) (df : DataFrame) :
  rectangular df -> rectangular (map_column j f df).
Proof.
  unfold rectangular, map_column. cbn [rows columns with_rows]. intros H.
  apply Forall_forall. intros r Hr. apply in_map_iff in Hr as (r0 & <- & Hr0).
  rewrite length_update_nth. rewrite Forall_forall in H. apply H, Hr0.
Qed.

Lemma clean_values_rectangular (todo : list label) :
  forall df df' : DataFrame,
    clean_values todo df = inr df' ->
    rectangular df -> rectangular df' /\ columns df' = columns df.
Proof.
  induction todo as [|col rest IH]; intros df df' H Hr.
  - injection H as <-. split; [exact Hr | reflexivity].
  - cbn [clean_values] in H.
    destruct (series_loc "str" col df) as [e|j]; [discriminate|].
    apply IH in H as [H1 H2]; [|apply rectangular_map_column, Hr].
    split; [exact H1 | rewrite H2; reflexivity].
Qed.

Lemma table_frame_rectangular (rm : bool) (page_num table_num : nat)
    (table : raw_table) (df : DataFrame) :
  table_frame rm page_num table_num table = inr (Some df) -> rectangular df.
Proof.
  unfold table_frame. destruct table as [|first rest]; [discriminate|].
  match goal with |- context [DataFrame_new rest ?h] => set (header := h) end.
  destruct (DataFrame_new rest header) as [e|df0] eqn:Hnew; [discriminate|].
  apply DataFrame_new_rectangular in Hnew as [Hrect Hcols].
  set (df1 := if rm then drop_blank_rows (dropna_all df0) else df0).
  assert (H1 : rectangular df1 /\ columns df1 = columns df0).
  { unfold df1. destruct rm; [|split; [exact Hrect | reflexivity]].
    split; [|reflexivity].
    unfold drop_blank_rows, dropna_all.
    apply rectangular_filter with (df := with_rows df0 _).
    apply rectangular_filter. exact Hrect. }
  destruct H1 as [H1 H1c].
  set (df2 := with_columns df1 (clean_column_names (columns df1))).
  assert (H2 : rectangular df2).
  { unfold rectangular, df2. cbn [rows columns with_columns].
    rewrite length_clean_column_names. exact H1. }
  destruct (clean_values (columns df2) df2) as [e|df3] eqn:Hcv; [discriminate|].
  apply clean_values_rectangular in Hcv as [H3 H3c]; [|exact H2].
  destruct (empty (with_attrs df3 (page_num + 1) (table_num + 1))); [discriminate|].
  intros H. injection H as <-. exact H3.
Qed.

Lemma tables_loop_rectangular (rm : bool) (page_num : nat) (tables : list raw_table) :
  forall (table_num : nat) (acc out : list DataFrame),
    tables_loop rm page_num tables table_num acc = inr out ->
    Forall rectangular acc -> Forall rectangular out.
Proof.
  induction tables as [|t ts IH]; intros n acc out H Hacc.
  - injection H as <-. exact Hacc.
  - cbn [tables_loop] in H.
    destruct (table_frame rm page_num n t) as [e|[df|]] eqn:Ht; [discriminate| |].
    + apply IH in H; [exact H|].
      apply Forall_app. split; [exact Hacc|].
      constructor; [|constructor]. eapply table_frame_rectangular, Ht.
    + apply IH in H; [exact H | exact Hacc].
Qed.

Lemma str_eqb_refl (x : str) : str_eqb x x = true.
Proof. unfold str_eqb. destruct (list_eq_dec N.eq_dec x x); congruence. Qed.

Lemma label_eqb_refl (l : label) : label_eqb l l = true.
Proof. destruct l; simpl; [apply str_eqb_refl | reflexivity]. Qed.

Lemma get_loc_contains (cols : list label) :
  forall (k i : nat) (col : label),
    nth_error cols k = Some col -> In (i + k) (get_loc col cols i).
Proof.
  induction cols as [|c cols IH]; intros [|k] i col H; try discriminate.
  - injection H as ->. cbn [get_loc]. rewrite label_eqb_refl. left. lia.
  - cbn [nth_error] in H. cbn [get_loc].
    apply (IH _ (S i)) in H. replace (i + S k) with (S i + k) by lia.
    destruct (label_eqb col c); [right|]; exact H.
Qed.

Lemma series_loc_position (attr : string) (df : DataFrame) (k j : nat) (col : label) :
  nth_error (columns df) k = Some col ->
  series_loc attr col df = inr j -> j = k.
Proof.
  intros Hk. unfold series_loc.
  pose proof (get_loc_contains (columns df) k 0 col Hk) as Hin.
  destruct (get_loc col (columns df) 0) as [|a [|b l]]; try discriminate.
  intros H. injection H as <-. simpl in Hin. destruct Hin as [E|[]]. exact E.
Qed.

Lemma update_nth_done_upto {A} (f : A -> A) (r : list A) :
  forall k : nat, k < length r ->
    update_nth k f (done_upto f k r) = done_upto f (S k) r.
Proof.
  unfold done_upto. induction r as [|x r IH]; intros [|k] Hk; simpl in *; try lia.
  - reflexivity.
  - f_equal. apply IH. lia.
Qed.

Lemma done_upto_all {A} (f : A -> A) (r : list A) (k : nat) :
  length r <= k -> done_upto f k r = map f r.
Proof.
  intros H. unfold done_upto.
  rewrite firstn_all2, skipn_all2 by lia. apply app_nil_r.
Qed.

Lemma clean_values_from (todo : list label) :
  forall (k : nat) (df0 df df' : DataFrame),
    skipn k (columns df0) = todo ->
    columns df = columns df0 ->
    rows df = map (done_upto clean_cell k) (rows df0) ->
    rectangular df0 ->
    clean_values todo df = inr df' ->
    rows df' = map (map clean_cell) (rows df0).
Proof.
  induction todo as [|col rest IH]; intros k df0 df df' Hsk Hc Hr Hrect H.
  - injection H as <-. rewrite Hr. apply map_ext_in. intros r Hin.
    apply done_upto_all.
    unfold rectangular in Hrect. rewrite Forall_forall in Hrect. rewrite (Hrect r Hin).
    destruct (Nat.le_gt_cases (length (columns df0)) k) as [Hle|Hgt]; [exact Hle|].
    assert (Hlen : length (skipn k (columns df0)) = 0) by (rewrite Hsk; reflexivity).
    rewrite length_skipn in Hlen. lia.
  - cbn [clean_values] in H.
    destruct (series_loc "str" col df) as [e|j] eqn:Hj; [discriminate|].
    assert (Hk : nth_error (columns df0) k = Some col).
    { rewrite <- (firstn_skipn k (columns df0)) at 1. rewrite Hsk.
      assert (Hlenk : k <= length (columns df0)).
      { destruct (Nat.le_gt_cases k (length (columns df0))) as [Hle|Hgt]; [exact Hle|].
        rewrite skipn_all2 in Hsk by lia. discriminate. }
      rewrite nth_error_app2; rewrite length_firstn, Nat.min_l by lia; [|lia].
      rewrite Nat.sub_diag. reflexivity. }
    assert (j = k) as -> by (eapply series_loc_position; [rewrite Hc; exact Hk | exact Hj]).
    apply (IH (S k) df0) in H; [exact H | | exact Hc | | exact Hrect].
    + apply nth_error_split in Hk as (l1 & l2 & Heq & Hl1).
      rewrite Heq in Hsk |- *. subst k.
      rewrite skipn_app, skipn_all, Nat.sub_diag in Hsk. simpl in Hsk.
      injection Hsk as <-.
      replace (S (length l1)) with (length (l1 ++ [col])) by (rewrite length_app; simpl; lia).
      replace (l1 ++ col :: l2) with ((l1 ++ [col]) ++ l2) by (rewrite <- app_assoc; reflexivity).
      rewrite skipn_app, skipn_all, Nat.sub_diag. reflexivity.
    + unfold map_column. cbn [rows with_rows]. rewrite Hr, map_map.
      apply map_ext_in. intros r Hin. apply update_nth_done_upto.
      unfold rectangular in Hrect. rewrite Forall_forall in Hrect. rewrite (Hrect r Hin).
      apply nth_error_Some. rewrite Hk. discriminate.
Qed.

Lemma clean_values_all (df df' : DataFrame) :
  rectangular df ->
  clean_values (columns df) df = inr df' ->
  rows df' = map (map clean_cell) (rows df).
Proof.
  intros Hrect H. apply (clean_values_from (columns df) 0 df df df'); try reflexivity;
    try assumption.
  unfold done_upto. simpl. symmetry. apply map_id.
Qed.


Lemma DataFrame_new_rows (data : list (list cell)) (cols : list label) (df : DataFrame) :
  DataFrame_new data cols = inr df ->
  rows df = map (pad_none (length cols)) data /\ columns df = cols.
Proof.
  unfold DataFrame_new. destruct data as [|r0 data'].
  - intros H. injection H as <-. split; reflexivity.
  - destruct (Nat.eqb_spec (length cols) (list_max (map (@length cell) (r0 :: data'))))
      as [Hw|Hw]; [|discriminate].
    intros H. injection H as <-. unfold rows, columns. rewrite Hw. split; reflexivity.
Qed.

Lemma clean_padded_row (n : nat) (r : list cell) :
  map clean_cell (pad_none n r) =
  map clean_cell r ++ repeat (Some []) (n - length r).
Proof.
  unfold pad_none. rewrite map_app. f_equal.
  induction (n - length r) as [|k IH]; simpl; [reflexivity | rewrite IH; reflexivity].
Qed.

(** The rows of a table built from a raw table with a header: each comes
    from a raw data row, cleaned cell by cell and padded with empty
    texts to the length of the header. *)
Lemma table_frame_rows (rm : bool) (page_num table_num : nat)
    (h : option str) (hs : list (option str)) (data : list (list (option str)))
    (df : DataFrame) :
  table_frame rm page_num table_num ((h :: hs) :: data) = inr (Some df) ->
  Forall (fun row =>
            exists r, In r data /\
              row = map clean_cell r ++ repeat (Some []) (length (h :: hs) - length r))
         (rows df).
Proof.
  unfold table_frame.
  destruct (DataFrame_new data (h :: hs)) as [e|df0] eqn:Hnew; [discriminate|].
  pose proof (DataFrame_new_rectangular _ _ _ Hnew) as [Hrect _].
  apply DataFrame_new_rows in Hnew as [Hrows Hcols].
  set (df1 := if rm then drop_blank_rows (dropna_all df0) else df0).
  assert (H1 : rectangular df1 /\ columns df1 = columns df0 /\ incl (rows df1) (rows df0)).
  { unfold df1. destruct rm.
    - split; [|split; [reflexivity|]].
      + unfold drop_blank_rows, dropna_all.
        apply rectangular_filter with (df := with_rows df0 _).
        apply rectangular_filter. exact Hrect.
      + unfold drop_blank_rows, dropna_all. cbn [rows with_rows].
        intros r Hr. apply filter_In in Hr as [Hr _]. apply filter_In in Hr as [Hr _].
        exact Hr.
    - split; [exact Hrect | split; [reflexivity | apply incl_refl]]. }
  destruct H1 as (H1 & H1c & H1i).
  set (df2 := with_columns df1 (clean_column_names (columns df1))).
  assert (H2 : rectangular df2).
  { unfold rectangular, df2. cbn [rows columns with_columns].
    rewrite length_clean_column_names. exact H1. }
  destruct (clean_values (columns df2) df2) as [e|df3] eqn:Hcv; [discriminate|].
  apply clean_values_all in Hcv; [|exact H2].
  destruct (empty (with_attrs df3 (page_num + 1) (table_num + 1))); [discriminate|].
  intros H. injection H as <-. cbn [rows with_attrs]. rewrite Hcv.
  apply Forall_forall. intros row Hrow.
  apply in_map_iff in Hrow as (padded & <- & Hp).
  unfold df2 in Hp. cbn [rows with_columns] in Hp.
  apply H1i in Hp. rewrite Hrows in Hp.
  apply in_map_iff in Hp as (r & <- & Hr).
  exists r. split; [exact Hr | apply clean_padded_row].
Qed.

Lemma pad_rows_same_length (rows : list (list str)) :
  Forall (fun row => length row = list_max (map (@length (list N)) rows))
         (map (pad_row (list_max (map (@length (list N)) rows))) rows).
Proof.
  apply Forall_forall. intros row Hrow.
  apply in_map_iff in Hrow as (r & <- & Hr).
  unfold pad_row. rewrite length_app, repeat_length.
  pose proof (length_le_list_max rows r Hr). lia.
Qed.

Lemma pad_none_full (w : nat) (r : list cell) : w <= length r -> pad_none w r = r.
Proof.
  intros H. unfold pad_none. replace (w - length r) with 0 by lia. apply app_nil_r.
Qed.

(** The table the fallback builds: the rows with at least two cells, each
    padded with empty texts to the length of the longest; the first is
    the header. *)
Lemma lines_frame_shape (page_num : nat) (ls : list str) (df : DataFrame) :
  lines_frame page_num ls = Some df ->
  exists (header : list str) (data : list (list str)),
    filter (fun row => 1 <? length row) (map split_line ls) = header :: data /\
    let max_cols := list_max (map (@length (list N)) (header :: data)) in
    columns df = map Some (header ++ repeat [] (max_cols - length header)) /\
    rows df = map (fun row => map Some (row ++ repeat [] (max_cols - length row))) data /\
    Forall (fun row => length row = max_cols) (rows df) /\
    length (columns df) = max_cols.
Proof.
  unfold lines_frame.
  set (rs := filter (fun row => 1 <? length row) (map split_line ls)).
  destruct (1 <? length rs); [|discriminate].
  pose proof (pad_rows_same_length rs) as Hpad.
  remember (list_max (map (@length (list N)) rs)) as m eqn:Hm.
  destruct rs as [|header data] eqn:Hrs; [discriminate|].
  rewrite map_cons in Hpad |- *.
  apply Forall_cons_iff in Hpad as [Hh Hd].
  destruct (DataFrame_new _ _) as [e|df0] eqn:Hnew; [discriminate|].
  intros H. injection H as <-. cbn [columns rows with_attrs].
  apply DataFrame_new_rows in Hnew as [Hrows Hcols].
  rewrite length_map, Hh in Hrows.
  assert (Hrows' : rows df0 =
            map (fun row => map Some (row ++ repeat [] (m - length row))) data).
  { rewrite Hrows, !map_map. apply map_ext_in. intros r Hr.
    apply pad_none_full. rewrite length_map.
    rewrite Forall_forall in Hd.
    change (m <= length (pad_row m r)).
    rewrite (Hd (pad_row m r)); [lia | apply in_map, Hr]. }
  exists header, data. split; [reflexivity|]. cbn zeta. rewrite <- Hm.
  split; [exact Hcols|]. split; [exact Hrows'|]. split.
  - rewrite Hrows'. apply Forall_forall. intros row Hrow.
    apply in_map_iff in Hrow as (r & <- & Hr). rewrite length_map.
    rewrite Forall_forall in Hd. apply (Hd (pad_row m r)), in_map, Hr.
  - rewrite Hcols, length_map. exact Hh.
Qed.


Lemma lines_frame_rectangular (page_num : nat) (ls : list str) (df : DataFrame) :
  lines_frame page_num ls = Some df -> rectangular df.
Proof.
  unfold lines_frame.
  destruct (1 <? length _); [|discriminate].
  destruct (map _ _) as [|header data]; [discriminate|].
  destruct (DataFrame_new _ _) as [e|df0] eqn:Hnew; [discriminate|].
  intros H. injection H as <-.
  apply DataFrame_new_rectangular in Hnew as [Hrect _]. exact Hrect.
Qed.

Lemma page_frames_rectangular (pages : list (nat * str)) :
  Forall rectangular (page_frames pages).
Proof.
  induction pages as [|[n t] ps IH]; cbn [page_frames]; [constructor|].
  destruct (page_frame n t) as [df|] eqn:Hf; [|exact IH].
  constructor; [|exact IH].
  unfold page_frame in Hf. destruct (2 <=? _); [|discriminate].
  eapply lines_frame_rectangular, Hf.
Qed.

Lemma alternative_rectangular (self : PDFProcessor) (pdf_bytes : bytes)
    (tr tr' : list event) (out : list DataFrame) :
  _extract_tables_alternative pdfplumber_open self pdf_bytes tr = (inr out, tr') ->
  Forall rectangular out.
Proof.
  unfold _extract_tables_alternative, try_except, bind, ret.
  destruct (extract_text pdfplumber_open self pdf_bytes true true false tr) as [[e|d] tr0];
    intros H; injection H as <- _.
  - constructor.
  - apply page_frames_rectangular.
Qed.

Lemma extract_tables_rectangular (self : PDFProcessor) (pdf_bytes : bytes)
    (remove_empty_rows : bool) (tr tr' : list event) (tables : list DataFrame) :
  extract_tables pdfplumber_open self pdf_bytes remove_empty_rows tr = (inr tables, tr') ->
  Forall rectangular tables.
Proof.
  unfold extract_tables, try_except, bind, lift, lift_exn, open, raise, ret.
  destruct (_validate_pdf_security self pdf_bytes); [discriminate|].
  destruct (pdfplumber_open pdf_bytes) as [e|pdf]; [discriminate|].
  destruct (for_pages extract_tables_of pdf 0 None) as [e|[[n ts]|]]; try discriminate.
  destruct (tables_loop remove_empty_rows n ts 0 []) as [e|all_tables] eqn:Hl;
    [discriminate|].
  apply tables_loop_rectangular in Hl; [|constructor].
  destruct all_tables as [|df rest].
  - destruct (_extract_tables_alternative _ _ _ _) as [[e|out] tr0] eqn:Ha;
      [discriminate|].
    intros H. injection H as <- _. eapply alternative_rectangular, Ha.
  - intros H. injection H as <- _. exact Hl.
Qed.

(** C2.  Every table that [extract_tables] returns, from the tables the
    PDF library detected or from the fallback on the page text, has rows
    as long as its header, whatever the shapes of the raw tables.  The
    padding happens where the table is built: a table built from a raw
    table has, for each row it keeps, the cleaned cells of a raw row
    followed by empty texts up to the length of the header; a table built
    by the fallback has its header and rows padded with empty texts to
    the length of the longest row. *)
Theorem extract_tables_rows_match_header :
  (forall (self : PDFProcessor) (pdf_bytes : bytes) (remove_empty_rows : bool)
          (tr tr' : list event) (tables : list DataFrame),
     extract_tables pdfplumber_open self pdf_bytes remove_empty_rows tr =
       (inr tables, tr') ->
     Forall (fun df => Forall (fun row => length row = length (columns df)) (rows df))
            tables) /\
  (forall (remove_empty_rows : bool) (page_num table_num : nat)
          (h : option str) (hs : list (option str))
          (data : list (list (option str))) (df : DataFrame),
     table_frame remove_empty_rows page_num table_num ((h :: hs) :: data) =
       inr (Some df) ->
     Forall (fun row =>
               exists r, In r data /\
                 row = map clean_cell r ++
                       repeat (Some []) (length (h :: hs) - length r))
            (rows df)) /\
  (forall (page_num : nat) (potential_table_lines : list str) (df : DataFrame),
     lines_frame page_num potential_table_lines = Some df ->
     exists (header : list str) (data : list (list str)),
       filter (fun row => 1 <? length row) (map split_line potential_table_lines) =
         header :: data /\
       let max_cols := list_max (map (@length (list N)) (header :: data)) in
       columns df = map Some (header ++ repeat [] (max_cols - length header)) /\
       rows df =
         map (fun row => map Some (row ++ repeat [] (max_cols - length row))) data).
Proof.
  split; [|split].
  - intros self pdf_bytes rm tr tr' tables H.
    exact (extract_tables_rectangular _ _ _ _ _ _ H).
  - intros rm pn tn h hs data df H. exact (table_frame_rows _ _ _ _ _ _ _ H).
  - intros pn ls df H.
    destruct (lines_frame_shape _ _ _ H) as (header & data & Hf & Hc & Hr & _).
    exists header, data. split; [exact Hf|]. split; [exact Hc | exact Hr].
Qed.

(** ** Splitting the lines of the fallback *)

Lemma rep_match_final (cs : charset) (s : str) :
  forall (lo : nat) (hi : option nat) (prev : option char) (n m : nat),
    rep_match cs lo hi prev s n (fun _ _ n' => Some n') = Some m ->
    exists j, m = n + j /\ j <= length s /\
              forallb (in_charset cs) (firstn j s) = true.
Proof.
  induction s as [|c t IH]; intros lo hi prev n m H.
  - cbn [rep_match] in H. destruct lo; [|discriminate].
    injection H as <-. exists 0. repeat split; [lia | simpl; lia].
  - cbn [rep_match] in H.
    destruct (in_charset cs c && negb (exhausted hi)) eqn:Hc.
    + destruct (rep_match cs (Nat.pred lo) (option_map Nat.pred hi) (Some c) t (S n)
                  (fun _ _ n' => Some n')) as [m'|] eqn:Hr.
      * injection H as <-. apply IH in Hr as (j & -> & Hj & Hall).
        exists (S j). repeat split; [lia | simpl; lia |].
        cbn [firstn forallb]. apply andb_prop in Hc as [Hc _]. rewrite Hc. exact Hall.
      * destruct lo; [|discriminate]. injection H as <-.
        exists 0. repeat split; [lia | simpl; lia].
    + destruct lo; [|discriminate]. injection H as <-.
      exists 0. repeat split; [lia | simpl; lia].
Qed.

Lemma in_space (c : char) : in_charset [Space] c = isspace c.
Proof. unfold in_charset. simpl. apply orb_false_r. Qed.

(** What [\s{2,}] matches is white space. *)
Lemma match_multi_space (prev : option char) (s : str) (m : nat) :
  match_at multi_space prev s = Some m ->
  m <= length s /\ forallb isspace (firstn m s) = true.
Proof.
  unfold match_at, multi_space, at_least. cbn [rmatch]. intros H.
  apply rep_match_final in H as (j & -> & Hj & Hall).
  split; [simpl; exact Hj|]. simpl.
  rewrite <- Hall. clear Hall Hj.
  induction (firstn j s) as [|c l IHl]; [reflexivity|].
  cbn [forallb]. rewrite in_space, IHl. reflexivity.
Qed.

Lemma visible_app (a b : str) : visible (a ++ b) = visible a ++ visible b.
Proof. apply filter_app. Qed.

Lemma visible_cons (c : N) (s : str) : visible (c :: s) = visible [c] ++ visible s.
Proof. apply (visible_app [c] s). Qed.

Lemma visible_space (c : N) (s : str) : isspace c = true -> visible (c :: s) = visible s.
Proof. intros H. unfold visible. simpl. rewrite H. reflexivity. Qed.

(** Splitting on [\s{2,}] drops white space only. *)
Lemma split_from_visible (s : str) :
  forall (prev : option char) (skip : nat) (cur : str),
    forallb isspace (firstn skip s) = true ->
    visible (concat (split_from multi_space prev s skip cur)) =
    visible (rev cur) ++ visible s.
Proof.
  induction s as [|c t IH]; intros prev skip cur Hskip.
  - cbn [split_from].
    assert (Hnil : match_at multi_space prev [] = None) by reflexivity.
    rewrite Hnil. destruct skip; simpl; rewrite !app_nil_r; reflexivity.
  - cbn [split_from]. destruct skip as [|k].
    + destruct (match_at multi_space prev (c :: t)) as [[|k]|] eqn:Hm.
      * cbn [concat]. rewrite visible_app, IH by reflexivity.
        rewrite (visible_cons c t). reflexivity.
      * apply match_multi_space in Hm as [_ Hall].
        cbn [firstn forallb] in Hall. apply andb_prop in Hall as [Hc Hall].
        cbn [concat]. rewrite visible_app, IH by exact Hall.
        cbn [rev]. rewrite (visible_space c t Hc). reflexivity.
      * rewrite IH by reflexivity. cbn [rev]. rewrite visible_app.
        rewrite <- app_assoc. f_equal. symmetry. apply visible_cons.
    + cbn [firstn forallb] in Hskip. apply andb_prop in Hskip as [Hc Hall].
      rewrite IH by exact Hall. rewrite (visible_space c t Hc). reflexivity.
Qed.

Lemma split_multi_space_visible (line : str) :
  visible (concat (split multi_space line)) = visible line.
Proof. unfold split. rewrite split_from_visible by reflexivity. reflexivity. Qed.

(** C8, as amended.  The fallback splits a line on tabs when it contains a
    tab; otherwise on pipes when it contains a pipe, keeping the stripped
    cells that are not empty; otherwise on runs of two or more white-space
    characters.  There is no splitting on commas: in the last case the
    cells hold every character of the line that is not white space, the
    commas among them.  The rows with at least two cells are padded with
    empty texts to the length of the longest, and the first of them is
    the header. *)
Theorem split_line_priority :
  (forall line : str,
     str_in [TAB] line = true -> split_line line = split_on TAB line) /\
  (forall line : str,
     str_in [TAB] line = false -> str_in (py "|") line = true ->
     split_line line =
     map strip (filter (fun cell => nonempty (strip cell)) (split_on (ch "|") line))) /\
  (forall line : str,
     str_in [TAB] line = false -> str_in (py "|") line = false ->
     split_line line = split multi_space line /\
     filter (fun c => negb (isspace c)) (concat (split_line line)) =
     filter (fun c => negb (isspace c)) line) /\
  (forall (page_num : nat) (potential_table_lines : list str) (df : DataFrame),
     lines_frame page_num potential_table_lines = Some df ->
     exists (header : list str) (data : list (list str)),
       filter (fun row => 1 <? length row) (map split_line potential_table_lines) =
         header :: data /\
       let max_cols := list_max (map (@length (list N)) (header :: data)) in
       columns df = map Some (header ++ repeat [] (max_cols - length header)) /\
       rows df =
         map (fun row => map Some (row ++ repeat [] (max_cols - length row))) data /\
       Forall (fun row => length row = max_cols) (rows df) /\
       length (columns df) = max_cols).
Proof.
  split; [|split; [|split]].
  - intros line Ht. unfold split_line. rewrite Ht. reflexivity.
  - intros line Ht Hp. unfold split_line. rewrite Ht, Hp. reflexivity.
  - intros line Ht Hp. unfold split_line. rewrite Ht, Hp.
    split; [reflexivity | apply split_multi_space_visible].
  - intros pn ls df H. exact (lines_frame_shape _ _ _ H).
Qed.

(** Whatever the document, a text extraction that succeeds yields one
    entry. *)
Lemma extract_text_one_entry (self : PDFProcessor) (pdf_bytes : bytes)
    (pf mg : bool) (tr tr' : list event) (texts : list str) :
  extract_text pdfplumber_open self pdf_bytes pf true mg tr = (inr (Pages texts), tr') ->
  length texts = 1.
Proof.
  unfold extract_text, try_except, bind, lift, lift_exn, open, raise, ret.
  destruct (_validate_pdf_security self pdf_bytes); [discriminate|].
  destruct (pdfplumber_open pdf_bytes) as [e|pdf]; [discriminate|].
  destruct (for_pages extract_text_of pdf 0 None) as [e|[[n t]|]]; try discriminate.
  cbn. intros H. injection H as <- _. reflexivity.
Qed.

End Facts.

(** C1, the code on a document of two pages.  The statement that handles
    [page_text] stands after the loop over the pages, not inside it: with
    [split_by_pages] the result has one entry, the text of the last page,
    where the claim has two; without it the result is that text alone,
    with no page break. *)
Theorem extract_text_two_pages_one_entry (U : Unicode) :
  extract_text (fun _ => inr two_pages) __init__ small_pdf true true false [] =
    (inr (Pages [py "second"]), [Opened small_pdf]) /\
  extract_text (fun _ => inr two_pages) __init__ small_pdf true false false [] =
    (inr (Joined (py "second")), [Opened small_pdf]).
Proof. split; vm_compute; reflexivity. Qed.

(** A run of [extract_text_one_entry]: two pages, one entry. *)
Lemma extract_text_one_entry_witness : length [py "second"] = 1.
Proof.
  refine (extract_text_one_entry (U:=ascii_only) (fun _ => inr two_pages)
            __init__ small_pdf true false [] [Opened small_pdf] [py "second"] _).
  vm_compute. reflexivity.
Defined.

(** C3, witness: a text that is no PDF. *)
Lemma validation_failure_precedes_parsing_witness :
  startswith Byte.eqb (b "%PDF-") (b "hello") = false /\
  extract_text (U:=ascii_only) (fun _ => inr two_pages) __init__ (b "hello")
    true false false [] =
    (inl (Exception,
          Failed_text (Plain (py "Invalid PDF file: Missing PDF header signature"))),
     []).
Proof.
  split; [reflexivity|].
  destruct (validation_failure_precedes_parsing (U:=ascii_only)
              (fun _ => inr two_pages) (b "hello") true false false true [])
    as (m & _ & _ & Hm & _ & Ht & _).
  - right; left; reflexivity.
  - rewrite Ht. rewrite Hm; [reflexivity | vm_compute; discriminate | reflexivity].
Defined.

(** C3, counterexample.  The text ["hello"] is no PDF, and the bytes
    [%PDF-1.4 %%EOF] pass the checks and make the parser fail: by the
    specification the first failure is a ValidationError and the second
    an ExtractionError.  The code raises a ValueError inside and lets an
    Exception out in the first case, and an Exception in the second: one
    class for both, told apart by the message only. *)
Lemma validation_error_is_generic :
  spec_error_class __init__ (b "hello") = ValidationError /\
  spec_error_class __init__ small_pdf = ExtractionError /\
  _validate_pdf_security __init__ (b "hello") =
    inl (ValueError, Plain (py "Invalid PDF file: Missing PDF header signature")) /\
  extract_text (U:=ascii_only) (fun _ => inl (LibraryError, py "No /Root object"))
    __init__ (b "hello") true false false [] =
    (inl (Exception,
          Failed_text (Plain (py "Invalid PDF file: Missing PDF header signature"))),
     []) /\
  extract_text (U:=ascii_only) (fun _ => inl (LibraryError, py "No /Root object"))
    __init__ small_pdf true false false [] =
    (inl (Exception, Failed_text (Plain (py "No /Root object"))), [Opened small_pdf]).
Proof. repeat split; vm_compute; reflexivity. Qed.

(** C2, witness: a raw table whose first data row is shorter than the
    header. *)
Lemma extract_tables_rows_match_header_witness :
  Forall (fun df => Forall (fun row => length row = length (columns df)) (rows df))
    [{| columns := [Some (py "h1"); Some (py "h2")];
        rows := [[Some (py "1"); Some []]; [Some (py "x"); Some []]];
        attrs_page := Some 1; attrs_table := Some 1 |}].
Proof.
  refine (proj1 (extract_tables_rows_match_header (U:=ascii_only)
                   (fun _ => inr [table_page [ragged_table]]))
            __init__ small_pdf true [] [Opened small_pdf] _ _).
  vm_compute. reflexivity.
Defined.

(** C8, witness: a line with commas and one run of two blanks. *)
Lemma split_line_priority_witness :
  split_line (U:=ascii_only) (py "a,b  c,d") = split (U:=ascii_only) multi_space (py "a,b  c,d") /\
  filter (fun c => negb (isspace c)) (concat (split_line (U:=ascii_only) (py "a,b  c,d"))) =
  filter (fun c => negb (isspace c)) (py "a,b  c,d").
Proof.
  exact (proj1 (proj2 (proj2 (split_line_priority (U:=ascii_only))))
           (py "a,b  c,d") eq_refl eq_refl).
Defined.

(** C8, counterexample.  The line ["a,b  c,d"] has commas, no tab and no
    pipe: by the claim it is split on the commas, as [spec_split_line]
    does; the code splits it on the run of blanks and keeps the commas
    inside the cells. *)
Lemma split_line_ignores_commas :
  split_line (U:=ascii_only) (py "a,b  c,d") = [py "a,b"; py "c,d"] /\
  spec_split_line (U:=ascii_only) (py "a,b  c,d") = [py "a"; py "b  c"; py "d"].
Proof. split; vm_compute; reflexivity. Qed.

(** C7, witness: after ["hello"], the line [" world"] joins the paragraph. *)
Lemma merge_blocks_heuristic_witness :
  fold_left (merge_step (U:=ascii_only)) ([py "hello"] ++ [py " world"]) ([], []) =
  ([], py "hello world").
Proof.
  exact (proj1 (merge_blocks_heuristic (U:=ascii_only))
           [py "hello"] (py " world") [] (py "hello") eq_refl).
Defined.

(** C7, counterexample.  A paragraph of exactly 100 characters does not
    exceed 100 characters, and the next line starts with a lowercase
    letter: by the claim the two are merged, as [spec_merge_blocks]
    does; the code compares [len(current_block) < 100] and keeps them
    apart. *)
Lemma merge_blocks_at_100_characters :
  length (repeat (ch "a") 100) = 100 /\
  merge_blocks (U:=ascii_only) (repeat (ch "a") 100 ++ [LF] ++ py "b") =
    repeat (ch "a") 100 ++ [LF] ++ py "b" /\
  spec_merge_blocks (repeat (ch "a") 100 ++ [LF] ++ py "b") =
    repeat (ch "a") 100 ++ [SP] ++ py "b".
Proof. repeat split; vm_compute; reflexivity. Qed.

End extraction_properties.

(* ===================================================================== *)
(** * The frames handed to the sanitizer *)
(* ===================================================================== *)

Module frame_properties.
Import Py Re Exn Pandas data_sanitizer samples.

Lemma nth_error_update_nth_other {A} (f : A -> A) (l : list A) :
  forall i j : nat, i <> j -> nth_error (update_nth j f l) i = nth_error l i.
Proof.
  induction l as [|x l IH]; intros [|i] [|j] H; simpl; try reflexivity.
  - congruence.
  - apply IH. congruence.
Qed.

Section Facts.
Context {U : Unicode}.

(** The loop over the columns assigns to the copy only. *)
Lemma sanitize_columns_frame (todo : list label) (sanitized_df : ref)
    (basic_sanitization redact_numbers : bool) :
  forall (h : heap) (r : ref),
    r <> sanitized_df ->
    nth_error (snd (sanitize_columns todo sanitized_df basic_sanitization
                      redact_numbers h)) r =
    nth_error h r.
Proof.
  induction todo as [|column rest IH]; intros h r Hr.
  - reflexivity.
  - cbn [sanitize_columns].
    destruct (nth_error h sanitized_df) as [frame|]; [|reflexivity].
    destruct (series_loc "dtype" column frame) as [e|j]; [reflexivity|].
    rewrite IH by exact Hr. unfold heap_update.
    apply nth_error_update_nth_other. exact Hr.
Qed.

(** C10.  [sanitize_dataframe] leaves the objects it was given as they
    are: whatever the flags, every frame of the heap, the argument among
    them, is after the call the frame it was before (same column names,
    same cells, same shape); the assignments go to the copy. *)
Theorem sanitize_dataframe_leaves_input (df : option ref)
    (basic_sanitization redact_numbers : bool) (h : heap) (r : ref)
    (frame : DataFrame) :
  nth_error h r = Some frame ->
  nth_error (snd (sanitize_dataframe df basic_sanitization redact_numbers h)) r =
  Some frame.
Proof.
  intros Hr. unfold sanitize_dataframe.
  destruct df as [d|]; [|exact Hr].
  destruct (nth_error h d) as [input|]; [|exact Hr].
  destruct (empty input); [exact Hr|].
  assert (Hlt : r < length h) by (apply nth_error_Some; rewrite Hr; discriminate).
  pose proof (sanitize_columns_frame (columns input) (length h) basic_sanitization
                redact_numbers (h ++ [input]) r) as Hf.
  destruct (sanitize_columns (columns input) (length h) basic_sanitization
              redact_numbers (h ++ [input])) as [[e|u] h'];
    cbn [snd] in *; rewrite Hf by lia; rewrite nth_error_app1 by exact Hlt; exact Hr.
Qed.

End Facts.

(** C10, witness: a frame with an address.  The call returns a new frame
    with the address replaced, and the frame passed in still holds it. *)
Lemma sanitize_dataframe_leaves_input_witness :
  sanitize_dataframe (U:=ascii_only) (Some 0) true false [contact_frame] =
    (inr (Some 1),
     [contact_frame;
      {| columns := [Some (py "name"); Some (py "mail")];
         rows := [[Some (py "ann"); Some (py "[EMAIL_REDACTED]")]];
         attrs_page := Some 1; attrs_table := Some 1 |}]) /\
  nth_error (snd (sanitize_dataframe (U:=ascii_only) (Some 0) true false [contact_frame])) 0 =
    Some contact_frame.
Proof.
  split; [vm_compute; reflexivity|].
  exact (sanitize_dataframe_leaves_input (U:=ascii_only) (Some 0) true false
           [contact_frame] 0 contact_frame eq_refl).
Defined.

End frame_properties.

(* ===================================================================== *)
(** * Properties of the exporter *)
(* ===================================================================== *)

Module export_properties.
Import Py Re Exn Pandas excel_converter proof_notions.

Lemma existsb_firstn {A} (f : A -> bool) (n : nat) (l : list A) :
  existsb f l = false -> existsb f (firstn n l) = false.
Proof.
  revert n. induction l as [|x l IH]; intros [|n] H; simpl in *; try reflexivity.
  apply orb_false_iff in H as [Hx Hl]. rewrite Hx, IH by exact Hl. reflexivity.
Qed.

Lemma legal_app (a b : str) : legal a = true -> legal b = true -> legal (a ++ b) = true.
Proof.
  unfold legal. rewrite existsb_app.
  intros Ha Hb. apply negb_true_iff in Ha, Hb. rewrite Ha, Hb. reflexivity.
Qed.

Lemma legal_digits (d : Decimal.uint) : legal (py (NilEmpty.string_of_uint d)) = true.
Proof.
  induction d as [|d IH|d IH|d IH|d IH|d IH|d IH|d IH|d IH|d IH|d IH];
    [reflexivity| | | | | | | | | |];
    cbn [NilEmpty.string_of_uint];
    match goal with
    | |- legal (py (String ?a ?s)) = true =>
        change (py (String a s)) with ([N_of_ascii a] ++ py s)
    end;
    (apply legal_app; [reflexivity | exact IH]).
Qed.

Lemma legal_str_of_nat (n : nat) : legal (str_of_nat n) = true.
Proof. apply legal_digits. Qed.

Lemma page_headings_succ (i row n : nat) :
  page_headings i row (S n) =
  ((row, 1), firstn max_cell_length (py "Page " ++ str_of_nat (i + 1) ++ py ":"))
  :: page_headings (S i) (row + 2) n.
Proof.
  unfold page_headings. rewrite <- cons_seq, <- seq_shift, map_cons, map_map.
  f_equal.
  - rewrite Nat.mul_0_r, !Nat.add_0_r. reflexivity.
  - apply map_ext. intros k.
    replace (row + 2 * S k) with (row + 2 + 2 * k) by lia.
    replace (i + S k + 1) with (S i + k + 1) by lia. reflexivity.
Qed.

Section Facts.
Context {U : Unicode}.
Variable now now_in_handler : str.
Variable illegal_character_message : str -> str.

Lemma check_string_legal (v : str) :
  legal v = true -> check_string illegal_character_message v = inr (firstn max_cell_length v).
Proof.
  unfold legal, check_string. intros H. apply negb_true_iff in H.
  rewrite (existsb_firstn _ _ _ H). reflexivity.
Qed.

Lemma set_cell_legal (ws : nat) (key : nat * nat) (v : str) (wb : Workbook) :
  legal v = true ->
  set_cell illegal_character_message ws key v wb =
  inr (tt, update_nth ws (write key (firstn max_cell_length v)) wb).
Proof. intros H. unfold set_cell. rewrite check_string_legal by exact H. reflexivity. Qed.

Lemma set_cell_illegal (ws : nat) (key : nat * nat) (v : str) (wb : Workbook) :
  existsb illegal (firstn max_cell_length v) = true ->
  set_cell illegal_character_message ws key v wb =
  inl (IllegalCharacterError, illegal_character_message (firstn max_cell_length v)).
Proof. intros H. unfold set_cell, check_string. rewrite H. reflexivity. Qed.

(** The summary sheet, on an empty workbook. *)
Lemma summary_sheet_alone (message filename : str) :
  legal message = true -> legal filename = true -> legal now = true ->
  exists cells,
    _add_summary_sheet now illegal_character_message message filename [] =
    inr (tt, [{| title := py "Summary"; cells := cells |}]).
Proof.
  intros Hm Hf Hn. unfold _add_summary_sheet, bind, create_sheet.
  cbn [length app].
  rewrite set_cell_legal by reflexivity. cbn [update_nth write title cells app].
  rewrite set_cell_legal by (apply legal_app; [reflexivity | exact Hf]).
  cbn [update_nth write title cells app].
  rewrite set_cell_legal by (apply legal_app; [reflexivity | exact Hn]).
  cbn [update_nth write title cells app].
  rewrite set_cell_legal by (apply legal_app; [reflexivity | exact Hm]).
  cbn [update_nth write title cells app].
  eexists. reflexivity.
Qed.


(** Pages without text: a heading each, and no paragraph. *)
Lemma write_blank_pages (n : nat) :
  forall (i row_num : nat) (t : str) (cs : list ((nat * nat) * str)),
    write_pages illegal_character_message 0 (repeat (VStr []) n) i row_num
      [{| title := t; cells := cs |}] =
    inr (tt, [{| title := t; cells := cs ++ page_headings i row_num n |}]).
Proof.
  induction n as [|n IH]; intros i row_num t cs.
  - cbn [repeat write_pages ret]. unfold page_headings. cbn [seq map].
    rewrite app_nil_r. reflexivity.
  - cbn [repeat write_pages]. unfold bind at 1.
    rewrite set_cell_legal
      by (apply legal_app; [reflexivity | apply legal_app; [apply legal_str_of_nat | reflexivity]]).
    cbn [update_nth write title cells].
    cbn [split_on write_paragraphs strip lstrip rstrip dropwhile rev nonempty app].
    unfold bind at 1. unfold ret at 1.
    unfold write. cbn [title cells].
    rewrite IH, page_headings_succ, <- app_assoc.
    replace (row_num + 1 + 1) with (row_num + 2) by lia. reflexivity.
Qed.

(** The text sheet for pages without text, on an empty workbook. *)
Lemma text_sheet_blank_pages (n : nat) (filename : str) :
  legal filename = true -> legal now = true ->
  _add_text_sheet now illegal_character_message (VList (repeat (VStr []) n)) filename [] =
  inr (tt,
       [{| title := py "Extracted Text";
           cells :=
             ((1, 1), firstn max_cell_length (py "Text Extracted from: " ++ filename))
             :: page_headings 0 3 n ++
             [((2, 1), firstn max_cell_length (py "Extracted on: " ++ now))] |}]).
Proof.
  intros Hf Hn. unfold _add_text_sheet. unfold bind at 1. unfold create_sheet.
  cbn [length app]. unfold bind at 1.
  rewrite set_cell_legal by (apply legal_app; [reflexivity | exact Hf]).
  cbn [update_nth]. unfold write at 1. cbn [title cells app].
  unfold bind at 1. rewrite write_blank_pages.
  rewrite set_cell_legal by (apply legal_app; [reflexivity | exact Hn]).
  cbn [update_nth]. unfold write. cbn [title cells app]. reflexivity.
Qed.

(** The text sheet for the empty text, on an empty workbook. *)
Lemma text_sheet_empty_text (filename : str) :
  legal filename = true -> legal now = true ->
  _add_text_sheet now illegal_character_message (VStr []) filename [] =
  inr (tt,
       [{| title := py "Extracted Text";
           cells :=
             [((1, 1), firstn max_cell_length (py "Text Extracted from: " ++ filename));
              ((2, 1), firstn max_cell_length (py "Extracted on: " ++ now))] |}]).
Proof.
  intros Hf Hn. unfold _add_text_sheet. unfold bind at 1. unfold create_sheet.
  cbn [length app]. unfold bind at 1.
  rewrite set_cell_legal by (apply legal_app; [reflexivity | exact Hf]).
  cbn [update_nth]. unfold write at 1. cbn [title cells app].
  cbn [split_on write_paragraphs strip lstrip rstrip dropwhile rev nonempty ret bind app].
  rewrite set_cell_legal by (apply legal_app; [reflexivity | exact Hn]).
  cbn [update_nth]. unfold write. cbn [title cells app]. reflexivity.
Qed.

Lemma method_is_table_detection :
  str_eqb (py "Table Detection") (py "Text Extraction") = false /\
  str_eqb (py "Table Detection") (py "Table Detection") = true /\
  str_eqb (py "Text Extraction") (py "Text Extraction") = true.
Proof. repeat split; vm_compute; reflexivity. Qed.

(** C4, as amended.  For a file name and a clock reading without illegal
    characters, exporting a result without tables and without text yields
    a workbook of exactly one sheet, and which sheet depends on the mode
    and on the form of the empty text.  In table mode, when the data is
    empty, it is "Summary".  In combined mode it is "Summary" when the
    text and the tables of the dict are both false (the empty text, an
    empty list, or absent), and "Extracted Text" when the text is a list
    of one or more empty page texts, which is true as a list, and the
    tables are empty.  In text mode it is "Extracted Text": with the
    title and the time alone for the empty text, and with a heading
    "Page i:" for each page between them for a list of empty page
    texts. *)
Theorem empty_result_sheets (filename : str) :
  legal filename = true -> legal now = true ->
  (forall data : value,
     truth data = inr false ->
     exists cells,
       convert_to_excel now now_in_handler illegal_character_message
         data (py "Table Detection") filename =
       inr [{| title := py "Summary"; cells := cells |}]) /\
  (forall (extraction_method : str) (d : list (list N * value)),
     str_eqb extraction_method (py "Text Extraction") = false ->
     str_eqb extraction_method (py "Table Detection") = false ->
     truth (get d (py "text")) = inr false ->
     truth (get d (py "tables")) = inr false ->
     exists cells,
       convert_to_excel now now_in_handler illegal_character_message
         (VDict d) extraction_method filename =
       inr [{| title := py "Summary"; cells := cells |}]) /\
  convert_to_excel now now_in_handler illegal_character_message
    (VStr []) (py "Text Extraction") filename =
  inr [{| title := py "Extracted Text";
          cells :=
            [((1, 1), firstn max_cell_length (py "Text Extracted from: " ++ filename));
             ((2, 1), firstn max_cell_length (py "Extracted on: " ++ now))] |}] /\
  (forall pages : nat,
     convert_to_excel now now_in_handler illegal_character_message
       (VList (repeat (VStr []) pages)) (py "Text Extraction") filename =
     inr [{| title := py "Extracted Text";
             cells :=
               ((1, 1), firstn max_cell_length (py "Text Extracted from: " ++ filename))
               :: page_headings 0 3 pages ++
               [((2, 1), firstn max_cell_length (py "Extracted on: " ++ now))] |}]) /\
  (forall (extraction_method : str) (d : list (list N * value)) (pages : nat),
     str_eqb extraction_method (py "Text Extraction") = false ->
     str_eqb extraction_method (py "Table Detection") = false ->
     get d (py "text") = VList (repeat (VStr []) (S pages)) ->
     truth (get d (py "tables")) = inr false ->
     convert_to_excel now now_in_handler illegal_character_message
       (VDict d) extraction_method filename =
     inr [{| title := py "Extracted Text";
             cells :=
               ((1, 1), firstn max_cell_length (py "Text Extracted from: " ++ filename))
               :: page_headings 0 3 (S pages) ++
               [((2, 1), firstn max_cell_length (py "Extracted on: " ++ now))] |}]).
Proof.
  intros Hf Hn.
  destruct method_is_table_detection as (E1 & E2 & E3).
  split; [|split; [|split; [|split]]].
  - intros data Ht.
    destruct (summary_sheet_alone
                (py "No tables found in PDF") filename eq_refl Hf Hn) as [cells Hs].
    exists cells. unfold convert_to_excel, build, _add_table_sheets, bind, lift.
    rewrite E1, E2, Ht. cbn [negb remove_active Workbook_new].
    rewrite Hs. reflexivity.
  - intros m d Em1 Em2 Htext Htables.
    destruct (summary_sheet_alone
                (py "No data extracted") filename eq_refl Hf Hn) as [cells Hs].
    exists cells. unfold convert_to_excel, build, bind, lift, ret.
    rewrite Em1, Em2, Htext, Htables. cbn [remove_active Workbook_new].
    rewrite Hs. reflexivity.
  - unfold convert_to_excel, build, bind.
    rewrite E3. cbn [remove_active Workbook_new].
    rewrite (text_sheet_empty_text filename Hf Hn). reflexivity.
  - intros pages. unfold convert_to_excel, build, bind.
    rewrite E3. cbn [remove_active Workbook_new].
    rewrite (text_sheet_blank_pages pages filename Hf Hn). reflexivity.
  - intros m d pages Em1 Em2 Htext Htables.
    unfold convert_to_excel, build, bind, lift, ret.
    rewrite Em1, Em2, Htext, Htables. cbn [truth repeat nonempty].
    cbn [remove_active Workbook_new].
    change (VStr [] :: repeat (VStr []) pages) with (repeat (VStr []) (S pages)).
    rewrite (text_sheet_blank_pages (S pages) filename Hf Hn). reflexivity.
Qed.

(** The error sheet, on an empty workbook. *)
Lemma error_sheet_alone (error_message filename : str) :
  legal error_message = true -> legal filename = true ->
  legal now_in_handler = true ->
  _add_error_sheet now_in_handler illegal_character_message error_message filename [] =
  inr (tt, [{| title := py "Error";
               cells := [((1, 1), py "Conversion Error");
                         ((3, 1), firstn max_cell_length (py "File: " ++ filename));
                         ((4, 1), firstn max_cell_length
                                    (py "Error occurred at: " ++ now_in_handler));
                         ((6, 1), py "Error Details:");
                         ((7, 1), firstn max_cell_length error_message)] |}]).
Proof.
  intros Hm Hf Hn. unfold _add_error_sheet, bind, create_sheet.
  cbn [length app].
  rewrite set_cell_legal by reflexivity. cbn [update_nth write title cells app].
  rewrite set_cell_legal by (apply legal_app; [reflexivity | exact Hf]).
  cbn [update_nth write title cells app].
  rewrite set_cell_legal by (apply legal_app; [reflexivity | exact Hn]).
  cbn [update_nth write title cells app].
  rewrite set_cell_legal by reflexivity. cbn [update_nth write title cells app].
  rewrite set_cell_legal by exact Hm. cbn [update_nth write title cells app].
  reflexivity.
Qed.

(** When the texts of the error sheet are free of illegal characters,
    the function returns a workbook: the one that was built, or the
    error sheet alone when building failed. *)
Lemma convert_to_excel_returns (data : value) (extraction_method filename : str) :
  legal filename = true -> legal now_in_handler = true ->
  match build now illegal_character_message data extraction_method filename
          (remove_active Workbook_new) with
  | inr (_, wb) =>
      convert_to_excel now now_in_handler illegal_character_message
        data extraction_method filename = inr wb
  | inl e =>
      legal (snd e) = true ->
      convert_to_excel now now_in_handler illegal_character_message
        data extraction_method filename =
      inr [{| title := py "Error";
              cells := [((1, 1), py "Conversion Error");
                        ((3, 1), firstn max_cell_length (py "File: " ++ filename));
                        ((4, 1), firstn max_cell_length
                                   (py "Error occurred at: " ++ now_in_handler));
                        ((6, 1), py "Error Details:");
                        ((7, 1), firstn max_cell_length (snd e))] |}]
  end.
Proof.
  intros Hf Hn. unfold convert_to_excel.
  destruct (build now illegal_character_message data extraction_method filename
              (remove_active Workbook_new)) as [e|[u wb]]; [|reflexivity].
  intros He. cbn [remove_active Workbook_new].
  rewrite error_sheet_alone by assumption. reflexivity.
Qed.

(** C5, the code on a file name with a control character.  Writing the
    title cell of the text sheet raises; the [except] branch starts the
    error sheet and writes the file name again, which raises again, and
    this time nothing catches it: the call ends with an
    IllegalCharacterError and returns no workbook. *)
Theorem convert_to_excel_raises_on_control_character :
  convert_to_excel now now_in_handler illegal_character_message
    (VStr (py "some text")) (py "Text Extraction") (py "a" ++ [1%N] ++ py ".pdf") =
  inl (IllegalCharacterError,
       illegal_character_message (py "File: a" ++ [1%N] ++ py ".pdf")).
Proof. vm_compute. reflexivity. Qed.

End Facts.

(** A run of [convert_to_excel_returns]: [None] in text mode has no
    [split], and the workbook is the error sheet. *)
Lemma convert_to_excel_returns_witness :
  convert_to_excel (U:=ascii_only) (py "2024-01-01 00:00:00") (py "2024-01-01 00:00:01")
    (fun v => v) VNone (py "Text Extraction") (py "report.pdf") =
  inr [{| title := py "Error";
          cells := [((1, 1), py "Conversion Error");
                    ((3, 1), py "File: report.pdf");
                    ((4, 1), py "Error occurred at: 2024-01-01 00:00:01");
                    ((6, 1), py "Error Details:");
                    ((7, 1), [39%N] ++ py "NoneType" ++ [39%N] ++
                             py " object has no attribute " ++
                             [39%N] ++ py "split" ++ [39%N])] |}].
Proof.
  exact (convert_to_excel_returns (U:=ascii_only) (py "2024-01-01 00:00:00")
           (py "2024-01-01 00:00:01") (fun v => v) VNone (py "Text Extraction")
           (py "report.pdf") eq_refl eq_refl eq_refl).
Defined.

(** C4, witness: a document of one page without text, in text mode. *)
Lemma empty_result_sheets_witness :
  convert_to_excel (U:=ascii_only) (py "2024-01-01 00:00:00") (py "2024-01-01 00:00:01")
    (fun v => v) (VList [VStr []]) (py "Text Extraction") (py "report.pdf") =
  inr [{| title := py "Extracted Text";
          cells := [((1, 1), py "Text Extracted from: report.pdf");
                    ((3, 1), py "Page 1:");
                    ((2, 1), py "Extracted on: 2024-01-01 00:00:00")] |}].
Proof.
  refine (eq_trans
            (proj1 (proj2 (proj2 (proj2
               (empty_result_sheets (U:=ascii_only) (py "2024-01-01 00:00:00")
                  (py "2024-01-01 00:00:01") (fun v => v) (py "report.pdf")
                  eq_refl eq_refl)))) 1) _).
  vm_compute. reflexivity.
Defined.

(** C4, counterexample.  In text mode an empty text gives a workbook
    whose only sheet is "Extracted Text", with its title and time rows and
    no paragraph; in combined mode a list of one empty page text and no
    table give the sheet "Extracted Text" with the heading of the page.
    In neither is there a "Summary" sheet. *)
Lemma empty_text_gives_text_sheet :
  convert_to_excel (U:=ascii_only) (py "2024-01-01 00:00:00") (py "2024-01-01 00:00:01")
    (fun v => v) (VStr []) (py "Text Extraction") (py "report.pdf") =
  inr [{| title := py "Extracted Text";
          cells := [((1, 1), py "Text Extracted from: report.pdf");
                    ((2, 1), py "Extracted on: 2024-01-01 00:00:00")] |}] /\
  convert_to_excel (U:=ascii_only) (py "2024-01-01 00:00:00") (py "2024-01-01 00:00:01")
    (fun v => v)
    (VDict [(py "text", VList [VStr []]); (py "tables", VList [])])
    (py "Both Text and Tables") (py "report.pdf") =
  inr [{| title := py "Extracted Text";
          cells := [((1, 1), py "Text Extracted from: report.pdf");
                    ((3, 1), py "Page 1:");
                    ((2, 1), py "Extracted on: 2024-01-01 00:00:00")] |}].
Proof. split; vm_compute; reflexivity. Qed.

End export_properties.

(* ===================================================================== *)
(** * Further properties of the extraction *)
(* ===================================================================== *)

Module document_properties.
Import Py Re Exn Pandas pdf_processor proof_notions samples extraction_properties.

Section Facts.
Context {U : Unicode}.
Variable pdfplumber_open : bytes -> result (list page).

Lemma for_pages_last {A} (f : page -> result A) (p : page) (x : A) (ps : list page) :
  Forall (fun q => exists y, f q = inr y) ps -> f p = inr x ->
  forall (n : nat) (a : option (nat * A)),
    for_pages f (ps ++ [p]) n a = inr (Some (n + length ps, x)).
Proof.
  intros Hall Hp. induction Hall as [|q qs [y Hq] _ IH]; intros n a.
  - cbn. rewrite Hp, Nat.add_0_r. reflexivity.
  - cbn [app for_pages length]. rewrite Hq, IH. rewrite Nat.add_succ_comm. reflexivity.
Qed.

(** A document that passes the checks, has at least one page and whose
    pages the parser reads without raising never makes [extract_text]
    fail, whether or not any page has text: the result is the formatted
    text of the last page alone, the empty text when that page has none,
    and the parser is called once. *)
Lemma extract_text_reads_last_page (self : PDFProcessor) (pdf_bytes : bytes)
    (pages : list page) (last_page : page) (page_text : option str)
    (preserve_formatting split_by_pages merge_text_blocks : bool) (tr : list event) :
  _validate_pdf_security self pdf_bytes = inr true ->
  pdfplumber_open pdf_bytes = inr (pages ++ [last_page]) ->
  Forall (fun q => exists t, extract_text_of q = inr t) pages ->
  extract_text_of last_page = inr page_text ->
  extract_text pdfplumber_open self pdf_bytes
    preserve_formatting split_by_pages merge_text_blocks tr =
  (inr (let entry := page_entry page_text preserve_formatting merge_text_blocks in
        if split_by_pages then Pages [entry] else Joined entry),
   tr ++ [Opened pdf_bytes]).
Proof.
  intros Hv Ho Hall Hlast.
  unfold extract_text, try_except, bind, lift, lift_exn, open, raise, ret.
  rewrite Hv, Ho, (for_pages_last _ _ _ _ Hall Hlast).
  cbn. destruct split_by_pages; reflexivity.
Qed.

(** A document without pages: neither loop assigns its variable, and
    both extractions fail on reading it, after the one call to the parser;
    the message is not the one about missing text. *)
Lemma no_page_no_result (self : PDFProcessor) (pdf_bytes : bytes)
    (preserve_formatting split_by_pages merge_text_blocks remove_empty_rows : bool)
    (tr : list event) :
  _validate_pdf_security self pdf_bytes = inr true ->
  pdfplumber_open pdf_bytes = inr [] ->
  extract_text pdfplumber_open self pdf_bytes
    preserve_formatting split_by_pages merge_text_blocks tr =
    (inl (Exception, Failed_text (Unbound_local "page_text")), tr ++ [Opened pdf_bytes]) /\
  extract_tables pdfplumber_open self pdf_bytes remove_empty_rows tr =
    (inl (Exception, Failed_tables (Unbound_local "tables")), tr ++ [Opened pdf_bytes]).
Proof.
  intros Hv Ho.
  unfold extract_text, extract_tables, try_except, bind, lift, lift_exn, open, raise, ret.
  rewrite Hv, Ho. split; reflexivity.
Qed.

(** ** What holds of every table returned *)

Section Every_table.
Variable P : DataFrame -> Prop.
Hypothesis primary :
  forall (rm : bool) (page_num table_num : nat) (table : raw_table) (df : DataFrame),
    table_frame rm page_num table_num table = inr (Some df) -> P df.
Hypothesis fallback :
  forall (page_num : nat) (ls : list str) (df : DataFrame),
    lines_frame page_num ls = Some df -> P df.

Lemma tables_loop_every (rm : bool) (page_num : nat) (tables : list raw_table) :
  forall (table_num : nat) (acc out : list DataFrame),
    tables_loop rm page_num tables table_num acc = inr out ->
    Forall P acc -> Forall P out.
Proof.
  induction tables as [|t ts IH]; intros n acc out H Hacc.
  - injection H as <-. exact Hacc.
  - cbn [tables_loop] in H.
    destruct (table_frame rm page_num n t) as [e|[df|]] eqn:Ht; [discriminate| |].
    + apply IH in H; [exact H|].
      apply Forall_app. split; [exact Hacc|].
      constructor; [|constructor]. eapply primary, Ht.
    + apply IH in H; [exact H | exact Hacc].
Qed.

Lemma page_frames_every (pages : list (nat * str)) : Forall P (page_frames pages).
Proof.
  induction pages as [|[n t] ps IH]; cbn [page_frames]; [constructor|].
  destruct (page_frame n t) as [df|] eqn:Hf; [|exact IH].
  constructor; [|exact IH].
  unfold page_frame in Hf. destruct (2 <=? _); [|discriminate].
  eapply fallback, Hf.
Qed.

Lemma extract_tables_every (self : PDFProcessor) (pdf_bytes : bytes)
    (remove_empty_rows : bool) (tr tr' : list event) (tables : list DataFrame) :
  extract_tables pdfplumber_open self pdf_bytes remove_empty_rows tr = (inr tables, tr') ->
  Forall P tables.
Proof.
  unfold extract_tables, try_except, bind, lift, lift_exn, open, raise, ret.
  destruct (_validate_pdf_security self pdf_bytes); [discriminate|].
  destruct (pdfplumber_open pdf_bytes) as [e|pdf]; [discriminate|].
  destruct (for_pages extract_tables_of pdf 0 None) as [e|[[n ts]|]]; try discriminate.
  destruct (tables_loop remove_empty_rows n ts 0 []) as [e|all_tables] eqn:Hl;
    [discriminate|].
  apply tables_loop_every in Hl; [|constructor].
  destruct all_tables as [|df rest].
  - unfold _extract_tables_alternative, try_except, bind, ret.
    destruct (extract_text pdfplumber_open self pdf_bytes true true false _)
      as [[e|d] tr0]; intros H; injection H as <- _.
    + constructor.
    + apply page_frames_every.
  - intros H. injection H as <- _. exact Hl.
Qed.

End Every_table.

Lemma lines_frame_not_empty (page_num : nat) (ls : list str) (df : DataFrame) :
  lines_frame page_num ls = Some df ->
  empty df = false /\ attrs_page df = Some (page_num + 1) /\ attrs_table df = Some 1.
Proof.
  intros H. pose proof (lines_frame_shape _ _ _ H) as (header & data & Hf & Hshape).
  cbn zeta in Hshape. destruct Hshape as (Hc & Hr & _ & _).
  unfold lines_frame in H. rewrite Hf in H.
  destruct (1 <? length (header :: data)) eqn:Hlen; [|discriminate].
  apply Nat.ltb_lt in Hlen.
  assert (Hh : 1 < length header).
  { assert (Hin : In header (filter (fun row => 1 <? length row) (map split_line ls)))
      by (rewrite Hf; left; reflexivity).
    apply filter_In in Hin as [_ Hin]. apply Nat.ltb_lt in Hin. exact Hin. }
  split.
  - unfold empty. rewrite Hc, Hr.
    destruct header as [|h0 hs]; [simpl in Hh; lia|].
    destruct data as [|d0 ds]; [simpl in Hlen; lia|]. reflexivity.
  - destruct (map (pad_row _) (header :: data)) as [|hd dt]; [discriminate|].
    destruct (DataFrame_new _ _); [discriminate|].
    injection H as <-. split; reflexivity.
Qed.

Lemma table_frame_not_empty (rm : bool) (page_num table_num : nat)
    (table : raw_table) (df : DataFrame) :
  table_frame rm page_num table_num table = inr (Some df) ->
  empty df = false /\ attrs_page df = Some (page_num + 1) /\
  attrs_table df = Some (table_num + 1).
Proof.
  unfold table_frame. destruct table as [|first rest]; [discriminate|].
  destruct (DataFrame_new _ _) as [e|df0]; [discriminate|].
  destruct (clean_values _ _) as [e|df3]; [discriminate|].
  destruct (empty (with_attrs df3 (page_num + 1) (table_num + 1))) eqn:He; [discriminate|].
  intros H. injection H as <-. split; [exact He | split; reflexivity].
Qed.

(** No table that [extract_tables] returns is empty, and each carries
    the numbers of its page and of the table on that page, both from 1. *)
Lemma returned_tables_not_empty (self : PDFProcessor) (pdf_bytes : bytes)
    (remove_empty_rows : bool) (tr tr' : list event) (tables : list DataFrame) :
  extract_tables pdfplumber_open self pdf_bytes remove_empty_rows tr = (inr tables, tr') ->
  Forall (fun df =>
            empty df = false /\
            (exists page, attrs_page df = Some (S page)) /\
            (exists table, attrs_table df = Some (S table)))
         tables.
Proof.
  apply extract_tables_every.
  - intros rm pn tn table df H. apply table_frame_not_empty in H as (He & Hp & Ht).
    split; [exact He | split].
    + exists pn. rewrite Hp, Nat.add_1_r. reflexivity.
    + exists tn. rewrite Ht, Nat.add_1_r. reflexivity.
  - intros pn ls df H. apply lines_frame_not_empty in H as (He & Hp & Ht).
    split; [exact He | split].
    + exists pn. rewrite Hp, Nat.add_1_r. reflexivity.
    + exists 0. exact Ht.
Qed.

Lemma clean_column_names_text (cols : list label) :
  Forall (fun l => exists s, l = Some s) (clean_column_names cols).
Proof.
  unfold clean_column_names. apply Forall_forall. intros l Hl.
  apply in_map_iff in Hl as ([i [c|]] & <- & _); eexists; reflexivity.
Qed.

Lemma table_frame_text (rm : bool) (page_num table_num : nat)
    (table : raw_table) (df : DataFrame) :
  table_frame rm page_num table_num table = inr (Some df) ->
  Forall (fun l => exists s, l = Some s) (columns df) /\
  Forall (Forall (fun c => exists s, c = Some s)) (rows df).
Proof.
  unfold table_frame. destruct table as [|first rest]; [discriminate|].
  match goal with |- context [DataFrame_new rest ?h] => set (header := h) end.
  destruct (DataFrame_new rest header) as [e|df0] eqn:Hnew; [discriminate|].
  apply DataFrame_new_rectangular in Hnew as [Hrect Hcols].
  set (df1 := if rm then drop_blank_rows (dropna_all df0) else df0).
  assert (H1 : rectangular df1).
  { unfold df1. destruct rm; [|exact Hrect].
    unfold drop_blank_rows, dropna_all.
    apply rectangular_filter with (df := with_rows df0 _).
    apply rectangular_filter. exact Hrect. }
  set (df2 := with_columns df1 (clean_column_names (columns df1))).
  assert (H2 : rectangular df2).
  { unfold rectangular, df2. cbn [rows columns with_columns].
    rewrite length_clean_column_names. exact H1. }
  destruct (clean_values (columns df2) df2) as [e|df3] eqn:Hcv; [discriminate|].
  pose proof (clean_values_rectangular _ _ _ Hcv H2) as [_ Hc3].
  apply clean_values_all in Hcv; [|exact H2].
  destruct (empty (with_attrs df3 (page_num + 1) (table_num + 1))); [discriminate|].
  intros H. injection H as <-. cbn [rows columns with_attrs]. split.
  - rewrite Hc3. apply clean_column_names_text.
  - rewrite Hcv. apply Forall_forall. intros row Hrow.
    apply in_map_iff in Hrow as (r & <- & _).
    apply Forall_forall. intros c Hc. apply in_map_iff in Hc as (c0 & <- & _).
    eexists. reflexivity.
Qed.

Lemma lines_frame_text (page_num : nat) (ls : list str) (df : DataFrame) :
  lines_frame page_num ls = Some df ->
  Forall (fun l => exists s, l = Some s) (columns df) /\
  Forall (Forall (fun c => exists s, c = Some s)) (rows df).
Proof.
  intros H. apply lines_frame_shape in H as (header & data & _ & Hshape).
  cbn zeta in Hshape. destruct Hshape as (Hc & Hr & _ & _).
  rewrite Hc, Hr. split.
  - apply Forall_forall. intros l Hl. apply in_map_iff in Hl as (s & <- & _).
    eexists. reflexivity.
  - apply Forall_forall. intros row Hrow. apply in_map_iff in Hrow as (r & <- & _).
    apply Forall_forall. intros c Hc'. apply in_map_iff in Hc' as (s & <- & _).
    eexists. reflexivity.
Qed.

(** The tables [extract_tables] returns hold text throughout: no column
    name and no cell is [None]. *)
Lemma returned_tables_hold_text (self : PDFProcessor) (pdf_bytes : bytes)
    (remove_empty_rows : bool) (tr tr' : list event) (tables : list DataFrame) :
  extract_tables pdfplumber_open self pdf_bytes remove_empty_rows tr = (inr tables, tr') ->
  Forall (fun df =>
            Forall (fun l => exists s, l = Some s) (columns df) /\
            Forall (Forall (fun c => exists s, c = Some s)) (rows df))
         tables.
Proof.
  apply extract_tables_every.
  - intros rm pn tn table df. apply table_frame_text.
  - intros pn ls df. apply lines_frame_text.
Qed.

End Facts.

(** A run of [extract_text_reads_last_page]: two pages. *)
Lemma extract_text_reads_last_page_witness :
  extract_text (U:=ascii_only) (fun _ => inr two_pages) __init__ small_pdf
    false true true [] =
  (inr (Pages [py "second"]), [Opened small_pdf]).
Proof.
  refine (extract_text_reads_last_page (U:=ascii_only) (fun _ => inr two_pages)
            __init__ small_pdf [text_page "first"] (text_page "second")
            (Some (py "second")) false true true [] eq_refl eq_refl _ eq_refl).
  constructor; [|constructor]. exists (Some (py "first")). reflexivity.
Defined.

(** A run of [no_page_no_result]. *)
Lemma no_page_no_result_witness :
  extract_text (U:=ascii_only) (fun _ => inr []) __init__ small_pdf true false false [] =
    (inl (Exception, Failed_text (Unbound_local "page_text")), [Opened small_pdf]) /\
  extract_tables (U:=ascii_only) (fun _ => inr []) __init__ small_pdf true [] =
    (inl (Exception, Failed_tables (Unbound_local "tables")), [Opened small_pdf]).
Proof.
  exact (no_page_no_result (U:=ascii_only) (fun _ => inr []) __init__ small_pdf
           true false false true [] eq_refl eq_refl).
Defined.

(** A run of [returned_tables_not_empty]: the ragged table. *)
Lemma returned_tables_not_empty_witness :
  Forall (fun df =>
            empty df = false /\
            (exists page, attrs_page df = Some (S page)) /\
            (exists table, attrs_table df = Some (S table)))
    [{| columns := [Some (py "h1"); Some (py "h2")];
        rows := [[Some (py "1"); Some []]; [Some (py "x"); Some []]];
        attrs_page := Some 1; attrs_table := Some 1 |}].
Proof.
  refine (returned_tables_not_empty (U:=ascii_only)
            (fun _ => inr [table_page [ragged_table]])
            __init__ small_pdf true [] [Opened small_pdf] _ _).
  vm_compute. reflexivity.
Defined.

(** A run of [returned_tables_hold_text]: the fallback on a page of two
    lines. *)
Lemma returned_tables_hold_text_witness :
  Forall (fun df =>
            Forall (fun l => exists s, l = Some s) (columns df) /\
            Forall (Forall (fun c => exists s, c = Some s)) (rows df))
    [{| columns := [Some (py "a"); Some (py "b")];
        rows := [[Some (py "1"); Some (py "2")]];
        attrs_page := Some 1; attrs_table := Some 1 |}].
Proof.
  refine (returned_tables_hold_text (U:=ascii_only)
            (fun _ => inr [{| extract_text_of := inr (Some (py "a  b" ++ [LF] ++ py "1  2"));
                              extract_tables_of := inr [] |}])
            __init__ small_pdf true [] [Opened small_pdf; Opened small_pdf] _ _).
  vm_compute. reflexivity.
Defined.

End document_properties.

(* ===================================================================== *)
(** * The formatting of a page text *)
(* ===================================================================== *)

Module formatting_properties.
Import Py Re Exn Pandas pdf_processor proof_notions samples extraction_properties.

Section Facts.
Context {U : Unicode}.

Lemma visible_dropwhile (s : str) : visible (dropwhile isspace s) = visible s.
Proof.
  induction s as [|c t IH]; [reflexivity|]. cbn [dropwhile].
  destruct (isspace c) eqn:Hc; [|reflexivity].
  rewrite IH. symmetry. apply visible_space, Hc.
Qed.

Lemma visible_rev (s : str) : visible (rev s) = rev (visible s).
Proof.
  induction s as [|c t IH]; [reflexivity|].
  cbn [rev]. rewrite visible_app, IH, (visible_cons c t), rev_app_distr.
  f_equal. unfold visible. simpl. destruct (isspace c); reflexivity.
Qed.

Lemma visible_strip (s : str) : visible (strip s) = visible s.
Proof.
  unfold strip, rstrip, lstrip.
  rewrite visible_rev, visible_dropwhile, visible_rev, rev_involutive.
  apply visible_dropwhile.
Qed.

Lemma match_whitespace_run (prev : option char) (s : str) (m : nat) :
  match_at whitespace_run prev s = Some m ->
  forallb isspace (firstn m s) = true.
Proof.
  unfold match_at, whitespace_run, at_least. cbn [rmatch]. intros H.
  apply rep_match_final in H as (j & -> & Hj & Hall). simpl.
  rewrite <- Hall. clear Hall Hj.
  induction (firstn j s) as [|c l IHl]; [reflexivity|].
  cbn [forallb]. rewrite in_space, IHl. reflexivity.
Qed.

Lemma sub_from_visible (s : str) :
  forall (prev : option char) (skip : nat),
    forallb isspace (firstn skip s) = true ->
    visible (sub_from whitespace_run [SP] prev s skip) = visible s.
Proof.
  induction s as [|c t IH]; intros prev skip Hskip.
  - cbn [sub_from]. destruct skip; [|reflexivity].
    destruct (match_at whitespace_run prev []); reflexivity.
  - cbn [sub_from]. destruct skip as [|k].
    + destruct (match_at whitespace_run prev (c :: t)) as [[|k]|] eqn:Hm.
      * rewrite visible_app, (visible_cons c), IH by reflexivity.
        rewrite (visible_cons c t). reflexivity.
      * apply match_whitespace_run in Hm.
        cbn [firstn forallb] in Hm. apply andb_prop in Hm as [Hc Hall].
        rewrite visible_app, IH by exact Hall.
        rewrite (visible_space c t Hc). reflexivity.
      * rewrite (visible_cons c), IH by reflexivity. symmetry. apply visible_cons.
    + cbn [firstn forallb] in Hskip. apply andb_prop in Hskip as [Hc Hall].
      rewrite IH by exact Hall. rewrite (visible_space c t Hc). reflexivity.
Qed.

Lemma split_on_LF_visible (s : str) : visible (concat (split_on LF s)) = visible s.
Proof.
  induction s as [|c t IH]; [reflexivity|]. cbn [split_on].
  destruct (N.eqb_spec c LF) as [->|Hc].
  - cbn [concat app]. rewrite IH. symmetry. apply visible_space. reflexivity.
  - destruct (split_on LF t) as [|p ps] eqn:Hs.
    + cbn [concat] in IH |- *. rewrite app_nil_r, (visible_cons c t), <- IH.
      symmetry. apply app_nil_r.
    + cbn [concat] in IH |- *. rewrite <- app_comm_cons.
      rewrite (visible_cons c), IH. symmetry. apply visible_cons.
Qed.

Lemma visible_blank (s : str) : nonempty (strip s) = false -> visible s = [].
Proof.
  intros H. rewrite <- visible_strip. destruct (strip s); [reflexivity | discriminate].
Qed.

Lemma nonempty_false {A} (l : list A) : nonempty l = false -> l = [].
Proof. destruct l; [reflexivity | discriminate]. Qed.

Lemma visible_concat_snoc (m : list str) (c : str) :
  visible (concat (m ++ [c])) = visible (concat m) ++ visible c.
Proof. rewrite concat_app, visible_app. cbn [concat]. rewrite app_nil_r. reflexivity. Qed.

(** What a state of the merging loop holds. *)
Lemma merge_step_visible (merged_lines : list str) (current_block line : str) :
  let state := merge_step (merged_lines, current_block) line in
  visible (concat (fst state)) ++ visible (snd state) =
  (visible (concat merged_lines) ++ visible current_block) ++ visible line.
Proof.
  cbn zeta. unfold merge_step.
  destruct (nonempty (strip line)) eqn:Hl.
  - rewrite <- (visible_strip line).
    destruct (nonempty current_block && negb (starts_upper (strip line)) &&
              (length current_block <? 100)).
    + cbn [fst snd]. rewrite !visible_app. cbn [visible filter isspace].
      rewrite app_assoc. reflexivity.
    + cbn [fst snd]. destruct (nonempty current_block) eqn:Hc.
      * rewrite visible_concat_snoc. reflexivity.
      * apply nonempty_false in Hc. subst. rewrite app_nil_r. reflexivity.
  - rewrite (visible_blank line Hl), app_nil_r.
    destruct (nonempty current_block) eqn:Hc; cbn [fst snd].
    + rewrite visible_concat_snoc, app_nil_r. reflexivity.
    + reflexivity.
Qed.

Lemma fold_merge_visible (lines : list str) :
  forall state : list str * str,
    let final := fold_left merge_step lines state in
    visible (concat (fst final)) ++ visible (snd final) =
    (visible (concat (fst state)) ++ visible (snd state)) ++ visible (concat lines).
Proof.
  induction lines as [|l ls IH]; intros [m c]; cbn zeta.
  - cbn [fold_left concat]. rewrite app_nil_r. reflexivity.
  - cbn [fold_left concat]. specialize (IH (merge_step (m, c) l)). cbn zeta in IH.
    rewrite IH. pose proof (merge_step_visible m c l) as Hs. cbn zeta in Hs.
    rewrite Hs, visible_app, !app_assoc. reflexivity.
Qed.

Lemma paragraphs_visible (lines : list str) :
  visible (concat (paragraphs lines)) = visible (concat lines).
Proof.
  unfold paragraphs. pose proof (fold_merge_visible lines ([], [])) as H.
  cbn zeta in H. cbn [fst snd concat app] in H.
  destruct (fold_left merge_step lines ([], [])) as [m c]. cbn [fst snd] in H.
  unfold flush. destruct (nonempty c) eqn:Hc.
  - rewrite visible_concat_snoc. exact H.
  - apply nonempty_false in Hc. subst. rewrite app_nil_r in H. exact H.
Qed.

Lemma join_LF_visible (l : list str) : visible (join [LF] l) = visible (concat l).
Proof.
  induction l as [|x [|y ys] IH]; [reflexivity | |].
  - cbn [join concat]. rewrite app_nil_r. reflexivity.
  - change (join [LF] (x :: y :: ys)) with (x ++ [LF] ++ join [LF] (y :: ys)).
    change (concat (x :: y :: ys)) with (x ++ concat (y :: ys)).
    rewrite !visible_app, IH. reflexivity.
Qed.

Lemma merge_blocks_visible (page_text : str) :
  visible (merge_blocks page_text) = visible page_text.
Proof.
  unfold merge_blocks.
  rewrite join_LF_visible, paragraphs_visible. apply split_on_LF_visible.
Qed.

(** Formatting never touches the content of a page: whatever the two
    flags, the entry made from a page text has the characters of that
    text that are not white space, all of them and in their order.
    Collapsing, stripping and the merging of lines only remove, insert or
    replace white space. *)
Lemma page_entry_keeps_characters (page_text : str)
    (preserve_formatting merge_text_blocks : bool) :
  filter (fun c => negb (isspace c))
    (page_entry (Some page_text) preserve_formatting merge_text_blocks) =
  filter (fun c => negb (isspace c)) page_text.
Proof.
  change (visible (page_entry (Some page_text) preserve_formatting merge_text_blocks) =
          visible page_text).
  unfold page_entry. destruct page_text as [|c t]; [reflexivity|].
  assert (H1 : visible (if preserve_formatting then c :: t
                        else strip (sub whitespace_run [SP] (c :: t))) = visible (c :: t)).
  { destruct preserve_formatting; [reflexivity|].
    rewrite visible_strip. unfold sub. apply sub_from_visible. reflexivity. }
  destruct merge_text_blocks; [rewrite merge_blocks_visible|]; exact H1.
Qed.

End Facts.
End formatting_properties.

(* ===================================================================== *)
(** * The summary of a document *)
(* ===================================================================== *)

Module info_properties.
Import Py Re Exn Pandas pdf_processor samples.

Section Facts.
Context {U : Unicode}.
Variable pdfplumber_open : bytes -> result (list page).
Context {Metadata : Type}.
Variable metadata_of : bytes -> Metadata.

Lemma strip_nonempty_length (text : str) : nonempty (strip text) = true -> 1 <= length text.
Proof. destruct text; [discriminate | simpl; lia]. Qed.

Lemma count_page_grows (info info' : pdf_info Metadata) (p : page) :
  count_page info p = inr info' ->
  num_pages info' = num_pages info /\ metadata info' = metadata info /\
  pages_with_text info <= pages_with_text info' <= pages_with_text info + 1 /\
  pages_with_tables info <= pages_with_tables info' <= pages_with_tables info + 1 /\
  total_characters info + (pages_with_text info' - pages_with_text info)
    <= total_characters info'.
Proof.
  unfold count_page.
  destruct (extract_text_of p) as [e|page_text]; [discriminate|].
  destruct (extract_tables_of p) as [e|tables]; [discriminate|].
  intros H. injection H as <-.
  destruct page_text as [text|].
  - destruct (nonempty text && nonempty (strip text)) eqn:Ht.
    + apply andb_prop in Ht as [_ Ht]. apply strip_nonempty_length in Ht.
      destruct (nonempty tables); cbn; repeat split; lia.
    + destruct (nonempty tables); cbn; repeat split; lia.
  - destruct (nonempty tables); cbn; repeat split; lia.
Qed.

Lemma count_pages_grows (pages : list page) :
  forall info info' : pdf_info Metadata,
    count_pages pages info = inr info' ->
    num_pages info' = num_pages info /\ metadata info' = metadata info /\
    pages_with_text info <= pages_with_text info' <= pages_with_text info + length pages /\
    pages_with_tables info <= pages_with_tables info'
      <= pages_with_tables info + length pages /\
    total_characters info + (pages_with_text info' - pages_with_text info)
      <= total_characters info'.
Proof.
  induction pages as [|p ps IH]; intros info info' H.
  - injection H as <-. cbn. repeat split; lia.
  - cbn [count_pages] in H.
    destruct (count_page info p) as [e|info1] eqn:Hp; [discriminate|].
    apply count_page_grows in Hp as (Hn1 & Hm1 & Ht1 & Hb1 & Hc1).
    apply IH in H as (Hn & Hm & Ht & Hb & Hc).
    cbn [length]. repeat split; try congruence; lia.
Qed.


End Facts.
End info_properties.

(* ===================================================================== *)
(** * Sanitizing frames and extracted data *)
(* ===================================================================== *)

Module data_properties.
Import Py Re Exn Pandas data_sanitizer proof_notions samples extraction_properties.

Lemma update_nth_last {A} (f : A -> A) (l : list A) (x : A) :
  update_nth (length l) f (l ++ [x]) = l ++ [f x].
Proof. induction l as [|y l IH]; simpl; [reflexivity | rewrite IH; reflexivity]. Qed.

Lemma nth_error_last {A} (l : list A) (x : A) : nth_error (l ++ [x]) (length l) = Some x.
Proof. rewrite nth_error_app2, Nat.sub_diag by lia. reflexivity. Qed.

Lemma label_eqb_eq (a b : label) : label_eqb a b = true -> a = b.
Proof.
  destruct a as [x|], b as [y|]; simpl; try congruence.
  unfold str_eqb. destruct (list_eq_dec N.eq_dec x y); congruence.
Qed.

Lemma get_loc_absent (col : label) (cols : list label) :
  ~ In col cols -> forall i : nat, get_loc col cols i = [].
Proof.
  induction cols as [|d ds IH]; intros Hc i; [reflexivity|].
  cbn [get_loc]. destruct (label_eqb col d) eqn:E.
  - apply label_eqb_eq in E. subst. exfalso. apply Hc. left. reflexivity.
  - apply IH. intros H. apply Hc. right. exact H.
Qed.

(** The positions of a label that occurs once. *)
Lemma get_loc_once (col : label) (cols : list label) :
  forall (k i : nat),
    NoDup cols -> nth_error cols k = Some col -> get_loc col cols i = [i + k].
Proof.
  induction cols as [|c cs IH]; intros k i Hnd Hk.
  - destruct k; discriminate.
  - apply NoDup_cons_iff in Hnd as [Hc Hnd]. cbn [get_loc]. destruct k as [|k].
    + injection Hk as ->. rewrite label_eqb_refl.
      rewrite Nat.add_0_r. f_equal. apply get_loc_absent, Hc.
    + cbn [nth_error] in Hk. destruct (label_eqb col c) eqn:E.
      * apply label_eqb_eq in E. subst. exfalso. apply Hc.
        eapply nth_error_In, Hk.
      * rewrite (IH k (S i) Hnd Hk). f_equal. lia.
Qed.

(** Labels that have one position each differ from each other. *)
Lemma single_positions_distinct (cols : list label) :
  forall n : nat,
    (forall c, In c cols -> exists j, get_loc c cols n = [j]) -> NoDup cols.
Proof.
  induction cols as [|c cs IHc]; intros n Hdone; [constructor|].
  assert (Hc : ~ In c cs).
  { intros Hin. destruct (Hdone c (or_introl eq_refl)) as [j Hj].
    cbn [get_loc] in Hj. rewrite label_eqb_refl in Hj.
    apply In_nth_error in Hin as [k Hk].
    pose proof (get_loc_contains cs k (S n) c Hk) as Hin'.
    injection Hj as _ Hj. rewrite Hj in Hin'. destruct Hin'. }
  constructor; [exact Hc|]. apply (IHc (S n)). intros d Hd.
  destruct (Hdone d (or_intror Hd)) as [j Hj]. cbn [get_loc] in Hj.
  destruct (label_eqb d c) eqn:E.
  - apply label_eqb_eq in E. subst. contradiction.
  - exists j. exact Hj.
Qed.

Section Facts.
Context {U : Unicode}.

(** The loop over the columns works on the copy, the last object. *)
Lemma sanitize_columns_last (todo : list label) (basic redact : bool) (h : heap) :
  forall df : DataFrame,
    exists df' : DataFrame,
      snd (sanitize_columns todo (length h) basic redact (h ++ [df])) = h ++ [df'].
Proof.
  induction todo as [|col rest IH]; intros df.
  - exists df. reflexivity.
  - cbn [sanitize_columns]. rewrite nth_error_last.
    destruct (series_loc "dtype" col df) as [e|j]; [exists df; reflexivity|].
    unfold heap_update. rewrite update_nth_last. apply IH.
Qed.

Lemma sanitize_dataframe_grows (df : option ref) (basic redact : bool) (h : heap) :
  exists ext : heap, snd (sanitize_dataframe df basic redact h) = h ++ ext.
Proof.
  unfold sanitize_dataframe.
  destruct df as [r|]; [|exists []; symmetry; apply app_nil_r].
  destruct (nth_error h r) as [frame|]; [|exists []; symmetry; apply app_nil_r].
  destruct (empty frame); [exists []; symmetry; apply app_nil_r|].
  destruct (sanitize_columns_last (columns frame) basic redact h frame) as [df' E].
  destruct (sanitize_columns (columns frame) (length h) basic redact (h ++ [frame]))
    as [[e|u] h']; cbn [snd] in *; exists [df']; exact E.
Qed.

(** The loop, column by column, on a frame whose labels differ. *)
Lemma sanitize_columns_from (frame : DataFrame) (basic redact : bool) (h : heap)
    (todo : list label) :
  let f : cell -> cell :=
    fun x => Some (sanitize_text (astype_str x) basic redact) in
  NoDup (columns frame) -> rectangular frame ->
  forall k : nat,
    skipn k (columns frame) = todo ->
    sanitize_columns todo (length h) basic redact
      (h ++ [with_rows frame (map (done_upto f k) (rows frame))]) =
    (inr tt, h ++ [with_rows frame (map (map f) (rows frame))]).
Proof.
  intros f Hnd Hrect. induction todo as [|col rest IH]; intros k Hsk.
  - cbn [sanitize_columns].
    replace (map (done_upto f k) (rows frame)) with (map (map f) (rows frame));
      [reflexivity|].
    symmetry. apply map_ext_in. intros r Hin.
    apply done_upto_all.
    unfold rectangular in Hrect. rewrite Forall_forall in Hrect. rewrite (Hrect r Hin).
    destruct (Nat.le_gt_cases (length (columns frame)) k) as [Hle|Hgt]; [exact Hle|].
    assert (Hlen : length (skipn k (columns frame)) = 0) by (rewrite Hsk; reflexivity).
    rewrite length_skipn in Hlen. lia.
  - cbn [sanitize_columns]. rewrite nth_error_last.
    assert (Hk : nth_error (columns frame) k = Some col).
    { rewrite <- (firstn_skipn k (columns frame)) at 1. rewrite Hsk.
      assert (Hlenk : k <= length (columns frame)).
      { destruct (Nat.le_gt_cases k (length (columns frame))) as [Hle|Hgt]; [exact Hle|].
        rewrite skipn_all2 in Hsk by lia. discriminate. }
      rewrite nth_error_app2; rewrite length_firstn, Nat.min_l by lia; [|lia].
      rewrite Nat.sub_diag. reflexivity. }
    unfold series_loc. cbn [columns with_rows].
    rewrite (get_loc_once col (columns frame) k 0 Hnd Hk). cbn [Nat.add].
    unfold heap_update. rewrite update_nth_last. fold f.
    assert (Hstep : map_column k f (with_rows frame (map (done_upto f k) (rows frame))) =
                    with_rows frame (map (done_upto f (S k)) (rows frame))).
    { unfold map_column, with_rows. cbn [rows columns attrs_page attrs_table]. f_equal.
      rewrite map_map. apply map_ext_in. intros r Hin.
      apply update_nth_done_upto.
      unfold rectangular in Hrect. rewrite Forall_forall in Hrect. rewrite (Hrect r Hin).
      apply nth_error_Some. rewrite Hk. discriminate. }
    rewrite Hstep. apply (IH (S k)).
    apply nth_error_split in Hk as (l1 & l2 & Heq & Hl1).
    rewrite Heq in Hsk |- *. subst k.
    rewrite skipn_app, skipn_all, Nat.sub_diag in Hsk. simpl in Hsk.
    injection Hsk as <-.
    replace (S (length l1)) with (length (l1 ++ [col])) by (rewrite length_app; simpl; lia).
    replace (l1 ++ col :: l2) with ((l1 ++ [col]) ++ l2) by (rewrite <- app_assoc; reflexivity).
    rewrite skipn_app, skipn_all, Nat.sub_diag. reflexivity.
Qed.

(** What [sanitize_dataframe] returns for a frame that is not empty and
    whose column labels differ from each other: a new object, with the
    labels, the shape and the attributes of the argument, in which every
    cell holds the sanitized text of [str] of the cell it comes from; a
    cell that was [None] holds the sanitized text of ["None"]. *)
Lemma sanitize_dataframe_copies (r : ref) (frame : DataFrame)
    (basic_sanitization redact_numbers : bool) (h : heap) :
  nth_error h r = Some frame ->
  empty frame = false ->
  NoDup (columns frame) ->
  rectangular frame ->
  sanitize_dataframe (Some r) basic_sanitization redact_numbers h =
  (inr (Some (length h)),
   h ++ [{| columns := columns frame;
            rows := map (map (fun x =>
                                Some (sanitize_text (astype_str x)
                                        basic_sanitization redact_numbers)))
                        (rows frame);
            attrs_page := attrs_page frame;
            attrs_table := attrs_table frame |}]).
Proof.
  intros Hr He Hnd Hrect. unfold sanitize_dataframe. rewrite Hr, He.
  pose proof (sanitize_columns_from frame basic_sanitization redact_numbers h
                (columns frame) Hnd Hrect 0 eq_refl) as H.
  cbn zeta in H.
  replace (with_rows frame (map (done_upto _ 0) (rows frame))) with frame in H.
  - rewrite H. reflexivity.
  - unfold done_upto. cbn [firstn skipn map app]. rewrite map_id.
    destruct frame; reflexivity.
Qed.

(** The loop stops at the first label that occurs twice. *)
Lemma sanitize_columns_repeated (cols : list label) (basic redact : bool) (h : heap)
    (todo : list label) :
  ~ NoDup cols ->
  forall (done : list label) (df : DataFrame),
    cols = done ++ todo -> columns df = cols ->
    (forall c, In c done -> exists j, get_loc c cols 0 = [j]) ->
    exists h' : heap,
      sanitize_columns todo (length h) basic redact (h ++ [df]) =
      (inl (no_attribute "DataFrame" "dtype"), h').
Proof.
  intros Hdup. induction todo as [|col rest IH]; intros done df Hcols Hdf Hdone.
  - exfalso. apply Hdup. rewrite app_nil_r in Hcols. subst done.
    exact (single_positions_distinct cols 0 Hdone).
  - cbn [sanitize_columns]. rewrite nth_error_last.
    unfold series_loc. rewrite Hdf.
    assert (Hin : In col cols) by (rewrite Hcols; apply in_or_app; right; left; reflexivity).
    apply In_nth_error in Hin as [k Hk].
    pose proof (get_loc_contains cols k 0 col Hk) as Hloc.
    destruct (get_loc col cols 0) as [|a [|b l]] eqn:Hg.
    + destruct Hloc.
    + unfold heap_update. rewrite update_nth_last.
      apply (IH (done ++ [col])).
      * rewrite <- app_assoc. exact Hcols.
      * exact Hdf.
      * intros c Hc. apply in_app_or in Hc as [Hc|[<-|[]]].
        -- apply Hdone, Hc.
        -- exists a. exact Hg.
    + eexists. reflexivity.
Qed.

(** A frame in which a column label occurs at two positions, as in a
    table whose header has two empty cells: [sanitize_dataframe] raises
    the AttributeError of reading [dtype] from what the label selects, and
    the frame it was given is as before. *)
Lemma sanitize_dataframe_repeated_label (r : ref) (frame : DataFrame)
    (basic_sanitization redact_numbers : bool) (h : heap) (i j : nat) (col : label) :
  nth_error h r = Some frame ->
  empty frame = false ->
  i < j ->
  nth_error (columns frame) i = Some col ->
  nth_error (columns frame) j = Some col ->
  exists h' : heap,
    sanitize_dataframe (Some r) basic_sanitization redact_numbers h =
    (inl (no_attribute "DataFrame" "dtype"), h') /\
    nth_error h' r = Some frame.
Proof.
  intros Hr He Hij Hi Hj. unfold sanitize_dataframe. rewrite Hr, He.
  assert (Hdup : ~ NoDup (columns frame)).
  { intros Hnd. rewrite NoDup_nth_error in Hnd.
    assert (i = j); [|lia]. apply Hnd; [|congruence].
    apply nth_error_Some. rewrite Hi. discriminate. }
  destruct (sanitize_columns_repeated (columns frame) basic_sanitization redact_numbers
              h (columns frame) Hdup [] frame eq_refl eq_refl) as [h' E].
  { intros c []. }
  pose proof (sanitize_columns_last (columns frame) basic_sanitization redact_numbers
                h frame) as [df' E'].
  rewrite E in E' |- *. cbn [snd] in E'. exists h'. split; [reflexivity|].
  rewrite E', nth_error_app1; [exact Hr|].
  apply nth_error_Some. rewrite Hr. discriminate.
Qed.

Variable repr : heap -> data -> str.

Lemma sanitize_dataframe_of_grows (df : data) (basic redact : bool) (h : heap) :
  exists ext : heap, snd (sanitize_dataframe_of df basic redact h) = h ++ ext.
Proof.
  unfold sanitize_dataframe_of.
  destruct df as [|s|r|l|d]; try (exists []; symmetry; apply app_nil_r).
  destruct (sanitize_dataframe_grows (Some r) basic redact h) as [ext E].
  destruct (sanitize_dataframe (Some r) basic redact h) as [[e|[r'|]] h'];
    cbn [snd] in *; exists ext; exact E.
Qed.

Lemma sanitize_frames_grows (l : list data) (basic redact : bool) :
  forall h : heap, exists ext : heap, snd (sanitize_frames l basic redact h) = h ++ ext.
Proof.
  induction l as [|df l IH]; intros h.
  - exists []. symmetry. apply app_nil_r.
  - cbn [sanitize_frames].
    destruct (sanitize_dataframe_of_grows df basic redact h) as [ext1 E1].
    destruct (sanitize_dataframe_of df basic redact h) as [[e|x] h1]; cbn [snd] in E1.
    + exists ext1. exact E1.
    + destruct (IH h1) as [ext2 E2].
      destruct (sanitize_frames l basic redact h1) as [[e|xs] h2]; cbn [snd] in *;
        exists (ext1 ++ ext2); rewrite E2, E1, app_assoc; reflexivity.
Qed.

Lemma sanitize_frames_length (l : list data) (basic redact : bool) :
  forall (h h' : heap) (l' : list data),
    sanitize_frames l basic redact h = (inr l', h') -> length l = length l'.
Proof.
  induction l as [|df l IH]; intros h h' l' H.
  - injection H as <- _. reflexivity.
  - cbn [sanitize_frames] in H.
    destruct (sanitize_dataframe_of df basic redact h) as [[e|x] h1]; [discriminate|].
    destruct (sanitize_frames l basic redact h1) as [[e|xs] h2] eqn:E; [discriminate|].
    injection H as <- _. cbn [length]. f_equal. eapply IH, E.
Qed.

Lemma sanitize_texts_length (l : list data) (basic redact : bool) (h : heap) :
  forall l' : list data,
    sanitize_texts repr l basic redact h = inr l' -> length l = length l'.
Proof.
  induction l as [|text l IH]; intros l' H.
  - injection H as <-. reflexivity.
  - cbn [sanitize_texts] in H.
    destruct (sanitize_text_of repr text basic redact h) as [e|s]; [discriminate|].
    destruct (sanitize_texts repr l basic redact h) as [e|xs]; [discriminate|].
    injection H as <-. cbn [length]. f_equal. apply IH. reflexivity.
Qed.

Lemma data_induction (P : data -> Prop) :
  P DNone -> (forall s, P (DStr s)) -> (forall r, P (DFrame r)) ->
  (forall l, P (DList l)) ->
  (forall d, Forall (fun kv => P (snd kv)) d -> P (DDict d)) ->
  forall d, P d.
Proof.
  intros Hn Hs Hf Hl Hd. fix IH 1. intros [|s|r|l|d].
  - exact Hn.
  - apply Hs.
  - apply Hf.
  - apply Hl.
  - apply Hd. induction d as [|[k v] d IHd]; constructor; [apply IH | exact IHd].
Qed.

Lemma for_items_grows (f : data -> heap -> result data * heap)
    (entries : list (str * data)) :
  Forall (fun kv => forall h, exists ext, snd (f (snd kv) h) = h ++ ext) entries ->
  forall h : heap, exists ext : heap, snd (for_items f entries h) = h ++ ext.
Proof.
  induction 1 as [|[k v] rest Hv _ IH]; intros h.
  - exists []. symmetry. apply app_nil_r.
  - cbn [for_items]. cbn [snd] in Hv. destruct (Hv h) as [ext1 E1].
    destruct (f v h) as [[e|v'] h1]; cbn [snd] in E1.
    + exists ext1. exact E1.
    + destruct (IH h1) as [ext2 E2]. fold (for_items f) in *.
      destruct (for_items f rest h1) as [[e|vs] h2]; cbn [snd] in *;
        exists (ext1 ++ ext2); rewrite E2, E1, app_assoc; reflexivity.
Qed.

(** Whatever the data and whether or not the call raises,
    [sanitize_extracted_data] leaves every frame that exists before the
    call as it is: the objects after the call are those before it,
    followed by the copies it made. *)
Lemma sanitize_extracted_data_keeps_frames (d : data)
    (basic_sanitization redact_numbers : bool) :
  forall h : heap,
    exists new_frames : heap,
      snd (sanitize_extracted_data repr d basic_sanitization redact_numbers h) =
      h ++ new_frames.
Proof.
  induction d as [|s|r|l|entries IH] using data_induction; intros h;
    try (exists []; symmetry; apply app_nil_r).
  - cbn [sanitize_extracted_data].
    destruct l as [|[|s|r|l0|d0] l']; try (exists []; symmetry; apply app_nil_r).
    + destruct (sanitize_texts repr (DStr s :: l') basic_sanitization redact_numbers h);
        exists []; symmetry; apply app_nil_r.
    + destruct (sanitize_frames_grows (DFrame r :: l') basic_sanitization redact_numbers h)
        as [ext E].
      destruct (sanitize_frames (DFrame r :: l') basic_sanitization redact_numbers h)
        as [[e|xs] h']; cbn [snd] in *; exists ext; exact E.
  - cbn [sanitize_extracted_data].
    pose (f := fun value : data =>
                 sanitize_extracted_data repr value basic_sanitization redact_numbers).
    destruct (for_items_grows f entries IH h) as [ext E]. fold f.
    destruct (for_items f entries h) as [[e|es] h']; cbn [snd] in *; exists ext; exact E.
Qed.

Lemma for_items_format (f : data -> heap -> result data * heap)
    (entries : list (str * data)) :
  Forall (fun kv => forall v' h h', f (snd kv) h = (inr v', h') ->
                    same_format (snd kv) v') entries ->
  forall (h h' : heap) (out : list (str * data)),
    for_items f entries h = (inr out, h') ->
    Forall2 (fun x y => fst x = fst y /\ same_format (snd x) (snd y)) entries out.
Proof.
  induction 1 as [|[k v] rest Hv _ IH]; intros h h' out H.
  - injection H as <- _. constructor.
  - cbn [for_items] in H. cbn [snd] in Hv.
    destruct (f v h) as [[e|v'] h1] eqn:Ev; [discriminate|].
    fold (for_items f) in *.
    destruct (for_items f rest h1) as [[e|vs] h2] eqn:Er; [discriminate|].
    injection H as <- _. constructor.
    + split; [reflexivity | exact (Hv _ _ _ Ev)].
    + exact (IH _ _ _ Er).
Qed.

(** What [sanitize_extracted_data] returns has the format of what it
    was given: a text for a text, a list of the same length for a list, a
    dictionary with the same keys in the same order and values of the same
    format for a dictionary, and anything else as it was. *)
Lemma sanitize_extracted_data_same_format (d d' : data)
    (basic_sanitization redact_numbers : bool) (h h' : heap) :
  sanitize_extracted_data repr d basic_sanitization redact_numbers h = (inr d', h') ->
  same_format d d'.
Proof.
  revert d' h h'.
  induction d as [|s|r|l|entries IH] using data_induction; intros d' h h' H.
  - injection H as <- _. constructor.
  - injection H as <- _. constructor.
  - injection H as <- _. constructor.
  - cbn [sanitize_extracted_data] in H.
    destruct l as [|[|s|r|l0|d0] l']; try (injection H as <- _; constructor; reflexivity).
    + destruct (sanitize_texts repr (DStr s :: l') basic_sanitization redact_numbers h)
        as [e|xs] eqn:E; [discriminate|].
      injection H as <- _. constructor. eapply sanitize_texts_length, E.
    + destruct (sanitize_frames (DFrame r :: l') basic_sanitization redact_numbers h)
        as [[e|xs] h1] eqn:E; [discriminate|].
      injection H as <- _. constructor. eapply sanitize_frames_length, E.
  - cbn [sanitize_extracted_data] in H.
    pose (f := fun value : data =>
                 sanitize_extracted_data repr value basic_sanitization redact_numbers).
    fold f in H.
    destruct (for_items f entries h) as [[e|es] h1] eqn:E; [discriminate|].
    injection H as <- _. constructor.
    apply (for_items_format f entries IH h h1 es E).
Qed.

End Facts.

(** A run of [sanitize_dataframe_copies]: a number and a missing cell. *)
Lemma sanitize_dataframe_copies_witness :
  sanitize_dataframe (U:=ascii_only) (Some 0) false true
    [{| columns := [Some (py "id"); Some (py "note")];
        rows := [[Some (py "12345"); None]];
        attrs_page := Some 2; attrs_table := Some 1 |}] =
  (inr (Some 1),
   [{| columns := [Some (py "id"); Some (py "note")];
       rows := [[Some (py "12345"); None]];
       attrs_page := Some 2; attrs_table := Some 1 |};
    {| columns := [Some (py "id"); Some (py "note")];
       rows := [[Some (py "[NUMBER_REDACTED]"); Some (py "None")]];
       attrs_page := Some 2; attrs_table := Some 1 |}]).
Proof.
  refine (eq_trans
            (sanitize_dataframe_copies (U:=ascii_only) 0
               {| columns := [Some (py "id"); Some (py "note")];
                  rows := [[Some (py "12345"); None]];
                  attrs_page := Some 2; attrs_table := Some 1 |}
               false true
               [{| columns := [Some (py "id"); Some (py "note")];
                   rows := [[Some (py "12345"); None]];
                   attrs_page := Some 2; attrs_table := Some 1 |}]
               eq_refl eq_refl _ _) _).
  - constructor; [|constructor; [|constructor]].
    + intros [H|[]]. discriminate H.
    + intros [].
  - constructor; [reflexivity | constructor].
  - vm_compute. reflexivity.
Defined.

(** A run of [sanitize_dataframe_repeated_label]: two columns without a
    name. *)
Lemma sanitize_dataframe_repeated_label_witness :
  exists h' : heap,
    sanitize_dataframe (U:=ascii_only) (Some 0) true false
      [{| columns := [Some []; Some []];
          rows := [[Some (py "a"); Some (py "b")]];
          attrs_page := Some 1; attrs_table := Some 1 |}] =
    (inl (no_attribute "DataFrame" "dtype"), h') /\
    nth_error h' 0 =
    Some {| columns := [Some []; Some []];
            rows := [[Some (py "a"); Some (py "b")]];
            attrs_page := Some 1; attrs_table := Some 1 |}.
Proof.
  refine (sanitize_dataframe_repeated_label (U:=ascii_only) 0
            {| columns := [Some []; Some []];
               rows := [[Some (py "a"); Some (py "b")]];
               attrs_page := Some 1; attrs_table := Some 1 |}
            true false
            [{| columns := [Some []; Some []];
                rows := [[Some (py "a"); Some (py "b")]];
                attrs_page := Some 1; attrs_table := Some 1 |}]
            0 1 (Some []) eq_refl eq_refl _ eq_refl eq_refl).
  lia.
Defined.

(** A run of [sanitize_extracted_data_same_format]: a text and a list of
    one frame. *)
Lemma sanitize_extracted_data_same_format_witness :
  same_format
    (DDict [(py "text", DStr (py "mail ann@example.com"));
            (py "tables", DList [DFrame 0])])
    (DDict [(py "text", DStr (py "mail [EMAIL_REDACTED]"));
            (py "tables", DList [DFrame 1])]).
Proof.
  refine (sanitize_extracted_data_same_format (U:=ascii_only) (fun _ _ => []) _ _
            true false [contact_frame]
            [contact_frame;
             {| columns := [Some (py "name"); Some (py "mail")];
                rows := [[Some (py "ann"); Some (py "[EMAIL_REDACTED]")]];
                attrs_page := Some 1; attrs_table := Some 1 |}] _).
  vm_compute. reflexivity.
Defined.

End data_properties.

(* ===================================================================== *)
(** * The summary of a sanitization *)
(* ===================================================================== *)

Module summary_properties.
Import Py Re Exn data_sanitizer proof_notions.

Lemma firstn_add {A} (a b : nat) (l : list A) :
  firstn (a + b) l = firstn a l ++ firstn b (skipn a l).
Proof.
  revert l. induction a as [|a IH]; intros l; [reflexivity|].
  destruct l as [|x l]; cbn [Nat.add firstn skipn app].
  - rewrite firstn_nil. reflexivity.
  - rewrite IH. reflexivity.
Qed.

Lemma skipn_add {A} (a b : nat) (l : list A) :
  skipn (a + b) l = skipn b (skipn a l).
Proof.
  revert l. induction a as [|a IH]; intros l; [reflexivity|].
  destruct l as [|x l]; cbn [Nat.add skipn].
  - rewrite skipn_nil. reflexivity.
  - apply IH.
Qed.

Lemma count_bracket_app (a b : str) :
  count_bracket (a ++ b) = count_bracket a + count_bracket b.
Proof. apply count_occ_app. Qed.

Lemma count_bracket_cons (c : char) (s : str) :
  count_bracket (c :: s) = count_bracket [c] + count_bracket s.
Proof. apply (count_bracket_app [c] s). Qed.

Section Facts.
Context {U : Unicode}.

Lemma member_is_no_bracket (cs : charset) (c : char) :
  in_charset cs (ch "[") = false -> in_charset cs c = true -> count_bracket [c] = 0.
Proof.
  intros Hcs Hc. unfold count_bracket. cbn [count_occ].
  destruct (N.eq_dec c (ch "[")) as [->|Hne]; [congruence | reflexivity].
Qed.

(** A repetition of a set without the bracket passes no bracket. *)
Lemma rep_match_avoids (cs : charset) (k : cont) (m : nat) :
  in_charset cs (ch "[") = false ->
  forall (s : str) (lo : nat) (hi : option nat) (prev : option char) (n : nat),
    rep_match cs lo hi prev s n k = Some m ->
    exists (j : nat) (p : option char),
      count_bracket (firstn j s) = 0 /\ k p (skipn j s) (n + j) = Some m.
Proof.
  intros Hcs. induction s as [|c t IH]; intros lo hi prev n H.
  - cbn [rep_match] in H. destruct lo; [|discriminate].
    exists 0, prev. rewrite Nat.add_0_r. split; [reflexivity | exact H].
  - cbn [rep_match] in H.
    assert (Hstop : match lo with 0 => k prev (c :: t) n | S _ => None end = Some m ->
                    exists (j : nat) (p : option char),
                      count_bracket (firstn j (c :: t)) = 0 /\
                      k p (skipn j (c :: t)) (n + j) = Some m).
    { intros Hs. destruct lo; [|discriminate].
      exists 0, prev. rewrite Nat.add_0_r. split; [reflexivity | exact Hs]. }
    destruct (in_charset cs c && negb (exhausted hi)) eqn:Hc; [|exact (Hstop H)].
    destruct (rep_match cs (Nat.pred lo) (option_map Nat.pred hi) (Some c) t (S n) k)
      as [m'|] eqn:Hr; [|exact (Hstop H)].
    injection H as ->. apply IH in Hr as (j & p & Hj & Hk).
    exists (S j), p. split.
    + cbn [firstn]. rewrite count_bracket_cons, Hj.
      apply andb_prop in Hc as [Hc _].
      rewrite (member_is_no_bracket cs c Hcs Hc). reflexivity.
    + cbn [skipn]. rewrite Nat.add_succ_r. exact Hk.
Qed.

(** A pattern none of whose sets holds the bracket passes no bracket. *)
Lemma rmatch_avoids (r : regex) :
  avoids (ch "[") r = true ->
  forall (k : cont) (m : nat) (prev : option char) (s : str) (n : nat),
    rmatch r prev s n k = Some m ->
    exists (j : nat) (p : option char),
      count_bracket (firstn j s) = 0 /\ k p (skipn j s) (n + j) = Some m.
Proof.
  induction r as [| |cs lo hi|r1 IH1 r2 IH2|r1 IH1 r2 IH2]; intros Ha k m prev s n H;
    cbn [rmatch avoids] in *.
  - exists 0, prev. rewrite Nat.add_0_r. split; [reflexivity | exact H].
  - destruct (at_boundary prev s); [|discriminate].
    exists 0, prev. rewrite Nat.add_0_r. split; [reflexivity | exact H].
  - apply negb_true_iff in Ha. eapply rep_match_avoids; eassumption.
  - apply andb_prop in Ha as [Ha1 Ha2].
    apply (IH1 Ha1) in H as (j1 & p1 & Hj1 & H).
    apply (IH2 Ha2) in H as (j2 & p2 & Hj2 & H).
    exists (j1 + j2), p2. split.
    + rewrite firstn_add, count_bracket_app, Hj1, Hj2. reflexivity.
    + rewrite skipn_add, Nat.add_assoc. exact H.
  - apply andb_prop in Ha as [Ha1 Ha2].
    destruct (rmatch r1 prev s n k) as [m'|] eqn:H1.
    + injection H as ->. exact (IH1 Ha1 _ _ _ _ _ H1).
    + exact (IH2 Ha2 _ _ _ _ _ H).
Qed.

Lemma match_at_avoids (r : regex) (prev : option char) (s : str) (m : nat) :
  avoids (ch "[") r = true ->
  match_at r prev s = Some m -> count_bracket (firstn m s) = 0.
Proof.
  intros Ha H. unfold match_at in H.
  apply (rmatch_avoids r Ha) in H as (j & p & Hj & H).
  injection H as <-. exact Hj.
Qed.

(** Each replacement adds the brackets of the replacement text. *)
Lemma sub_from_brackets (r : regex) (repl : str) :
  avoids (ch "[") r = true ->
  forall (s : str) (prev : option char) (skip : nat),
    count_bracket (firstn skip s) = 0 ->
    count_bracket (sub_from r repl prev s skip) =
    count_bracket s + count_from r prev s skip * count_bracket repl.
Proof.
  intros Ha. induction s as [|c t IH]; intros prev skip Hskip.
  - cbn [sub_from count_from]. destruct skip; [|reflexivity].
    destruct (match_at r prev []); cbn; lia.
  - cbn [sub_from count_from]. destruct skip as [|k].
    + destruct (match_at r prev (c :: t)) as [[|k]|] eqn:Hm.
      * rewrite count_bracket_app, (count_bracket_cons c), IH by reflexivity.
        rewrite (count_bracket_cons c t). lia.
      * apply (match_at_avoids r _ _ _ Ha) in Hm. cbn [firstn] in Hm.
        rewrite count_bracket_cons in Hm.
        rewrite count_bracket_app, IH by lia.
        rewrite (count_bracket_cons c t). lia.
      * rewrite (count_bracket_cons c), IH by reflexivity.
        rewrite (count_bracket_cons c t). lia.
    + cbn [firstn] in Hskip. rewrite count_bracket_cons in Hskip.
      rewrite IH by lia. rewrite (count_bracket_cons c t). lia.
Qed.

Lemma sub_brackets (r : regex) (repl : str) (text : str) :
  avoids (ch "[") r = true -> count_bracket repl = 1 ->
  count_bracket (sub r repl text) = count_bracket text + findall_count r text.
Proof.
  intros Ha Hr. unfold sub, findall_count.
  rewrite (sub_from_brackets r repl Ha) by reflexivity. rewrite Hr. lia.
Qed.

Lemma basic_substitutions_brackets (text : str) :
  count_bracket text + findall_count email_pattern text <=
  count_bracket (basic_substitutions text).
Proof.
  unfold basic_substitutions.
  repeat (rewrite sub_brackets by reflexivity). lia.
Qed.

Lemma sanitize_text_brackets (text : str) (basic redact : bool) :
  count_bracket text + (if basic then findall_count email_pattern text else 0) <=
  count_bracket (sanitize_text text basic redact).
Proof.
  unfold sanitize_text. destruct text as [|c t].
  - destruct basic; cbn; lia.
  - pose proof (basic_substitutions_brackets (c :: t)) as Hb.
    destruct basic, redact; try rewrite sub_brackets by reflexivity; lia.
Qed.

(** The entry ['total_redactions'] of the summary of a text and its
    sanitized form is the number of opening brackets of the text minus
    that of the sanitized text.  No pattern matches a bracket and every
    replacement text holds one, so the entry is never positive: it is at
    most minus the number of addresses counted when basic sanitization is
    on, exactly minus the number of matches of the numeric pattern when
    only numbers are redacted, and zero when both flags are off. *)
Lemma total_redactions_is_not_positive (original_text : str) :
  let total basic_sanitization redact_numbers :=
    total_redactions
      (get_sanitization_summary original_text
         (sanitize_text original_text basic_sanitization redact_numbers)) in
  (forall basic_sanitization redact_numbers : bool,
     (total basic_sanitization redact_numbers <= 0)%Z) /\
  (forall redact_numbers : bool,
     (total true redact_numbers <=
      - Z.of_nat (emails_redacted
                    (get_sanitization_summary original_text
                       (sanitize_text original_text true redact_numbers))))%Z) /\
  total false true = (- Z.of_nat (findall_count numeric_sequences original_text))%Z /\
  total false false = 0%Z.
Proof.
  cbn zeta. unfold get_sanitization_summary.
  cbn [total_redactions emails_redacted].
  split; [|split; [|split]].
  - intros basic redact.
    pose proof (sanitize_text_brackets original_text basic redact) as H. lia.
  - intros redact.
    pose proof (sanitize_text_brackets original_text true redact) as H. lia.
  - unfold sanitize_text. destruct original_text as [|c t]; [reflexivity|].
    rewrite sub_brackets by reflexivity. lia.
  - unfold sanitize_text. destruct original_text as [|c t]; [reflexivity | lia].
Qed.

End Facts.

End summary_properties.

(* ===================================================================== *)
(** * The workbooks the conversion returns *)
(* ===================================================================== *)

Module workbook_properties.
Import Py Re Exn Pandas excel_converter proof_notions samples.

Lemma Forall_update_nth {A} (P : A -> Prop) (f : A -> A) (l : list A) :
  (forall x, P x -> P (f x)) -> forall j : nat, Forall P l -> Forall P (update_nth j f l).
Proof.
  intros Hf. induction l as [|x l IH]; intros [|j] H; cbn [update_nth];
    try exact H; apply Forall_cons_iff in H as [Hx Hl]; constructor; auto.
Qed.

Lemma length_update_nth_same {A} (j : nat) (f : A -> A) (l : list A) :
  length (update_nth j f l) = length l.
Proof.
  revert j. induction l as [|x l IH]; intros [|j]; simpl; try reflexivity.
  rewrite IH. reflexivity.
Qed.

Lemma valid_title_firstn (t : str) :
  forallb (fun c => negb (existsb (N.eqb c) (py "\/*?:[]"))) t = true ->
  valid_title (firstn 31 t) = true.
Proof.
  intros H. unfold valid_title. apply andb_true_intro. split.
  - apply Nat.leb_le. apply firstn_le_length.
  - rewrite <- (firstn_skipn 31 t), forallb_app in H.
    apply andb_prop in H as [H _]. exact H.
Qed.

Section Facts.
Context {U : Unicode}.
Variable now now_in_handler : str.
Variable illegal_character_message : str -> str.

(** ** The steps *)

Lemma keeps_ret {A} (x : A) : keeps (ret x).
Proof. intros wb wb' y H Hw. injection H as _ <-. split; [exact Hw | lia]. Qed.

Lemma keeps_raise {A} (e : exn) : keeps (raise (A:=A) e).
Proof. intros wb wb' y H. discriminate. Qed.

Lemma keeps_lift {A} (r : result A) : keeps (lift r).
Proof.
  intros wb wb' y H Hw. unfold lift in H. destruct r; [discriminate|].
  injection H as _ <-. split; [exact Hw | lia].
Qed.

Lemma keeps_bind {A B} (m : W A) (k : A -> W B) :
  keeps m -> (forall x, keeps (k x)) -> keeps (bind m k).
Proof.
  intros Hm Hk wb wb' y H Hw. unfold bind in H.
  destruct (m wb) as [e|[x wb1]] eqn:E; [discriminate|].
  destruct (Hm _ _ _ E Hw) as [Hw1 Hl1].
  destruct (Hk x _ _ _ H Hw1) as [Hw2 Hl2]. split; [exact Hw2 | lia].
Qed.

Lemma keeps_create_sheet (t : str) : valid_title t = true -> keeps (create_sheet t).
Proof.
  intros Ht wb wb' y H Hw. unfold create_sheet in H. injection H as _ <-. split.
  - apply Forall_app. split; [exact Hw|].
    constructor; [|constructor]. split; [exact Ht | constructor].
  - rewrite length_app. lia.
Qed.

Lemma keeps_set_cell (ws : nat) (key : nat * nat) (v : str) :
  keeps (set_cell illegal_character_message ws key v).
Proof.
  intros wb wb' y H Hw. unfold set_cell, check_string in H.
  remember (firstn max_cell_length v) as v' eqn:Hv'.
  destruct (existsb illegal v') eqn:E; [discriminate|].
  injection H as _ <-. split.
  - apply Forall_update_nth; [|exact Hw].
    intros sheet [Ht Hc]. cbn [write title cells]. split; [exact Ht|].
    apply Forall_app. split; [exact Hc|].
    constructor; [|constructor]. cbn [snd]. split.
    + rewrite Hv'. apply firstn_le_length.
    + unfold legal. rewrite E. reflexivity.
  - rewrite length_update_nth_same. lia.
Qed.

Ltac step :=
  repeat lazymatch goal with
         | |- keeps (bind _ _) => apply keeps_bind; [|intros ?]
         | |- keeps (ret _) => apply keeps_ret
         | |- keeps (raise _) => apply keeps_raise
         | |- keeps (lift _) => apply keeps_lift
         | |- keeps (set_cell _ _ _ _) => apply keeps_set_cell
         | |- keeps (create_sheet _) => apply keeps_create_sheet; reflexivity
         end.

Lemma keeps_write_paragraphs (ws : nat) (paragraphs : list str) :
  forall row_num : nat,
    keeps (write_paragraphs illegal_character_message ws paragraphs row_num).
Proof.
  induction paragraphs as [|p ps IH]; intros row_num; cbn [write_paragraphs].
  - step.
  - destruct (nonempty (strip p)); [|apply IH]. step. apply IH.
Qed.

Lemma keeps_write_pages (ws : nat) (text_data : list value) :
  forall i row_num : nat,
    keeps (write_pages illegal_character_message ws text_data i row_num).
Proof.
  induction text_data as [|page rest IH]; intros i row_num; cbn [write_pages].
  - step.
  - step. destruct page; step.
    + apply keeps_write_paragraphs.
    + apply IH.
Qed.

Lemma keeps_add_text_sheet (text_data : value) (filename : str) :
  keeps (_add_text_sheet now illegal_character_message text_data filename).
Proof.
  unfold _add_text_sheet. step. destruct text_data; step.
  - apply keeps_write_paragraphs.
  - apply keeps_write_pages.
Qed.

Lemma keeps_add_summary_sheet (message filename : str) :
  keeps (_add_summary_sheet now illegal_character_message message filename).
Proof. unfold _add_summary_sheet. step. Qed.

Lemma keeps_add_error_sheet (error_message filename : str) :
  keeps (_add_error_sheet now_in_handler illegal_character_message error_message filename).
Proof. unfold _add_error_sheet. step. Qed.

Lemma keeps_write_row (ws r_idx : nat) (row : list cell) :
  forall c_idx : nat, keeps (write_row illegal_character_message ws r_idx c_idx row).
Proof.
  induction row as [|v rest IH]; intros c_idx; cbn [write_row].
  - step.
  - step; [destruct v; step | apply IH].
Qed.

Lemma keeps_write_rows (ws : nat) (rows : list (list cell)) :
  forall r_idx : nat, keeps (write_rows illegal_character_message ws r_idx rows).
Proof.
  induction rows as [|row rest IH]; intros r_idx; cbn [write_rows].
  - step.
  - step; [apply keeps_write_row | apply IH].
Qed.

(** ** Table sheets *)

Lemma match_invalid_title_char (prev : option char) (s : str) :
  match_at invalid_title_chars prev s =
  match s with
  | c :: _ => if existsb (N.eqb c) (py "\/*?:[]") then Some 1 else None
  | [] => None
  end.
Proof.
  destruct s as [|c t]; [reflexivity|].
  unfold match_at, invalid_title_chars, one. cbn [rmatch rep_match].
  match goal with |- context [in_charset ?cs c] =>
    change (in_charset cs c) with (existsb (N.eqb c) (py "\/*?:[]")) end.
  destruct (existsb (N.eqb c) (py "\/*?:[]")); [|reflexivity].
  cbn [andb negb exhausted Nat.pred option_map].
  destruct t as [|c' t']; cbn [rep_match]; [reflexivity|].
  cbn [exhausted negb]. rewrite andb_false_r. reflexivity.
Qed.

(** What is left of a title after the substitution. *)
Lemma sub_invalid_title_chars (s : str) :
  forall prev : option char,
    forallb (fun c => negb (existsb (N.eqb c) (py "\/*?:[]")))
            (sub_from invalid_title_chars [] prev s 0) = true.
Proof.
  induction s as [|c t IH]; intros prev; cbn [sub_from].
  - rewrite match_invalid_title_char. reflexivity.
  - rewrite match_invalid_title_char.
    destruct (existsb (N.eqb c) (py "\/*?:[]")) eqn:E.
    + cbn [app]. apply IH.
    + cbn [forallb]. rewrite E. cbn [negb andb]. apply IH.
Qed.

Lemma keeps_add_table_sheet (i : nat) (df : value) (filename : str) :
  keeps (add_table_sheet illegal_character_message i df filename).
Proof.
  unfold add_table_sheet. apply keeps_bind.
  - apply keeps_create_sheet, valid_title_firstn. unfold sub.
    apply sub_invalid_title_chars.
  - intros ws. step.
    + destruct (page_of df); step.
    + destruct df; step. apply keeps_write_rows.
Qed.

Lemma keeps_add_table_sheets (tables_data : list value) (filename : str) :
  forall i : nat, keeps (add_table_sheets illegal_character_message tables_data i filename).
Proof.
  induction tables_data as [|df rest IH]; intros i; cbn [add_table_sheets].
  - step.
  - step; [apply keeps_add_table_sheet | apply IH].
Qed.

Lemma keeps_add_table_sheets_or_summary (tables_data : value) (filename : str) :
  keeps (_add_table_sheets now illegal_character_message tables_data filename).
Proof.
  unfold _add_table_sheets. step. destruct (negb _).
  - apply keeps_add_summary_sheet.
  - apply keeps_add_table_sheets.
Qed.

(** ** The whole conversion *)

(** A sheet was added. *)
Lemma sheet_added {A} (t : str) (k : nat -> W A) (wb wb' : Workbook) (x : A) :
  valid_title t = true -> (forall ws, keeps (k ws)) -> well_formed wb ->
  bind (create_sheet t) k wb = inr (x, wb') -> 1 <= length wb'.
Proof.
  intros Ht Hk Hw H. unfold bind, create_sheet in H.
  assert (Hw1 : well_formed (wb ++ [{| title := t; cells := [] |}])).
  { apply Forall_app. split; [exact Hw|].
    constructor; [|constructor]. split; [exact Ht | constructor]. }
  destruct (Hk _ _ _ _ H Hw1) as [_ Hl].
  rewrite length_app in Hl. simpl in Hl. lia.
Qed.

Lemma build_well_formed (data : value) (extraction_method filename : str)
    (wb wb' : Workbook) (x : unit) :
  build now illegal_character_message data extraction_method filename wb = inr (x, wb') ->
  well_formed wb -> well_formed wb' /\ 1 <= length wb'.
Proof.
  unfold build. intros H Hw. unfold bind at 1 in H.
  match type of H with
  | match ?m wb with _ => _ end = _ =>
      assert (Hm : keeps m); [|destruct (m wb) as [e|[u wb1]] eqn:E; [discriminate|]]
  end.
  { destruct (str_eqb extraction_method (py "Text Extraction"));
      [apply keeps_add_text_sheet|].
    destruct (str_eqb extraction_method (py "Table Detection"));
      [apply keeps_add_table_sheets_or_summary|].
    destruct data; try apply keeps_add_text_sheet.
    step;
      match goal with |- keeps (if ?t then _ else _) => destruct t end;
      first [apply keeps_add_text_sheet | apply keeps_add_table_sheets_or_summary | step]. }
  destruct (Hm _ _ _ E Hw) as [Hw1 _].
  destruct wb1 as [|sheet rest].
  - split.
    + eapply keeps_add_summary_sheet; [exact H | exact Hw1].
    + unfold _add_summary_sheet in H.
      refine (sheet_added _ _ _ _ _ _ _ Hw1 H); [reflexivity | intros ws; step].
  - injection H as _ <-. split; [exact Hw1 | simpl; lia].
Qed.

Lemma convert_to_excel_well_formed (data : value) (extraction_method filename : str)
    (wb : Workbook) :
  convert_to_excel now now_in_handler illegal_character_message
    data extraction_method filename = inr wb ->
  well_formed wb /\ 1 <= length wb.
Proof.
  unfold convert_to_excel. cbn [remove_active Workbook_new].
  destruct (build now illegal_character_message data extraction_method filename [])
    as [e|[u wb1]] eqn:E.
  - destruct (_add_error_sheet now_in_handler illegal_character_message (snd e) filename [])
      as [e'|[u wb1]] eqn:E'; [discriminate|].
    intros H. injection H as <-. split.
    + eapply keeps_add_error_sheet; [exact E' | constructor].
    + unfold _add_error_sheet in E'.
      refine (sheet_added _ _ _ _ _ _ _ (Forall_nil _) E'); [reflexivity | intros ws; step].
  - intros H. injection H as <-. eapply build_well_formed; [exact E | constructor].
Qed.

(** Every workbook that [convert_to_excel] returns, built by the [try]
    block or by the [except] branch, has at least one sheet, and each of
    its sheets was created with a title of at most 31 characters that
    holds none of [\ / * ? : [ ]]. *)
Lemma workbook_sheets_are_named (data : value) (extraction_method filename : str)
    (wb : Workbook) :
  convert_to_excel now now_in_handler illegal_character_message
    data extraction_method filename = inr wb ->
  1 <= length wb /\
  Forall (fun ws =>
            length (title ws) <= 31 /\
            Forall (fun c => ~ In c (py "\/*?:[]")) (title ws))
         wb.
Proof.
  intros H. apply convert_to_excel_well_formed in H as [Hw Hl].
  split; [exact Hl|]. unfold well_formed in Hw.
  eapply Forall_impl; [|exact Hw]. intros ws [Ht _].
  unfold valid_title in Ht. apply andb_prop in Ht as [Hlen Hch].
  split; [apply Nat.leb_le, Hlen|].
  rewrite forallb_forall in Hch. apply Forall_forall. intros c Hc Hin.
  specialize (Hch c Hc). apply negb_true_iff in Hch.
  assert (Hex : existsb (N.eqb c) (py "\/*?:[]") = true).
  { apply existsb_exists. exists c. split; [exact Hin | apply N.eqb_refl]. }
  congruence.
Qed.

End Facts.

(** A run of [workbook_sheets_are_named]: one table, from page 1. *)
Lemma workbook_sheets_are_named_witness :
  1 <= length
         [{| title := py "Table_1_Page_1";
             cells := [((1, 1), py "Table 1 from: report.pdf");
                       ((2, 1), py "Source: Page 1");
                       ((4, 1), py "name"); ((4, 2), py "mail");
                       ((5, 1), py "ann"); ((5, 2), py "ann@example.com")] |}] /\
  Forall (fun ws =>
            length (title ws) <= 31 /\
            Forall (fun c => ~ In c (py "\/*?:[]")) (title ws))
         [{| title := py "Table_1_Page_1";
             cells := [((1, 1), py "Table 1 from: report.pdf");
                       ((2, 1), py "Source: Page 1");
                       ((4, 1), py "name"); ((4, 2), py "mail");
                       ((5, 1), py "ann"); ((5, 2), py "ann@example.com")] |}].
Proof.
  refine (workbook_sheets_are_named (U:=ascii_only) (py "2024-01-01 00:00:00")
            (py "2024-01-01 00:00:01") (fun v => v)
            (VList [VFrame contact_frame]) (py "Table Detection") (py "report.pdf")
            _ _).
  vm_compute. reflexivity.
Defined.

End workbook_properties.

(* ===================================================================== *)
(** * Column names that repeat *)
(* ===================================================================== *)

Module header_properties.
Import Py Re Exn Pandas data_sanitizer pdf_processor proof_notions samples
       extraction_properties document_properties data_properties.

Lemma nth_error_clean_column_names (cols : list label) (k : nat) :
  nth_error (clean_column_names cols) k =
  option_map (fun c : label =>
                match c with
                | Some col => Some (strip col)
                | None => Some (column_name k)
                end)
             (nth_error cols k).
Proof.
  unfold clean_column_names, enumerate.
  assert (H : forall (n : nat) (l : list label) (k : nat),
            nth_error
              (map (fun ic : nat * label =>
                      match snd ic with
                      | Some col => Some (strip col)
                      | None => Some (column_name (fst ic))
                      end)
                   (combine (seq n (length l)) l)) k =
            option_map (fun c : label =>
                          match c with
                          | Some col => Some (strip col)
                          | None => Some (column_name (n + k))
                          end)
                       (nth_error l k)).
  { clear. intros n l. revert n. induction l as [|c l IH]; intros n [|k]; try reflexivity.
    - cbn. rewrite Nat.add_0_r. reflexivity.
    - cbn [length seq combine map nth_error]. rewrite IH.
      rewrite Nat.add_succ_r. reflexivity. }
  apply (H 0).
Qed.

Section Facts.
Context {U : Unicode}.
Variable pdfplumber_open : bytes -> result (list page).

(** The loop over the columns comes to its end only if every label it
    meets has one position. *)
Lemma clean_values_single (todo : list label) :
  forall df df' : DataFrame,
    clean_values todo df = inr df' ->
    forall c, In c todo -> exists j, get_loc c (columns df) 0 = [j].
Proof.
  induction todo as [|col rest IH]; intros df df' H c Hc; [destruct Hc|].
  cbn [clean_values] in H. unfold series_loc in H.
  destruct (get_loc col (columns df) 0) as [|j [|j' l]] eqn:Hg; try discriminate.
  destruct Hc as [<-|Hc]; [exists j; exact Hg|].
  exact (IH _ _ H c Hc).
Qed.

(** It stops at the first label that occurs twice. *)
Lemma clean_values_repeated (cols : list label) (todo : list label) :
  ~ NoDup cols ->
  forall (done : list label) (df : DataFrame),
    cols = done ++ todo -> columns df = cols ->
    (forall c, In c done -> exists j, get_loc c cols 0 = [j]) ->
    clean_values todo df = inl (no_attribute "DataFrame" "str").
Proof.
  intros Hdup. induction todo as [|col rest IH]; intros done df Hcols Hdf Hdone.
  - exfalso. apply Hdup. rewrite app_nil_r in Hcols. subst done.
    exact (single_positions_distinct cols 0 Hdone).
  - cbn [clean_values]. unfold series_loc. rewrite Hdf.
    assert (Hin : In col cols) by (rewrite Hcols; apply in_or_app; right; left; reflexivity).
    apply In_nth_error in Hin as [k Hk].
    pose proof (get_loc_contains cols k 0 col Hk) as Hloc.
    destruct (get_loc col cols 0) as [|a [|b l]] eqn:Hg.
    + destruct Hloc.
    + apply (IH (done ++ [col])).
      * rewrite <- app_assoc. exact Hcols.
      * exact Hdf.
      * intros c Hc. apply in_app_or in Hc as [Hc|[<-|[]]].
        -- apply Hdone, Hc.
        -- exists a. exact Hg.
    + reflexivity.
Qed.

Lemma clean_values_columns (todo : list label) :
  forall df df' : DataFrame,
    clean_values todo df = inr df' -> columns df' = columns df.
Proof.
  induction todo as [|col rest IH]; intros df df' H.
  - injection H as <-. reflexivity.
  - cbn [clean_values] in H. destruct (series_loc "str" col df); [discriminate|].
    apply IH in H. exact H.
Qed.

Lemma table_frame_distinct (rm : bool) (page_num table_num : nat)
    (table : raw_table) (df : DataFrame) :
  table_frame rm page_num table_num table = inr (Some df) -> NoDup (columns df).
Proof.
  unfold table_frame. destruct table as [|first rest]; [discriminate|].
  destruct (DataFrame_new _ _) as [e|df0]; [discriminate|].
  set (df1 := if rm then drop_blank_rows (dropna_all df0) else df0).
  set (df2 := with_columns df1 (clean_column_names (columns df1))).
  destruct (clean_values (columns df2) df2) as [e|df3] eqn:Hcv; [discriminate|].
  pose proof (clean_values_single _ _ _ Hcv) as Hs.
  pose proof (clean_values_columns _ _ _ Hcv) as Hc3.
  destruct (empty _); [discriminate|].
  intros H. injection H as <-. cbn [columns with_attrs]. rewrite Hc3.
  exact (single_positions_distinct _ 0 Hs).
Qed.

(** A table built from a detected raw table has column names that differ
    from each other, so sanitizing it does not raise: the result is a new
    frame. *)
Lemma detected_table_is_sanitized (remove_empty_rows : bool) (page_num table_num : nat)
    (table : raw_table) (df : DataFrame)
    (basic_sanitization redact_numbers : bool) (h : heap) (r : ref) :
  table_frame remove_empty_rows page_num table_num table = inr (Some df) ->
  nth_error h r = Some df ->
  NoDup (columns df) /\
  exists h' : heap,
    sanitize_dataframe (Some r) basic_sanitization redact_numbers h =
    (inr (Some (length h)), h').
Proof.
  intros Ht Hr.
  pose proof (table_frame_distinct _ _ _ _ _ Ht) as Hnd.
  pose proof (table_frame_rectangular _ _ _ _ _ Ht) as Hrect.
  pose proof (table_frame_not_empty _ _ _ _ _ Ht) as (He & _ & _).
  split; [exact Hnd|].
  unfold sanitize_dataframe. rewrite Hr, He.
  pose proof (sanitize_columns_from df basic_sanitization redact_numbers h
                (columns df) Hnd Hrect 0 eq_refl) as H.
  cbn zeta in H.
  replace (with_rows df (map (done_upto _ 0) (rows df))) with df in H.
  - rewrite H. eexists. reflexivity.
  - unfold done_upto. cbn [firstn skipn map app]. rewrite map_id.
    destruct df; reflexivity.
Qed.

Lemma table_frame_repeated_header (rm : bool) (page_num table_num : nat)
    (h0 : label) (hs : list label) (data : list (list cell))
    (df0 : DataFrame) (i j : nat) (a b : str) :
  DataFrame_new data (h0 :: hs) = inr df0 ->
  i < j ->
  nth_error (h0 :: hs) i = Some (Some a) ->
  nth_error (h0 :: hs) j = Some (Some b) ->
  strip a = strip b ->
  table_frame rm page_num table_num ((h0 :: hs) :: data) =
  inl (no_attribute "DataFrame" "str").
Proof.
  intros Hnew Hij Hi Hj Hab. unfold table_frame. rewrite Hnew.
  apply DataFrame_new_rows in Hnew as [_ Hcols].
  set (df1 := if rm then drop_blank_rows (dropna_all df0) else df0).
  assert (H1 : columns df1 = h0 :: hs) by (unfold df1; destruct rm; exact Hcols).
  set (df2 := with_columns df1 (clean_column_names (columns df1))).
  assert (Hdup : ~ NoDup (columns df2)).
  { unfold df2. cbn [columns with_columns]. rewrite H1.
    intros Hnd. rewrite NoDup_nth_error in Hnd.
    assert (i = j); [|lia]. apply Hnd.
    - apply nth_error_Some. rewrite nth_error_clean_column_names, Hi. discriminate.
    - rewrite !nth_error_clean_column_names, Hi, Hj. cbn [option_map].
      rewrite Hab. reflexivity. }
  rewrite (clean_values_repeated (columns df2) (columns df2) Hdup [] df2 eq_refl eq_refl).
  - reflexivity.
  - intros c [].
Qed.

(** A raw table whose header has the same name in two cells, up to
    surrounding white space: when it is the first table of the last page,
    [extract_tables] fails with the AttributeError of reading [str] from
    what the repeated name selects, and returns no table at all. *)
Lemma repeated_header_fails (self : PDFProcessor) (pdf_bytes : bytes)
    (pages : list page) (last_page : page)
    (h0 : label) (hs : list label) (data : list (list cell))
    (more : list raw_table) (df0 : DataFrame) (i j : nat) (a b : str)
    (remove_empty_rows : bool) (tr : list event) :
  _validate_pdf_security self pdf_bytes = inr true ->
  pdfplumber_open pdf_bytes = inr (pages ++ [last_page]) ->
  Forall (fun q => exists t, extract_tables_of q = inr t) pages ->
  extract_tables_of last_page = inr (((h0 :: hs) :: data) :: more) ->
  DataFrame_new data (h0 :: hs) = inr df0 ->
  i < j ->
  nth_error (h0 :: hs) i = Some (Some a) ->
  nth_error (h0 :: hs) j = Some (Some b) ->
  strip a = strip b ->
  extract_tables pdfplumber_open self pdf_bytes remove_empty_rows tr =
  (inl (Exception, Failed_tables (Plain (snd (no_attribute "DataFrame" "str")))),
   tr ++ [Opened pdf_bytes]).
Proof.
  intros Hv Ho Hall Hlast Hnew Hij Hi Hj Hab.
  unfold extract_tables, try_except, bind, lift, lift_exn, open, raise, ret.
  rewrite Hv, Ho, (for_pages_last _ _ _ _ Hall Hlast).
  cbn [tables_loop].
  rewrite (table_frame_repeated_header _ _ _ _ _ _ _ _ _ _ _ Hnew Hij Hi Hj Hab).
  reflexivity.
Qed.

End Facts.

(** A run of [detected_table_is_sanitized]: the ragged table. *)
Lemma detected_table_is_sanitized_witness :
  NoDup [Some (py "h1"); Some (py "h2")] /\
  exists h' : heap,
    sanitize_dataframe (U:=ascii_only) (Some 0) true false
      [{| columns := [Some (py "h1"); Some (py "h2")];
          rows := [[Some (py "1"); Some []]; [Some (py "x"); Some []]];
          attrs_page := Some 1; attrs_table := Some 1 |}] =
    (inr (Some 1), h').
Proof.
  refine (detected_table_is_sanitized (U:=ascii_only) true 0 0 ragged_table
            {| columns := [Some (py "h1"); Some (py "h2")];
               rows := [[Some (py "1"); Some []]; [Some (py "x"); Some []]];
               attrs_page := Some 1; attrs_table := Some 1 |}
            true false
            [{| columns := [Some (py "h1"); Some (py "h2")];
                rows := [[Some (py "1"); Some []]; [Some (py "x"); Some []]];
                attrs_page := Some 1; attrs_table := Some 1 |}]
            0 _ eq_refl).
  vm_compute. reflexivity.
Defined.

(** A run of [repeated_header_fails]: two columns named ["a"], one with
    a blank before the name. *)
Lemma repeated_header_fails_witness :
  extract_tables (U:=ascii_only)
    (fun _ => inr [table_page [[[Some (py "a"); Some (py " a")];
                                [Some (py "1"); Some (py "2")]]]])
    __init__ small_pdf true [] =
  (inl (Exception, Failed_tables (Plain (snd (no_attribute "DataFrame" "str")))),
   [Opened small_pdf]).
Proof.
  refine (repeated_header_fails (U:=ascii_only)
            (fun _ => inr [table_page [[[Some (py "a"); Some (py " a")];
                                        [Some (py "1"); Some (py "2")]]]])
            __init__ small_pdf []
            (table_page [[[Some (py "a"); Some (py " a")];
                          [Some (py "1"); Some (py "2")]]])
            (Some (py "a")) [Some (py " a")] [[Some (py "1"); Some (py "2")]] []
            {| columns := [Some (py "a"); Some (py " a")];
               rows := [[Some (py "1"); Some (py "2")]];
               attrs_page := None; attrs_table := None |}
            0 1 (py "a") (py " a") true []
            eq_refl eq_refl (Forall_nil _) eq_refl eq_refl _ eq_refl eq_refl eq_refl).
  lia.
Defined.

End header_properties.

(* ===================================================================== *)
(** * What redaction leaves *)
(* ===================================================================== *)

Module redaction_properties.
Import Py Re Exn data_sanitizer proof_notions sanitizer_properties summary_properties.

Section Facts.
Context {U : Unicode}.

(** A text that the substitution leaves as it is has no match. *)
Lemma fixed_text_has_no_match (text : str) :
  sub numeric_sequences NUMBER_REDACTED text = text ->
  findall_count numeric_sequences text = 0.
Proof.
  intros H.
  pose proof (sub_brackets numeric_sequences NUMBER_REDACTED text eq_refl eq_refl) as Hb.
  rewrite H in Hb. lia.
Qed.

(** A scan that counts nothing found no match at any position. *)
Lemma count_from_nothing (r : regex) (s : str) :
  forall prev : option char,
    count_from r prev s 0 = 0 ->
    forall a b : str, s = a ++ b -> match_at r (prev_after prev a) b = None.
Proof.
  induction s as [|c t IH]; intros prev H a b Hs.
  - symmetry in Hs. apply app_eq_nil in Hs as [-> ->].
    cbn [count_from] in H. cbn [prev_after fold_left].
    destruct (match_at r prev []); [discriminate | reflexivity].
  - cbn [count_from] in H.
    destruct (match_at r prev (c :: t)) as [[|k]|] eqn:Hm; try discriminate.
    destruct a as [|x a'].
    + cbn [app] in Hs. subst b. exact Hm.
    + cbn [app] in Hs. injection Hs as <- Hs.
      change (prev_after prev (c :: a')) with (prev_after (Some c) a').
      exact (IH (Some c) H a' b Hs).
Qed.

(** Once the numbers are redacted, the pattern for them matches nowhere
    in the result, with or without basic sanitization before: at every
    position of the sanitized text, no run of four or more digits between
    word boundaries starts. *)
Lemma redacted_text_has_no_number (text : str) (basic_sanitization : bool)
    (before after : str) :
  sanitize_text text basic_sanitization true = before ++ after ->
  match_at numeric_sequences (prev_after None before) after = None.
Proof.
  intros H. apply (count_from_nothing numeric_sequences _ None) with (2 := H).
  change (findall_count numeric_sequences
            (sanitize_text text basic_sanitization true) = 0).
  unfold sanitize_text. destruct text as [|c t]; [reflexivity|].
  apply fixed_text_has_no_match, redact_idempotent.
Qed.

End Facts.

(** A run of [redacted_text_has_no_number]: nothing matches where the
    number was. *)
Lemma redacted_text_has_no_number_witness :
  match_at (U:=ascii_only) numeric_sequences (Some (ch " "))
    (py "[NUMBER_REDACTED] ok") = None.
Proof.
  exact (redacted_text_has_no_number (U:=ascii_only) (py "pin 12345 ok") false
           (py "pin ") (py "[NUMBER_REDACTED] ok") eq_refl).
Defined.

End redaction_properties.
